(** * HQL: the query language of the Harvest plugin (src/main.ts)

    A shallow embedding of the HQL parser ([parseQuery], [parseTimeRange]),
    of the report renderer ([renderReport], [renderList], [renderSummary])
    and of the code-block processor ([hqlProcessor], [getTimeEntries]),
    with the properties the specification states about them.

    Conventions of the embedding.
    - Numbers are exact: a time value is an integer number of milliseconds
      ([Z]), hours are rationals ([Q]); floating-point rounding is outside
      the embedding.  A [Date] holds a time value of at most 8.64e15 in
      absolute value, or is invalid ([TimeClip]).
    - Strings are sequences of ASCII code units.
    - The local time zone is a fixed offset [tza] from UTC (milliseconds,
      local = UTC + tza); daylight-saving transitions are outside the
      embedding.
    - An asynchronous call is the value it resolves to. *)

From Stdlib Require Import ZArith Lia List Bool String Ascii.
From Stdlib Require Import QArith Qabs Qround Lqa.
From Stdlib Require Import Sorting.Sorted Sorting.Permutation.
From Stdlib Require Import Numbers.DecimalString Numbers.DecimalPos Numbers.DecimalZ.
Import ListNotations.

Local Open Scope string_scope.
Local Open Scope Z_scope.

(** ** Calendar arithmetic of [Date]

    The abstract operations by which ECMA-262 defines the methods of [Date]
    that the source calls ([getFullYear], [getMonth], [getDate], [getDay],
    [setDate], the [Date] constructor).  Names follow the standard. *)

Module ES.

Definition msPerDay : Z := 86400000.

Definition Day (t : Z) : Z := t / msPerDay.

Definition TimeWithinDay (t : Z) : Z := t mod msPerDay.

Definition DaysInYear (y : Z) : Z :=
  if negb (y mod 4 =? 0) then 365
  else if negb (y mod 100 =? 0) then 366
  else if negb (y mod 400 =? 0) then 365
  else 366.

Definition DayFromYear (y : Z) : Z :=
  365 * (y - 1970) + (y - 1969) / 4 - (y - 1901) / 100 + (y - 1601) / 400.

(** The year of a day number: the largest [y] with [DayFromYear y <= d].
    The mean length of a year gives an estimate that is off by one at most. *)
Definition YearFromDay (d : Z) : Z :=
  let y := 1970 + (400 * d) / 146097 in
  if DayFromYear (y + 1) <=? d then y + 1
  else if d <? DayFromYear y then y - 1
  else y.

Definition YearFromTime (t : Z) : Z := YearFromDay (Day t).

Definition InLeapYear (t : Z) : Z :=
  if DaysInYear (YearFromTime t) =? 366 then 1 else 0.

Definition DayWithinYear (t : Z) : Z := Day t - DayFromYear (YearFromTime t).

Definition MonthFromTime (t : Z) : Z :=
  let d := DayWithinYear t in
  let leap := InLeapYear t in
  if d <? 31 then 0
  else if d <? 59 + leap then 1
  else if d <? 90 + leap then 2
  else if d <? 120 + leap then 3
  else if d <? 151 + leap then 4
  else if d <? 181 + leap then 5
  else if d <? 212 + leap then 6
  else if d <? 243 + leap then 7
  else if d <? 273 + leap then 8
  else if d <? 304 + leap then 9
  else if d <? 334 + leap then 10
  else 11.

(** Days of the year that precede month [m] (0 = January). *)
Definition DaysBeforeMonth (leap m : Z) : Z :=
  match m with
  | 0 => 0
  | 1 => 31
  | 2 => 59 + leap
  | 3 => 90 + leap
  | 4 => 120 + leap
  | 5 => 151 + leap
  | 6 => 181 + leap
  | 7 => 212 + leap
  | 8 => 243 + leap
  | 9 => 273 + leap
  | 10 => 304 + leap
  | _ => 334 + leap
  end.

Definition DateFromTime (t : Z) : Z :=
  DayWithinYear t - DaysBeforeMonth (InLeapYear t) (MonthFromTime t) + 1.

Definition WeekDay (t : Z) : Z := (Day t + 4) mod 7.

(** [MakeDay year month date]: the day number of the first of the month
    [month mod 12] of the year [year + month / 12], plus [date - 1]. *)
Definition MakeDay (year month date : Z) : Z :=
  let ym := year + month / 12 in
  let mn := month mod 12 in
  let leap := if DaysInYear ym =? 366 then 1 else 0 in
  DayFromYear ym + DaysBeforeMonth leap mn + date - 1.

Definition MakeDate (day time : Z) : Z := day * msPerDay + time.

Definition DaysInMonth (y m : Z) : Z :=
  MakeDay y (m + 1) 1 - MakeDay y m 1.

End ES.

(** ** Strings

    The methods of [String] that the source calls, on ASCII code units. *)

Definition code (c : ascii) : Z := Z.of_N (N_of_ascii c).

(** The ASCII members of the white space class ([\s], [trim]):
    TAB, LF, VT, FF, CR and SPACE. *)
Definition isWhiteSpace (c : ascii) : bool :=
  let n := code c in ((9 <=? n) && (n <=? 13)) || (n =? 32).

Fixpoint trimStart (s : string) : string :=
  match s with
  | String c s' => if isWhiteSpace c then trimStart s' else s
  | EmptyString => EmptyString
  end.

(** [trimEnd]: a white space character is dropped when nothing but white
    space follows it. *)
Fixpoint trimEnd (s : string) : string :=
  match s with
  | String c s' =>
      match trimEnd s' with
      | EmptyString => if isWhiteSpace c then EmptyString else String c EmptyString
      | r => String c r
      end
  | EmptyString => EmptyString
  end.

Definition trim (s : string) : string := trimEnd (trimStart s).

(** [s.split(/\s+/)]: the pieces between maximal runs of white space; a run
    at either end of [s] leaves an empty piece there, and the empty string
    splits into one empty piece.  [cur] is the piece being read, [inRun]
    tells that the last character was white space. *)
Fixpoint splitFrom (cur : string) (inRun : bool) (s : string) : list string :=
  match s with
  | EmptyString => [cur]
  | String c s' =>
      if isWhiteSpace c then
        if inRun then splitFrom cur true s'
        else cur :: splitFrom EmptyString true s'
      else splitFrom (cur ++ String c EmptyString) false s'
  end.

Definition split (s : string) : list string := splitFrom EmptyString false s.

Definition toUpperCaseChar (c : ascii) : ascii :=
  let n := code c in
  if (97 <=? n) && (n <=? 122) then ascii_of_N (Z.to_N (n - 32)) else c.

Fixpoint toUpperCase (s : string) : string :=
  match s with
  | String c s' => String (toUpperCaseChar c) (toUpperCase s')
  | EmptyString => EmptyString
  end.

Fixpoint dropChars (n : nat) (s : string) : string :=
  match n, s with
  | S n', String _ s' => dropChars n' s'
  | _, _ => s
  end.

(** [s.includes(pat)]. *)
Fixpoint includes (pat s : string) : bool :=
  prefix pat s ||
  match s with
  | String _ s' => includes pat s'
  | EmptyString => false
  end.

(** [s.replace(pat, '')] with a string pattern: the first occurrence goes. *)
Fixpoint removeFirst (pat s : string) : string :=
  if prefix pat s then dropChars (String.length pat) s
  else match s with
       | String c s' => String c (removeFirst pat s')
       | EmptyString => EmptyString
       end.

(** [s.padStart(2, '0')]. *)
Definition padStart2 (s : string) : string :=
  match String.length s with
  | O => "00"
  | S O => "0" ++ s
  | _ => s
  end.

(** The decimal text of an integer-valued [Number]. *)
Definition NumberToString (n : Z) : string := NilZero.string_of_int (Z.to_int n).

(** The value of a digit in some radix: [0-9], then letters of either case. *)
Definition digitValue (c : ascii) : option Z :=
  let n := code c in
  if (48 <=? n) && (n <=? 57) then Some (n - 48)
  else if (65 <=? n) && (n <=? 90) then Some (n - 55)
  else if (97 <=? n) && (n <=? 122) then Some (n - 87)
  else None.

(** The value of the longest prefix of [s] made of digits of [radix];
    [acc] is [None] until a digit is read. *)
Fixpoint parseDigits (radix : Z) (acc : option Z) (s : string) : option Z :=
  match s with
  | String c s' =>
      match digitValue c with
      | Some v =>
          if v <? radix
          then parseDigits radix (Some (match acc with Some a => a * radix + v | None => v end)) s'
          else acc
      | None => acc
      end
  | EmptyString => acc
  end.

(** [parseInt(input)] with no radix argument; [None] is [NaN].  The argument
    is [tokens[i]], so it may be [undefined], whose text is ["undefined"]. *)
Definition parseInt (input : option string) : option Z :=
  let s := trimStart (match input with Some s => s | None => "undefined" end) in
  let '(sign, s) :=
    match s with
    | String "-" r => (-1, r)
    | String "+" r => (1, r)
    | _ => (1, s)
    end in
  let '(radix, s) :=
    match s with
    | String "0" (String "x" r) => (16, r)
    | String "0" (String "X" r) => (16, r)
    | _ => (10, s)
    end in
  option_map (Z.mul sign) (parseDigits radix None s).

(** ** Errors *)

(** A function that may throw: [Throw message] is [throw new Error(message)]. *)
Inductive result (A : Type) : Type :=
| Return (a : A)
| Throw (message : string).
Arguments Return {A} a.
Arguments Throw {A} message.

Definition bind {A B : Type} (r : result A) (k : A -> result B) : result B :=
  match r with
  | Return a => k a
  | Throw m => Throw m
  end.

Notation "x <- r ;; k" := (bind r (fun x => k))
  (at level 61, r at next level, right associativity).
Notation "' pat <- r ;; k" := (bind r (fun pat => k))
  (at level 61, pat pattern, r at next level, right associativity).

(** ** HQL types *)

Definition ISODate : Type := string.

Inductive QueryType : Type := SUMMARY | LIST.

Record HarvestQuery : Type := {
  type : QueryType;
  from : ISODate;
  to : ISODate
}.

(** ** Dates *)

(** The largest time value of a [Date]: 100,000,000 days from the epoch. *)
Definition maxTime : Z := 8640000000000000.

(** A [Date] object: its time value, in milliseconds since the epoch (UTC),
    or an invalid date, whose time value is [NaN]. *)
Inductive Date : Type :=
| Valid (t : Z)
| Invalid.

Coercion Valid : Z >-> Date.

(** [TimeClip]: a time beyond the range makes an invalid date. *)
Definition TimeClip (t : Z) : Date :=
  if Z.abs t <=? maxTime then Valid t else Invalid.

(** ** The parser *)

Section Parser.

(** The offset of local time from UTC, in milliseconds. *)
Variable tza : Z.

(** What [Date.parse] makes of a string that is not a date-only ISO form
    with a valid month and day; the standard leaves it to the platform.
    [None] is an invalid date. *)
Variable parseOther : string -> option Z.

Definition LocalTime (t : Z) : Z := t + tza.
Definition UTC (t : Z) : Z := t - tza.

(** The getters of a valid [Date], on its time value: they read local
    time.  On an invalid date they give [NaN], which the callers below deal
    with where they read a date that may be invalid. *)
Definition getFullYear (date : Z) : Z := ES.YearFromTime (LocalTime date).
Definition getMonth (date : Z) : Z := ES.MonthFromTime (LocalTime date).
Definition getDate (date : Z) : Z := ES.DateFromTime (LocalTime date).
Definition getDay (date : Z) : Z := ES.WeekDay (LocalTime date).

(** The time that [date.setDate(dt)] makes of the time value [date]: the
    day of the month is replaced in local time and the time within the day
    is kept. *)
Definition setDateValue (date dt : Z) : Z :=
  let t := LocalTime date in
  UTC (ES.MakeDate (ES.MakeDay (ES.YearFromTime t) (ES.MonthFromTime t) dt)
                   (ES.TimeWithinDay t)).

(** [date.setDate(dt)] on a valid date: the new date, whose time value the
    call also returns. *)
Definition setDate (date dt : Z) : Date := TimeClip (setDateValue date dt).

(** The time of [new Date(year, month, day)]: local midnight; a year from 0
    to 99 stands for 1900 + year. *)
Definition newDateYMDValue (year month day : Z) : Z :=
  let yr := if (0 <=? year) && (year <=? 99) then 1900 + year else year in
  UTC (ES.MakeDate (ES.MakeDay yr month day) 0).

(** [new Date(year, month, day)]. *)
Definition newDateYMD (year month day : Z) : Date :=
  TimeClip (newDateYMDValue year month day).

Definition digit (c : ascii) : option Z :=
  let n := code c in
  if (48 <=? n) && (n <=? 57) then Some (n - 48) else None.

(** The date-only ISO form [YYYY-MM-DD]: year, month (1 to 12) and day
    (1 to the length of the month). *)
Definition parseDateOnly (s : string) : option (Z * Z * Z) :=
  match s with
  | String y1 (String y2 (String y3 (String y4 (String sep1
      (String m1 (String m2 (String sep2 (String d1 (String d2 EmptyString))))))))) =>
      match digit y1, digit y2, digit y3, digit y4,
            digit m1, digit m2, digit d1, digit d2 with
      | Some a, Some b, Some c, Some d, Some e, Some f, Some g, Some h =>
          let y := 1000 * a + 100 * b + 10 * c + d in
          let m := 10 * e + f in
          let dd := 10 * g + h in
          if Ascii.eqb sep1 "-" && Ascii.eqb sep2 "-"
             && (1 <=? m) && (m <=? 12)
             && (1 <=? dd) && (dd <=? ES.DaysInMonth y (m - 1))
          then Some (y, m, dd) else None
      | _, _, _, _, _, _, _, _ => None
      end
  | _ => None
  end.

(** The time value of [new Date(s)] for a string, which is that of
    [Date.parse(s)]: a date-only form is midnight UTC of that day, and
    [None] is [NaN]. *)
Definition newDateString (s : string) : option Z :=
  match parseDateOnly s with
  | Some (y, m, d) => Some (ES.MakeDate (ES.MakeDay y (m - 1) d) 0)
  | None => parseOther s
  end.

(** The getters of an invalid date give [NaN], whose text is [NaN] with
    or without padding. *)
Definition formatDate (date : Date) : ISODate :=
  match date with
  | Valid date =>
      let year := getFullYear date in
      let month := padStart2 (NumberToString (getMonth date + 1)) in
      let day := padStart2 (NumberToString (getDate date)) in
      NumberToString year ++ "-" ++ month ++ "-" ++ day
  | Invalid => "NaN" ++ "-" ++ "NaN" ++ "-" ++ "NaN"
  end.

(** The text of [tokens[i]] in a template literal. *)
Definition tokenText (t : option string) : string :=
  match t with Some s => s | None => "undefined" end.

Definition tokenIs (t : option string) (s : string) : bool :=
  match t with Some x => String.eqb x s | None => false end.

(** The [switch] of [parseTimeRange]: the two [Date] objects [from] and [to]
    before they are formatted.  [now] is the clock read by [new Date()] at
    the top of the function ([today]); [now'] is the clock read by the second
    [new Date()], in the [PAST] case.  [today.setDate] in the [WEEK] case
    changes [today], which is not read again.  [new Date(value)] of the time
    value that [setDate] returns is a date of that value; on an invalid
    [firstDayOfWeek] the getter gives [NaN] and [setDate] leaves the copy
    invalid. *)
Definition rangeDates (now now' : Z) (tokens : list string) : result (Date * Date) :=
  let today := now in
  let t0 := nth_error tokens 0 in
  if tokenIs t0 "TODAY" then Return (Valid today, Valid today)
  else if tokenIs t0 "WEEK" then
    let dayOfWeek := getDay today in
    let firstDayOfWeek :=
      setDate today (getDate today - dayOfWeek + (if dayOfWeek =? 0 then -6 else 1)) in
    Return (firstDayOfWeek,
            match firstDayOfWeek with
            | Valid first => setDate first (getDate first + 6)
            | Invalid => Invalid
            end)
  else if tokenIs t0 "MONTH" then
    Return (newDateYMD (getFullYear today) (getMonth today) 1,
            newDateYMD (getFullYear today) (getMonth today + 1) 0)
  else if tokenIs t0 "PAST" then
    match parseInt (nth_error tokens 1) with
    | Some count =>
        if negb (tokenIs (nth_error tokens 2) "DAYS")
        then Throw "Invalid PAST format. Use 'PAST <number> DAYS'."
        else Return (setDate now' (getDate today - (count - 1)), Valid today)
    | None => Throw "Invalid PAST format. Use 'PAST <number> DAYS'."
    end
  else if tokenIs t0 "FROM" then
    if (Nat.ltb (List.length tokens) 4) || negb (tokenIs (nth_error tokens 2) "TO")
    then Throw "Invalid FROM...TO format."
    else
      match newDateString (tokenText (nth_error tokens 1)),
            newDateString (tokenText (nth_error tokens 3)) with
      | Some from, Some to => Return (Valid from, Valid to)
      | _, _ => Throw "Invalid date format in FROM...TO. Use YYYY-MM-DD."
      end
  else Throw ("Unknown time range specifier: " ++ tokenText t0).

Definition parseTimeRange (now now' : Z) (tokens : list string)
  : result (ISODate * ISODate) :=
 '(from, to) <- rangeDates now now' tokens ;;
  Return (formatDate from, formatDate to).

Definition tokenize (source : string) : list string :=
  map toUpperCase (split (trim source)).

Definition parseQuery (now now' : Z) (source : string) : result HarvestQuery :=
  let tokens := tokenize source in
  if Nat.ltb (List.length tokens) 2 then Throw "Query is too short."
  else
    let t0 := hd "" tokens in
    type <- (if String.eqb t0 "LIST" then Return LIST
             else if String.eqb t0 "SUMMARY" then Return SUMMARY
             else Throw ("Invalid query type: " ++ t0 ++ ". Must be LIST or SUMMARY.")) ;;
    '(from, to) <- parseTimeRange now now' (tl tokens) ;;
    Return {| type := type; from := from; to := to |}.

End Parser.

(** 2025-01-15 12:00 UTC, a Wednesday. *)
Definition noon_2025_01_15 : Z := 1736942400000.

Definition noOther : string -> option Z := fun _ => None.

(** The number of the local calendar day of a date, counted from
    1970-01-01. *)
Definition localDay (tza date : Z) : Z := ES.Day (LocalTime tza date).

(** The number of the calendar day that a [YYYY-MM-DD] text names. *)
Definition dayOfISO (s : ISODate) : option Z :=
  match parseDateOnly s with
  | Some (y, m, d) => Some (ES.MakeDay y (m - 1) d)
  | None => None
  end.

(** The last six characters of a text and what stands before them. *)
Fixpoint splitTail6 (s : string) : string * string :=
  match s with
  | EmptyString => (EmptyString, EmptyString)
  | String c s' =>
      if Nat.leb (String.length s) 6 then (EmptyString, s)
      else let '(a, b) := splitTail6 s' in (String c a, b)
  end.

(** The integer that a decimal text names, with [-] before a negative one:
    the text that [NumberToString] writes, read back. *)
Definition readInt (s : string) : option Z :=
  option_map Z.of_int (NilZero.int_of_string s).

(** The number of the calendar day that the text of a date names, whatever
    the number of digits of its year: the decimal text of the year, then
    [-MM-DD] with a month from 1 to 12 and a day of that month. *)
Definition dayOfText (s : string) : option Z :=
  let '(yearText, rest) := splitTail6 s in
  match rest, readInt yearText with
  | String sep1 (String m1 (String m2 (String sep2 (String d1 (String d2 EmptyString))))),
    Some y =>
      match digit m1, digit m2, digit d1, digit d2 with
      | Some e, Some f, Some g, Some h =>
          let m := 10 * e + f in
          let dd := 10 * g + h in
          if Ascii.eqb sep1 "-" && Ascii.eqb sep2 "-"
             && (1 <=? m) && (m <=? 12)
             && (1 <=? dd) && (dd <=? ES.DaysInMonth y (m - 1))
          then Some (ES.MakeDay y (m - 1) dd) else None
      | _, _, _, _ => None
      end
  | _, _ => None
  end.


(** ** Time entries *)

(** A project or a task as an entry refers to it. *)
Record HarvestRef : Type := { id : Z; name : string }.

(** The fields of a time entry that the reports read. *)
Record HarvestTimeEntry : Type := {
  entry_id : Z;
  spent_date : string;
  hours : Q;
  project : HarvestRef;
  task : HarvestRef
}.

(** ** The renderer *)

(** [x.toFixed(2)]: the nearest multiple of 1/100, the larger one of two
    that are equally near, with a sign when [x < 0]. *)
Definition toFixed2 (x : Q) : string :=
  let a := Qabs x in
  let n := Qfloor (a * 100 + (1 # 2))%Q in
  (if Qlt_le_dec x 0 then "-" else "")
  ++ NumberToString (n / 100) ++ "." ++ padStart2 (NumberToString (n mod 100)).

(** The own properties of an object in the order of their creation. *)
Fixpoint getOwn {V : Type} (o : list (string * V)) (k : string) : option V :=
  match o with
  | (k', v) :: o' => if String.eqb k' k then Some v else getOwn o' k
  | [] => None
  end.

(** An own property is set: one that exists keeps its place, a new one goes
    last. *)
Fixpoint setOwn {V : Type} (o : list (string * V)) (k : string) (v : V)
  : list (string * V) :=
  match o with
  | (k', v') :: o' => if String.eqb k' k then (k', v) :: o' else (k', v') :: setOwn o' k v
  | [] => [(k, v)]
  end.

(** What a property of [projectTotals] is read as. *)
Inductive Value : Type :=
| Undefined
| Number (q : Q)
| NaN
| Str        (* a string that is not the text of a number *)
| Method     (* a function that Object.prototype defines *)
| Prototype. (* Object.prototype itself *)

(** The object [projectTotals], made by [{}]: its own properties; reads of
    other names go to [Object.prototype]. *)
Definition Totals : Type := list (string * Value).

(** The names of the functions that [Object.prototype] defines. *)
Definition inheritedMethods : list string :=
  ["constructor"; "hasOwnProperty"; "isPrototypeOf"; "propertyIsEnumerable";
   "toLocaleString"; "toString"; "valueOf";
   "__defineGetter__"; "__defineSetter__"; "__lookupGetter__"; "__lookupSetter__"].

(** [o[k]]: [__proto__] is an accessor of [Object.prototype] that gives the
    prototype; any other name is an own property, a function of the
    prototype, or [undefined]. *)
Definition getProperty (o : Totals) (k : string) : Value :=
  if String.eqb k "__proto__" then Prototype
  else match getOwn o k with
       | Some v => v
       | None => if existsb (String.eqb k) inheritedMethods then Method else Undefined
       end.

(** [o[k] = v] for a number or a string [v]: the accessor [__proto__]
    ignores a value that is not an object; any other name becomes or stays
    an own property. *)
Definition setProperty (o : Totals) (k : string) (v : Value) : Totals :=
  if String.eqb k "__proto__" then o else setOwn o k v.

(** [!v]. *)
Definition falsy (v : Value) : bool :=
  match v with
  | Undefined | NaN => true
  | Number q => Qeq_bool q 0
  | Str | Method | Prototype => false
  end.

(** [v + h] for a number [h]: a sum of numbers, or the text of [v] followed
    by the text of [h]. *)
Definition plus (v : Value) (h : Q) : Value :=
  match v with
  | Number q => Number (q + h)
  | Undefined | NaN => NaN
  | Str | Method | Prototype => Str
  end.

(** One turn of the first loop of [renderSummary]. *)
Definition addEntry (st : Q * Totals) (entry : HarvestTimeEntry) : Q * Totals :=
  let '(totalHours, projectTotals) := st in
  let totalHours := (totalHours + hours entry)%Q in
  let projectName := name (project entry) in
  let projectTotals :=
    if falsy (getProperty projectTotals projectName)
    then setProperty projectTotals projectName (Number 0)
    else projectTotals in
  let projectTotals :=
    setProperty projectTotals projectName
      (plus (getProperty projectTotals projectName) (hours entry)) in
  (totalHours, projectTotals).

Definition aggregate (entries : list HarvestTimeEntry) : Q * Totals :=
  fold_left addEntry entries (0%Q, []).

Definition totalHours (entries : list HarvestTimeEntry) : Q := fst (aggregate entries).
Definition projectTotals (entries : list HarvestTimeEntry) : Totals := snd (aggregate entries).

(** An array index: the canonical decimal text of an integer from 0 to
    2^32 - 2. *)
Fixpoint allDigits (s : string) : bool :=
  match s with
  | String c s' =>
      let n := code c in (48 <=? n) && (n <=? 57) && allDigits s'
  | EmptyString => true
  end.

Definition arrayIndex (s : string) : option Z :=
  match s with
  | EmptyString => None
  | String c s' =>
      if allDigits s && (negb (Ascii.eqb c "0") || String.eqb s' EmptyString)
      then match parseDigits 10 None s with
           | Some n => if n <=? 4294967294 then Some n else None
           | None => None
           end
      else None
  end.

Definition isArrayIndex (s : string) : bool :=
  match arrayIndex s with Some _ => true | None => false end.

(** A stable sort by a comparator [cmp] in the manner of [Array.prototype.sort]:
    [a] goes after [b] when [cmp a b > 0].  The sort of the platform is stable,
    and for a comparator that orders its arguments consistently the stable
    result is the one this insertion sort builds. *)
Section Sort.

Context {A : Type} (cmp : A -> A -> Q).

Fixpoint insert (x : A) (l : list A) : list A :=
  match l with
  | y :: l' => if Qlt_le_dec 0 (cmp x y) then y :: insert x l' else x :: l
  | [] => [x]
  end.

Fixpoint sort (l : list A) : list A :=
  match l with
  | x :: l' => insert x (sort l')
  | [] => []
  end.

End Sort.

Definition indexOf (s : string) : Q :=
  match arrayIndex s with Some n => inject_Z n | None => 0%Q end.

(** [Object.keys(o)]: the names that are array indices in ascending numeric
    order, then the other names in the order of their creation. *)
Definition keys {V : Type} (o : list (string * V)) : list string :=
  let names := map fst o in
  sort (fun a b => indexOf a - indexOf b)%Q (filter isArrayIndex names)
  ++ filter (fun k => negb (isArrayIndex k)) names.

(** [b - a] as the sort reads it: a comparison that gives [NaN] counts as
    zero. *)
Definition difference (b a : Value) : Q :=
  match b, a with
  | Number x, Number y => (x - y)%Q
  | _, _ => 0%Q
  end.

Definition sortedProjects (entries : list HarvestTimeEntry) : list string :=
  let projectTotals := projectTotals entries in
  sort (fun a b => difference (getProperty projectTotals b) (getProperty projectTotals a))
       (keys projectTotals).

(** [totalHours > 0 ? (projectHours / totalHours) * 100 : 0]. *)
Definition percentage (totalHours : Q) (projectHours : Value) : Value :=
  if Qlt_le_dec 0 totalHours
  then match projectHours with
       | Number q => Number ((q / totalHours) * 100)%Q
       | _ => NaN
       end
  else Number 0.

(** [projectHours.toFixed(2)]: a value that is not a number has no such
    method, and the call throws a [TypeError] with the message of the
    platform. *)
Definition toFixed (projectHours : Value) : result string :=
  match projectHours with
  | Number q => Return (toFixed2 q)
  | NaN => Return "NaN"
  | Undefined => Throw "Cannot read properties of undefined (reading 'toFixed')"
  | Str | Method | Prototype => Throw "projectHours.toFixed is not a function"
  end.

Definition colors : list string :=
  ["#84b65a"; "#c25956"; "#59a7c2"; "#c29b59"; "#8e59c2"; "#c2598e"; "#5ac28a"].

Definition colorAt (colorIndex : nat) : string :=
  nth (colorIndex mod List.length colors) colors "".

(** A segment of the bar chart: [bar_width] is the number whose text,
    followed by [%], is the width. *)
Record Bar : Type := { bar_width : Value; bar_color : string; bar_title : string }.

Record LegendItem : Type := { swatch_color : string; legend_text : string }.

(** What [renderReport] leaves in its container. *)
Inductive Report : Type :=
| NoEntries (text : string)
| Table (header : list string) (rows : list (list string))
| Summary (heading total : string) (bars : list Bar) (legend : list LegendItem).

Definition renderList (entries : list HarvestTimeEntry) : Report :=
  Table ["Project"; "Task"; "Date"; "Hours"]
        (map (fun entry =>
                [name (project entry); name (task entry); spent_date entry;
                 toFixed2 (hours entry)])
             entries).

(** The two loops over [sortedProjects], with their counter [colorIndex]. *)
Fixpoint barsFrom (totalHours : Q) (projectTotals : Totals) (colorIndex : nat)
  (sortedProjects : list string) : result (list Bar) :=
  match sortedProjects with
  | projectName :: rest =>
      let projectHours := getProperty projectTotals projectName in
      let percentage := percentage totalHours projectHours in
      let color := colorAt colorIndex in
      text <- toFixed projectHours ;;
      bars <- barsFrom totalHours projectTotals (S colorIndex) rest ;;
      Return ({| bar_width := percentage; bar_color := color;
                 bar_title := projectName ++ ": " ++ text ++ " hours" |} :: bars)
  | [] => Return []
  end.

Fixpoint legendFrom (projectTotals : Totals) (colorIndex : nat)
  (sortedProjects : list string) : result (list LegendItem) :=
  match sortedProjects with
  | projectName :: rest =>
      let projectHours := getProperty projectTotals projectName in
      let color := colorAt colorIndex in
      text <- toFixed projectHours ;;
      items <- legendFrom projectTotals (S colorIndex) rest ;;
      Return ({| swatch_color := color;
                 legend_text := projectName ++ ": " ++ text ++ " hours" |} :: items)
  | [] => Return []
  end.

Definition renderSummary (entries : list HarvestTimeEntry) : result Report :=
  let totalHours := totalHours entries in
  let projectTotals := projectTotals entries in
  let sortedProjects := sortedProjects entries in
  bars <- barsFrom totalHours projectTotals 0 sortedProjects ;;
  legend <- legendFrom projectTotals 0 sortedProjects ;;
  Return (Summary "Time summary" ("Total hours: " ++ toFixed2 totalHours) bars legend).

Definition renderReport (entries : list HarvestTimeEntry) (query : HarvestQuery)
  : result Report :=
  match entries with
  | [] => Return (NoEntries "No time entries found for the selected period.")
  | _ =>
      match type query with
      | LIST => Return (renderList entries)
      | SUMMARY => renderSummary entries
      end
  end.

Definition entry (projectName : string) (h : Q) : HarvestTimeEntry :=
  {| entry_id := 0; spent_date := "2025-01-01"; hours := h;
     project := {| id := 0; name := projectName |};
     task := {| id := 0; name := "Task" |} |}.

(** ** The plugin and the code-block processor *)

Record HarvestPluginSettings : Type := {
  personalAccessToken : string;
  accountId : string
}.

(** The body of an answer to [/time_entries]; the field may be missing. *)
Record HarvestTimeEntriesResponse : Type := {
  time_entries : option (list HarvestTimeEntry)
}.

(** What a call of [requestUrl] comes to: it throws, or it returns a status
    and a body. *)
Inductive HttpOutcome : Type :=
| ConnectionFailed
| HttpResponse (status : Z) (json : HarvestTimeEntriesResponse).

(** The state of the plugin that a query reads, with the remote service as
    a function of the address requested. *)
Record HarvestPlugin : Type := {
  settings : HarvestPluginSettings;
  userId : option Z;
  requestUrl : string -> HttpOutcome
}.

(** [request]: [None] is [null]. *)
Definition request (plugin : HarvestPlugin) (endpoint : string)
  : option HarvestTimeEntriesResponse :=
  if String.eqb (personalAccessToken (settings plugin)) ""
     || String.eqb (accountId (settings plugin)) ""
  then None
  else
    match requestUrl plugin ("https://api.harvestapp.com/v2" ++ endpoint) with
    | ConnectionFailed => None
    | HttpResponse status json => if 400 <=? status then None else Some json
    end.

Definition getTimeEntries (plugin : HarvestPlugin) (query : HarvestQuery)
  : list HarvestTimeEntry :=
  match userId plugin with
  | None | Some 0 => []
  | Some uid =>
      let endpoint :=
        "/time_entries?from=" ++ from query ++ "&to=" ++ to query
        ++ "&user_id=" ++ NumberToString uid in
      match request plugin endpoint with
      | Some data =>
          match time_entries data with
          | Some entries => entries
          | None => []
          end
      | None => []
      end
  end.

(** An array is an object, and an object is truthy whatever it holds. *)
Definition truthy {A : Type} (array : list A) : bool := true.

(** What the element of the code block shows in the end. *)
Inductive Display : Type :=
| Text (text : string)
| Rendered (report : Report).

(** The note that holds the code block: its lines when the path names a
    file, and the first and last line of the block when the host knows. *)
Record Context : Type := {
  sourceFile : option (list string);
  sectionInfo : option (nat * nat)
}.

(** The end of a run of the processor: what the element shows, and the new
    lines of the note when it was rewritten. *)
Record Outcome : Type := {
  shown : Display;
  written : option (list string)
}.

Definition newline : string := String (ascii_of_nat 10) EmptyString.
Definition quote : string := String (ascii_of_nat 34) EmptyString.

Section Processor.

Variable tza : Z.
Variable parseOther : string -> option Z.

(** The markup of a rendered report ([innerHTML]), which the host builds. *)
Variable innerHTML : Report -> string.

Definition staticBlock (source : string) (report : Report) : string :=
  "<div class=" ++ quote ++ "harvest-static-container" ++ quote ++ ">" ++ newline
  ++ "<details>" ++ newline
  ++ "<summary>View static query</summary>" ++ newline
  ++ "<pre><code>" ++ source ++ "</code></pre>" ++ newline
  ++ "</details>" ++ newline
  ++ innerHTML report ++ newline
  ++ "</div>".

(** The body of the [try] of [hqlProcessor]. *)
Definition processed (now now' : Z) (plugin : HarvestPlugin)
  (source : string) (ctx : Context) : result Outcome :=
  let hasStaticFlag := includes "--static" source in
  let querySource := trim (removeFirst "--static" source) in
  query <- parseQuery tza parseOther now now' querySource ;;
  if hasStaticFlag then
    let entries := getTimeEntries plugin query in
    if negb (truthy entries) then
      Return {| shown := Text "Failed to fetch Harvest report."; written := None |}
    else
      report <- renderReport entries query ;;
      let replacementText := staticBlock source report in
      match sourceFile ctx with
      | None =>
          Return {| shown := Text "Error: Could not find file to write static report.";
                    written := None |}
      | Some lines =>
          match sectionInfo ctx with
          | None =>
              Return {| shown := Text "Error: Could not read file section to write static report.";
                        written := None |}
          | Some (lineStart, lineEnd) =>
              Return {| shown := Text "Loading static Harvest report...";
                        written := Some (firstn lineStart lines
                                         ++ [replacementText]
                                         ++ skipn (lineEnd + 1)%nat lines)%list |}
          end
      end
  else
    let entries := getTimeEntries plugin query in
    if truthy entries then
      report <- renderReport entries query ;;
      Return {| shown := Rendered report; written := None |}
    else
      Return {| shown := Text "Failed to fetch Harvest report."; written := None |}.

(** [hqlProcessor(plugin)(source, el, ctx)], with the clock readings of the
    parser.  The texts shown while a request is pending are replaced before
    the run ends, except on the static path, where the note is rewritten.
    An error thrown by the parser or by the renderer is caught, and its
    message is shown in place of what the element held. *)
Definition hqlProcessor (now now' : Z) (plugin : HarvestPlugin)
  (source : string) (ctx : Context) : Outcome :=
  match processed now now' plugin source ctx with
  | Return outcome => outcome
  | Throw message =>
      {| shown := Text ("Error processing Harvest query: " ++ message);
         written := None |}
  end.

End Processor.

(** ** Notions used to state the properties *)

Definition Qsum (l : list Q) : Q := fold_right Qplus 0%Q l.

(** Under the comparator [cmp], [a] may stand before [b]. *)
Definition inOrder {A : Type} (cmp : A -> A -> Q) (a b : A) : Prop :=
  (cmp a b <= 0)%Q.

Definition projectName (entry : HarvestTimeEntry) : string := name (project entry).

(** The names of a list in the order in which each is first met. *)
Definition addName (seen : list string) (k : string) : list string :=
  if existsb (fun k' => String.eqb k' k) seen then seen else (seen ++ [k])%list.

Definition firstSeen (names : list string) : list string :=
  fold_left addName names [].

Definition barsOf (report : Report) : list Bar :=
  match report with
  | Summary _ _ bars _ => bars
  | _ => []
  end.

(** The hours of the entries of the project [k]. *)
Definition hoursOf (entries : list HarvestTimeEntry) (k : string) : Q :=
  Qsum (map hours (filter (fun e => String.eqb (projectName e) k) entries)).

(** The projects whose hours are [h]. *)
Definition tied (entries : list HarvestTimeEntry) (h : Q) (k : string) : bool :=
  Qeq_bool (hoursOf entries k) h.

(** A name that [Object.prototype] does not define: read on [{}], it is
    [undefined]. *)
Definition ordinary (k : string) : bool :=
  negb (String.eqb k "__proto__") && negb (existsb (String.eqb k) inheritedMethods).

(** The totals when every project has an ordinary name: a finite map from
    names to numbers, on which the first loop of [renderSummary] and the
    sort work as follows ([plain_aggregate], [plain_sortedProjects]). *)
Module Plain.

Definition Totals : Type := list (string * Q).

Definition falsy (v : option Q) : bool :=
  match v with
  | Some q => Qeq_bool q 0
  | None => true
  end.

Definition valueAt (o : Totals) (k : string) : Q :=
  match getOwn o k with Some v => v | None => 0%Q end.

Definition addEntry (st : Q * Totals) (entry : HarvestTimeEntry) : Q * Totals :=
  let '(totalHours, projectTotals) := st in
  let totalHours := (totalHours + hours entry)%Q in
  let projectName := name (project entry) in
  let projectTotals :=
    if falsy (getOwn projectTotals projectName)
    then setOwn projectTotals projectName 0%Q
    else projectTotals in
  let projectTotals :=
    setOwn projectTotals projectName (valueAt projectTotals projectName + hours entry)%Q in
  (totalHours, projectTotals).

Definition aggregate (entries : list HarvestTimeEntry) : Q * Totals :=
  fold_left addEntry entries (0%Q, []).

Definition totalHours (entries : list HarvestTimeEntry) : Q := fst (aggregate entries).
Definition projectTotals (entries : list HarvestTimeEntry) : Totals := snd (aggregate entries).

Definition sortedProjects (entries : list HarvestTimeEntry) : list string :=
  let projectTotals := projectTotals entries in
  sort (fun a b => valueAt projectTotals b - valueAt projectTotals a)%Q (keys projectTotals).

Definition tiedAt (o : Totals) (h : Q) (k : string) : bool :=
  Qeq_bool (valueAt o k) h.

(** The totals as the object holds them. *)
Definition lift (o : Totals) : list (string * Value) :=
  map (fun kv => (fst kv, Number (snd kv))) o.

End Plain.

(** A plugin with credentials and a user, over a given service. *)
Definition pluginOver (service : string -> HttpOutcome) : HarvestPlugin :=
  {| settings := {| personalAccessToken := "token"; accountId := "account" |};
     userId := Some 42;
     requestUrl := service |}.

(** The service is unreachable. *)
Definition unreachable : string -> HttpOutcome := fun _ => ConnectionFailed.

(** The service refuses every request. *)
Definition refusing : string -> HttpOutcome :=
  fun _ => HttpResponse 500 {| time_entries := None |}.

(** The service answers every request with no entries. *)
Definition answeringNothing : string -> HttpOutcome :=
  fun _ => HttpResponse 200 {| time_entries := Some [] |}.

Definition noContext : Context := {| sourceFile := None; sectionInfo := None |}.

Definition noMarkup : Report -> string := fun _ => "".

(** The character of a decimal digit. *)
Definition digitChar (a : Z) : ascii := ascii_of_N (Z.to_N (48 + a)).

Definition decimalDigits : list Z := [0; 1; 2; 3; 4; 5; 6; 7; 8; 9].

(** The text of every year from 1000 to 9999 is its four digits. *)
Definition yearTexts : bool :=
  forallb (fun a => forallb (fun b => forallb (fun c => forallb (fun d =>
    String.eqb (NumberToString (1000 * a + 100 * b + 10 * c + d))
               (String (digitChar a) (String (digitChar b)
                  (String (digitChar c) (String (digitChar d) EmptyString)))))
    decimalDigits) decimalDigits) decimalDigits) (tl decimalDigits).

(** The padded text of every number below 100 is its two digits. *)
Definition paddedTexts : bool :=
  forallb (fun e => forallb (fun f =>
    String.eqb (padStart2 (NumberToString (10 * e + f)))
               (String (digitChar e) (String (digitChar f) EmptyString)))
    decimalDigits) decimalDigits.

(** A string of white space only. *)
Fixpoint allWhite (s : string) : bool :=
  match s with
  | String c s' => isWhiteSpace c && allWhite s'
  | EmptyString => true
  end.

Definition legendOf (report : Report) : list LegendItem :=
  match report with
  | Summary _ _ _ legend => legend
  | _ => []
  end.

(** The summary of one hour for [Proj A] and three for [Proj B]. *)
Definition exampleSummary : Report :=
  Summary "Time summary" "Total hours: 4.00"
    [{| bar_width := Number (300 # 4); bar_color := "#84b65a";
        bar_title := "Proj B: 3.00 hours" |};
     {| bar_width := Number (100 # 4); bar_color := "#c25956";
        bar_title := "Proj A: 1.00 hours" |}]
    [{| swatch_color := "#84b65a"; legend_text := "Proj B: 3.00 hours" |};
     {| swatch_color := "#c25956"; legend_text := "Proj A: 1.00 hours" |}].

(** The address that [getTimeEntries] asks for. *)
Definition timeEntriesUrl (query : HarvestQuery) (uid : Z) : string :=
  "https://api.harvestapp.com/v2" ++
  ("/time_entries?from=" ++ from query ++ "&to=" ++ to query
   ++ "&user_id=" ++ NumberToString uid).

(** ** Arrays, maps and plain objects *)

(** [l.findIndex(p)]; [None] is [-1]. *)
Fixpoint findIndex {A : Type} (p : A -> bool) (l : list A) : option nat :=
  match l with
  | x :: l' => if p x then Some O else option_map S (findIndex p l')
  | [] => None
  end.

(** [l.splice(i, 1)]: the element taken out, when [i] is in range, and what
    is left of [l]. *)
Fixpoint splice1 {A : Type} (i : nat) (l : list A) : option A * list A :=
  match l, i with
  | [], _ => (None, [])
  | x :: l', O => (Some x, l')
  | x :: l', S i' => let '(taken, remaining) := splice1 i' l' in (taken, x :: remaining)
  end.

(** A [Map] with numbers as keys: its entries in the order of insertion. *)
Definition NumberMap (V : Type) : Type := list (Z * V).

Fixpoint mapHas {V : Type} (m : NumberMap V) (k : Z) : bool :=
  match m with
  | (k', _) :: m' => (k' =? k) || mapHas m' k
  | [] => false
  end.

(** [m.set(k, v)]: an entry that exists keeps its place. *)
Fixpoint mapSet {V : Type} (m : NumberMap V) (k : Z) (v : V) : NumberMap V :=
  match m with
  | (k', v') :: m' => if k' =? k then (k', v) :: m' else (k', v') :: mapSet m' k v
  | [] => [(k, v)]
  end.

Definition mapValues {V : Type} (m : NumberMap V) : list V := map snd m.

(** A plain object used as a dictionary of records [{projectId, taskId}]:
    its own properties in the order of their creation.  A name that the
    object does not own reads as [undefined] or as a value of
    [Object.prototype], which has no [projectId]: the pickers find no
    project and no task for either, and [None] stands for both.  (A record
    assigned to [__proto__] becomes the prototype and is read back under
    that name like an own property.) *)
Fixpoint lookupOwn {V : Type} (o : list (string * V)) (k : string) : option V :=
  match o with
  | (k', v) :: o' => if String.eqb k' k then Some v else lookupOwn o' k
  | [] => None
  end.

Fixpoint assignOwn {V : Type} (o : list (string * V)) (k : string) (v : V)
  : list (string * V) :=
  match o with
  | (k', v') :: o' =>
      if String.eqb k' k then (k', v) :: o' else (k', v') :: assignOwn o' k v
  | [] => [(k, v)]
  end.

(** ** Projects, tasks and the pickers *)

Module TaskAssignment.
Record t : Type := { id : Z; task : HarvestRef }.
End TaskAssignment.

(** A project of the project list.  A project taken from a time entry has
    neither [client] nor [task_assignments]. *)
Module ProjectFull.
Record t : Type := {
  id : Z;
  name : string;
  client : option HarvestRef;
  task_assignments : option (list TaskAssignment.t)
}.
End ProjectFull.

(** A note: the path of the folder that holds it, when there is one. *)
Record TFile : Type := { parent : option string }.

(** The project and task last used in a folder. *)
Record CachedInfo : Type := { projectId : Z; taskId : Z }.

Definition FolderProjectCache : Type := list (string * CachedInfo).

(** The entry of the folder cache for the folder of the active note. *)
Definition cachedInfoFor (folderProjectCache : FolderProjectCache)
  (activeFile : option TFile) : option CachedInfo :=
  match activeFile with
  | Some file =>
      match parent file with
      | Some folderPath => lookupOwn folderProjectCache folderPath
      | None => None
      end
  | None => None
  end.

Module ProjectSuggestModal.

Definition getItems (projectCache : list ProjectFull.t)
  (folderProjectCache : FolderProjectCache) (activeFile : option TFile)
  : list ProjectFull.t :=
  let projects := projectCache in
  match activeFile with
  | Some file =>
      match parent file with
      | Some folderPath =>
          match lookupOwn folderProjectCache folderPath with
          | Some cachedInfo =>
              match findIndex (fun p => ProjectFull.id p =? projectId cachedInfo) projects with
              | Some cachedProjectIndex =>
                  match splice1 cachedProjectIndex projects with
                  | (Some cachedProject, projects) => cachedProject :: projects
                  | (None, projects) => projects
                  end
              | None => projects
              end
          | None => projects
          end
      | None => projects
      end
  | None => projects
  end.

End ProjectSuggestModal.

Module TaskSuggestModal.

Definition getItems (tasks : list TaskAssignment.t) (project : ProjectFull.t)
  (folderProjectCache : FolderProjectCache) (activeFile : option TFile)
  : list TaskAssignment.t :=
  match activeFile with
  | Some file =>
      match parent file with
      | Some folderPath =>
          match lookupOwn folderProjectCache folderPath with
          | Some cachedInfo =>
              if projectId cachedInfo =? ProjectFull.id project then
                match findIndex (fun t => id (TaskAssignment.task t) =? taskId cachedInfo) tasks with
                | Some cachedTaskIndex =>
                    match splice1 cachedTaskIndex tasks with
                    | (Some cachedTask, tasks) => cachedTask :: tasks
                    | (None, tasks) => tasks
                    end
                | None => tasks
                end
              else tasks
          | None => tasks
          end
      | None => tasks
      end
  | None => tasks
  end.

End TaskSuggestModal.

(** ** Timers *)

(** What a request whose answer is only tested for truth comes to. *)
Inductive Answer : Type :=
| NoAnswer
| Answered (status : Z) (json : bool).

(** [request(endpoint, method, body)] read as a truth value. *)
Definition send (plugin : HarvestPlugin) (service : string -> string -> Answer)
  (method endpoint : string) : bool :=
  if String.eqb (personalAccessToken (settings plugin)) ""
     || String.eqb (accountId (settings plugin)) ""
  then false
  else
    match service method ("https://api.harvestapp.com/v2" ++ endpoint) with
    | NoAnswer => false
    | Answered status json => if 400 <=? status then false else json
    end.

(** The request by which [startTimer] starts the timer. *)
Inductive TimerRequest : Type :=
| Restart (entry : Z)
| Create (project_id task_id : Z) (spent_date : string).

(** The end of [startTimer]: the folder cache (saved when it changed), the
    request made, and the notice shown when the request succeeded, after
    which the running timer is read again. *)
Record Started : Type := {
  cacheAfter : FolderProjectCache;
  cacheSaved : bool;
  requested : TimerRequest;
  notice : option string
}.

Section Timer.

Variable tza : Z.

Definition startTimer (now : Z) (plugin : HarvestPlugin)
  (service : string -> string -> Answer) (folderProjectCache : FolderProjectCache)
  (projectId taskId : Z) (activeFile : option TFile) : Started :=
  let '(folderProjectCache, saved) :=
    match activeFile with
    | Some file =>
        match parent file with
        | Some folderPath =>
            (assignOwn folderProjectCache folderPath
               {| projectId := projectId; taskId := taskId |}, true)
        | None => (folderProjectCache, false)
        end
    | None => (folderProjectCache, false)
    end in
  let today := now in
  let year := getFullYear tza today in
  let month := padStart2 (NumberToString (getMonth tza today + 1)) in
  let day := padStart2 (NumberToString (getDate tza today)) in
  let spentDate := NumberToString year ++ "-" ++ month ++ "-" ++ day in
  let existingEntry :=
    match userId plugin with
    | None | Some 0 => None
    | Some uid =>
        match request plugin ("/time_entries?from=" ++ spentDate ++ "&to=" ++ spentDate
                              ++ "&user_id=" ++ NumberToString uid) with
        | Some data =>
            match time_entries data with
            | Some entries =>
                find (fun entry => (id (project entry) =? projectId)
                                   && (id (task entry) =? taskId)) entries
            | None => None
            end
        | None => None
        end
    end in
  match existingEntry with
  | Some existingEntry =>
      let result :=
        send plugin service "PATCH"
          ("/time_entries/" ++ NumberToString (entry_id existingEntry) ++ "/restart") in
      {| cacheAfter := folderProjectCache; cacheSaved := saved;
         requested := Restart (entry_id existingEntry);
         notice := if result then Some "Timer restarted!" else None |}
  | None =>
      let result := send plugin service "POST" "/time_entries" in
      {| cacheAfter := folderProjectCache; cacheSaved := saved;
         requested := Create projectId taskId spentDate;
         notice := if result then Some "Timer started!" else None |}
  end.

End Timer.

(** ** The polling interval *)



(** ** The list of projects *)

(** The body of an answer to [/projects]; the list may be missing. *)
Record HarvestProjectsResponse : Type := {
  projects : option (list ProjectFull.t);
  total_pages : Z
}.

(** The address of a page of the managed projects. *)
Definition projectsEndpoint (page : Z) : string :=
  "/projects?is_active=true&page=" ++ NumberToString page.

(** The loop of [getManagedProjects], from the page [page] on, with the
    projects read so far.  [request] is [this.request] at the type of the
    answer; [fuel] bounds the number of pages read, and [None] tells that
    the loop had not ended within it. *)
Fixpoint managedPages (fuel : nat) (request : string -> option HarvestProjectsResponse)
  (allProjects : list ProjectFull.t) (page : Z) : option (list ProjectFull.t) :=
  match fuel with
  | O => None
  | S fuel' =>
      match request (projectsEndpoint page) with
      | Some data =>
          match projects data with
          | Some more =>
              let allProjects := (allProjects ++ more)%list in
              let totalPages := total_pages data in
              let page := page + 1 in
              if page <=? totalPages
              then managedPages fuel' request allProjects page
              else Some allProjects
          | None => Some allProjects
          end
      | None => Some allProjects
      end
  end.

Definition getManagedProjects (fuel : nat)
  (request : string -> option HarvestProjectsResponse) : option (list ProjectFull.t) :=
  managedPages fuel request [] 1.

(** [s.padStart(n, '0')]. *)
Definition padZeros (n : nat) (s : string) : string :=
  string_of_list_ascii (repeat "0"%char (n - String.length s)) ++ s.

(** The date of [toISOString()] for the time value [date], the part before
    [T]: the day in UTC, with a year of four digits, or of six digits and a
    sign outside 0 to 9999. *)
Definition isoDate (date : Z) : string :=
  let y := ES.YearFromTime date in
  (if (0 <=? y) && (y <=? 9999) then padZeros 4 (NumberToString y)
   else (if y <? 0 then "-" else "+") ++ padZeros 6 (NumberToString (Z.abs y)))
  ++ "-" ++ padZeros 2 (NumberToString (ES.MonthFromTime date + 1))
  ++ "-" ++ padZeros 2 (NumberToString (ES.DateFromTime date)).

(** [date.toISOString().split('T')[0]]: an invalid date makes [toISOString]
    throw a [RangeError]. *)
Definition toISODate (date : Date) : result string :=
  match date with
  | Valid t => Return (isoDate t)
  | Invalid => Throw "Invalid time value"
  end.

(** The project of a time entry taken as a project of the list. *)
Definition asProjectFull (p : HarvestRef) : ProjectFull.t :=
  {| ProjectFull.id := id p; ProjectFull.name := name p;
     ProjectFull.client := None; ProjectFull.task_assignments := None |}.

(** The turn of the loop of [getRecentProjectsFromTimeEntries]; the project
    of an entry is always there in this embedding. *)
Definition addRecent (recentProjectsMap : NumberMap ProjectFull.t)
  (entry : HarvestTimeEntry) : NumberMap ProjectFull.t :=
  if negb (mapHas recentProjectsMap (id (project entry)))
  then mapSet recentProjectsMap (id (project entry)) (asProjectFull (project entry))
  else recentProjectsMap.

(** The address that [getRecentProjectsFromTimeEntries] asks for at the
    instant [now]. *)
Definition recentEndpoint (tza now uid : Z) : result string :=
  let thirtyDaysAgo := setDate tza now (getDate tza now - 30) in
  fromDate <- toISODate thirtyDaysAgo ;;
  Return ("/time_entries?from=" ++ fromDate ++ "&user_id=" ++ NumberToString uid).

(** [getRecentProjectsFromTimeEntries()]: the list it resolves to, or the
    error it is rejected with. *)
Definition getRecentProjectsFromTimeEntries (tza now : Z) (plugin : HarvestPlugin)
  : result (list ProjectFull.t) :=
  match userId plugin with
  | None | Some 0 => Return []
  | Some uid =>
      endpoint <- recentEndpoint tza now uid ;;
      match request plugin endpoint with
      | Some data =>
          match time_entries data with
          | Some entries => Return (mapValues (fold_left addRecent entries []))
          | None => Return []
          end
      | None => Return []
      end
  end.

Section Projects.

(** [a.localeCompare(b)], which the platform computes from its locale. *)
Variable localeCompare : string -> string -> Z.

(** The merge and the sort of [fetchAllTrackableProjects]. *)
Definition combineProjects (managedProjects recentProjects : list ProjectFull.t)
  : list ProjectFull.t :=
  let combinedProjectMap :=
    fold_left (fun m proj => mapSet m (ProjectFull.id proj) proj) managedProjects [] in
  let combinedProjectMap :=
    fold_left (fun m proj =>
                 if negb (mapHas m (ProjectFull.id proj))
                 then mapSet m (ProjectFull.id proj) proj else m)
              recentProjects combinedProjectMap in
  sort (fun a b => inject_Z (localeCompare (ProjectFull.name a) (ProjectFull.name b)))
       (mapValues combinedProjectMap).

(** [fetchAllTrackableProjects(forceRefresh)]: the list it resolves to,
    which is also the new [projectCache], or the error it is rejected with;
    [None] when the pages of the managed projects had not ended within
    [fuel]. *)
Definition fetchAllTrackableProjects (tza now : Z) (fuel : nat)
  (plugin : HarvestPlugin) (requestProjects : string -> option HarvestProjectsResponse)
  (projectCache : list ProjectFull.t) (forceRefresh : bool)
  : option (result (list ProjectFull.t)) :=
  if Nat.ltb 0 (List.length projectCache) && negb forceRefresh
  then Some (Return projectCache)
  else
    match getManagedProjects fuel requestProjects with
    | Some managedProjects =>
        Some (recentProjects <- getRecentProjectsFromTimeEntries tza now plugin ;;
              Return (combineProjects managedProjects recentProjects))
    | None => None
    end.

End Projects.

(** The projects of the pages [first], [first + 1], ... ([count] pages). *)
Definition pagesFrom (pagesOf : Z -> list ProjectFull.t) (first : Z) (count : nat)
  : list ProjectFull.t :=
  List.concat (List.map (fun i => pagesOf (first + Z.of_nat i)) (seq 0 count)).


(** * Properties *)

(** *** Facts about the calendar *)

(** Linear arithmetic with divisions by constants. *)
Ltac zdiv := Z.div_mod_to_equations; lia.

Lemma DayFromYear_step (y : Z) :
  ES.DayFromYear (y + 1) = ES.DayFromYear y + ES.DaysInYear y.
Proof.
  unfold ES.DayFromYear, ES.DaysInYear.
  destruct (y mod 4 =? 0) eqn:E4; destruct (y mod 100 =? 0) eqn:E100;
    destruct (y mod 400 =? 0) eqn:E400; cbn [negb];
    rewrite ?Z.eqb_eq, ?Z.eqb_neq in *; zdiv.
Qed.

Lemma YearFromDay_bounds (d : Z) :
  ES.DayFromYear (ES.YearFromDay d) <= d < ES.DayFromYear (ES.YearFromDay d + 1).
Proof.
  unfold ES.YearFromDay.
  set (y := 1970 + 400 * d / 146097).
  destruct (ES.DayFromYear (y + 1) <=? d) eqn:E1.
  - apply Z.leb_le in E1. split; [exact E1|].
    subst y. unfold ES.DayFromYear in *. zdiv.
  - apply Z.leb_gt in E1.
    destruct (d <? ES.DayFromYear y) eqn:E2.
    + apply Z.ltb_lt in E2. replace (y - 1 + 1) with y by lia.
      split; [|exact E2]. subst y. unfold ES.DayFromYear in *. zdiv.
    + apply Z.ltb_ge in E2. split; assumption.
Qed.

Lemma DayFromYear_mono (y1 y2 : Z) :
  y1 <= y2 -> ES.DayFromYear y1 <= ES.DayFromYear y2.
Proof. unfold ES.DayFromYear. intros. zdiv. Qed.

Lemma DaysInYear_cases (y : Z) : ES.DaysInYear y = 365 \/ ES.DaysInYear y = 366.
Proof.
  unfold ES.DaysInYear.
  destruct (y mod 4 =? 0), (y mod 100 =? 0), (y mod 400 =? 0); cbn [negb]; auto.
Qed.

(** The year of a day is the only year whose span of days holds it. *)
Lemma YearFromDay_unique (d y : Z) :
  ES.DayFromYear y <= d < ES.DayFromYear (y + 1) -> ES.YearFromDay d = y.
Proof.
  intros H. pose proof (YearFromDay_bounds d) as B.
  destruct (Z.lt_trichotomy (ES.YearFromDay d) y) as [L | [E | G]]; [|exact E|].
  - pose proof (DayFromYear_mono (ES.YearFromDay d + 1) y ltac:(lia)). lia.
  - pose proof (DayFromYear_mono (y + 1) (ES.YearFromDay d) ltac:(lia)). lia.
Qed.

Lemma DayWithinYear_range (t : Z) :
  0 <= ES.DayWithinYear t < ES.DaysInYear (ES.YearFromTime t).
Proof.
  unfold ES.DayWithinYear, ES.YearFromTime.
  pose proof (YearFromDay_bounds (ES.Day t)) as B.
  rewrite DayFromYear_step in B. lia.
Qed.

Lemma MonthFromTime_range (t : Z) : 0 <= ES.MonthFromTime t <= 11.
Proof.
  unfold ES.MonthFromTime.
  repeat match goal with |- context [if ?c then _ else _] => destruct c end; lia.
Qed.

Lemma DateFromTime_range (t : Z) : 1 <= ES.DateFromTime t <= 31.
Proof.
  pose proof (DayWithinYear_range t) as R.
  unfold ES.DateFromTime, ES.MonthFromTime, ES.InLeapYear in *.
  destruct (DaysInYear_cases (ES.YearFromTime t)) as [E | E]; rewrite E in *;
    cbn [Z.eqb Pos.eqb] in *;
    repeat match goal with
           | |- context [if ?a <? ?b then _ else _] =>
               let H := fresh in destruct (Z.ltb_spec a b) as [H | H]
           end; cbn [ES.DaysBeforeMonth]; lia.
Qed.

(** [MakeDay] on the year and month of a time counts days from the first of
    that month: giving [setDateValue] a day of the month outside the month moves
    into the neighbouring months. *)
Lemma MakeDay_same_month (t k : Z) :
  ES.MakeDay (ES.YearFromTime t) (ES.MonthFromTime t) k
  = ES.Day t - ES.DateFromTime t + k.
Proof.
  pose proof (MonthFromTime_range t) as M.
  unfold ES.MakeDay, ES.DateFromTime, ES.DayWithinYear, ES.InLeapYear.
  rewrite (Z.div_small _ 12), (Z.mod_small _ 12) by lia.
  rewrite Z.add_0_r. lia.
Qed.

Lemma Day_MakeDate (day time : Z) :
  0 <= time < ES.msPerDay -> ES.Day (ES.MakeDate day time) = day.
Proof.
  unfold ES.Day, ES.MakeDate, ES.msPerDay. intros. zdiv.
Qed.

Lemma TimeWithinDay_range (t : Z) : 0 <= ES.TimeWithinDay t < ES.msPerDay.
Proof. unfold ES.TimeWithinDay, ES.msPerDay. zdiv. Qed.


(** ** Worked examples *)

Example parseInt_7 : parseInt (Some "7") = Some 7. Proof. reflexivity. Qed.
Example parseInt_0 : parseInt (Some "0") = Some 0. Proof. reflexivity. Qed.
Example parseInt_neg : parseInt (Some "-3") = Some (-3). Proof. reflexivity. Qed.
Example parseInt_prefix : parseInt (Some "12ABC") = Some 12. Proof. reflexivity. Qed.
Example parseInt_hex : parseInt (Some "0X1F") = Some 31. Proof. reflexivity. Qed.
Example parseInt_x : parseInt (Some "X") = None. Proof. reflexivity. Qed.
Example parseInt_undefined : parseInt None = None. Proof. reflexivity. Qed.

Example split_two : split (trim "  list   today ") = ["list"; "today"].
Proof. reflexivity. Qed.

Example split_empty : split (trim "   ") = [""].
Proof. reflexivity. Qed.

Example NumberToString_neg : NumberToString (-5) = "-5". Proof. reflexivity. Qed.
Example NumberToString_zero : NumberToString 0 = "0". Proof. reflexivity. Qed.

Example parse_list_today :
  parseQuery 0 noOther noon_2025_01_15 noon_2025_01_15 "list today"
  = Return {| type := LIST; from := "2025-01-15"; to := "2025-01-15" |}.
Proof. vm_compute. reflexivity. Qed.

Example parse_summary_week :
  parseQuery 0 noOther noon_2025_01_15 noon_2025_01_15 "SUMMARY WEEK"
  = Return {| type := SUMMARY; from := "2025-01-13"; to := "2025-01-19" |}.
Proof. vm_compute. reflexivity. Qed.

Example parse_list_month :
  parseQuery 0 noOther noon_2025_01_15 noon_2025_01_15 "LIST MONTH"
  = Return {| type := LIST; from := "2025-01-01"; to := "2025-01-31" |}.
Proof. vm_compute. reflexivity. Qed.

Example parse_list_past :
  parseQuery 0 noOther noon_2025_01_15 noon_2025_01_15 "LIST PAST 20 DAYS"
  = Return {| type := LIST; from := "2024-12-27"; to := "2025-01-15" |}.
Proof. vm_compute. reflexivity. Qed.

Example parse_summary_from_to :
  parseQuery 0 noOther noon_2025_01_15 noon_2025_01_15
    "SUMMARY FROM 2025-01-01 TO 2025-01-31"
  = Return {| type := SUMMARY; from := "2025-01-01"; to := "2025-01-31" |}.
Proof. vm_compute. reflexivity. Qed.

Example parse_single_token :
  parseQuery 0 noOther noon_2025_01_15 noon_2025_01_15 "LIST"
  = Throw "Query is too short.".
Proof. vm_compute. reflexivity. Qed.

Example parse_past_x :
  parseQuery 0 noOther noon_2025_01_15 noon_2025_01_15 "LIST PAST x DAYS"
  = Throw "Invalid PAST format. Use 'PAST <number> DAYS'.".
Proof. vm_compute. reflexivity. Qed.

Example toFixed2_2_5 : toFixed2 (5 # 2)%Q = "2.50". Proof. reflexivity. Qed.
Example toFixed2_third : toFixed2 (1 # 3)%Q = "0.33". Proof. reflexivity. Qed.
Example toFixed2_half_cent : toFixed2 (201 # 200)%Q = "1.01". Proof. reflexivity. Qed.
Example toFixed2_neg : toFixed2 (- (1 # 1000))%Q = "-0.00". Proof. reflexivity. Qed.

Example summary_example :
  renderSummary [entry "Proj A" 1; entry "Proj B" 3]
  = Return
      (Summary "Time summary" "Total hours: 4.00"
         [ {| bar_width := Number ((3 / 4) * 100); bar_color := "#84b65a";
              bar_title := "Proj B: 3.00 hours" |};
           {| bar_width := Number ((1 / 4) * 100); bar_color := "#c25956";
              bar_title := "Proj A: 1.00 hours" |} ]
         [ {| swatch_color := "#84b65a"; legend_text := "Proj B: 3.00 hours" |};
           {| swatch_color := "#c25956"; legend_text := "Proj A: 1.00 hours" |} ]).
Proof. vm_compute. reflexivity. Qed.

(** A project named like a function of [Object.prototype] gets a string for
    its total, and the summary throws. *)
Example summary_constructor :
  projectTotals [entry "constructor" 1] = [("constructor", Str)]
  /\ renderSummary [entry "constructor" 1]
     = Throw "projectHours.toFixed is not a function".
Proof. split; vm_compute; reflexivity. Qed.

(** The hours of a project named [__proto__] are counted in the total and
    in no project. *)
Example summary_proto :
  projectTotals [entry "__proto__" 1; entry "Proj A" 2] = [("Proj A", Number (0 + 2))]
  /\ totalHours [entry "__proto__" 1; entry "Proj A" 2] = (0 + 1 + 2)%Q.
Proof. split; vm_compute; reflexivity. Qed.

Example parse_list_past_huge :
  parseQuery 0 noOther noon_2025_01_15 noon_2025_01_15 "LIST PAST 999999999 DAYS"
  = Return {| type := LIST; from := "NaN-NaN-NaN"; to := "2025-01-15" |}.
Proof. vm_compute. reflexivity. Qed.


(** ** Dates in local time *)

Lemma Return_pair_inj {A B : Type} (a a' : A) (b b' : B) :
  @Return (A * B) (a, b) = Return (a', b') -> a = a' /\ b = b'.
Proof. intros H. injection H as -> ->. auto. Qed.

(** The first day of a month does not come after the day before the first
    day of the next month. *)
Lemma MakeDay_month_order (y m : Z) :
  0 <= m <= 11 -> ES.MakeDay y m 1 <= ES.MakeDay y (m + 1) 0.
Proof.
  intros Hm. unfold ES.MakeDay.
  assert (C : m = 0 \/ m = 1 \/ m = 2 \/ m = 3 \/ m = 4 \/ m = 5 \/ m = 6
              \/ m = 7 \/ m = 8 \/ m = 9 \/ m = 10 \/ m = 11) by lia.
  pose proof (DayFromYear_step y) as S.
  destruct (DaysInYear_cases y) as [E | E];
    repeat (destruct C as [-> | C]); try subst m;
    repeat match goal with
           | |- context [?a / 12] =>
               let v := eval vm_compute in (a / 12) in change (a / 12) with v
           | |- context [?a mod 12] =>
               let v := eval vm_compute in (a mod 12) in change (a mod 12) with v
           end;
    rewrite ?Z.add_0_r; cbn [ES.DaysBeforeMonth];
    rewrite ?E in *; cbn [Z.eqb Pos.eqb];
    try lia;
    destruct (DaysInYear_cases (y + 1)) as [E1 | E1]; rewrite E1;
    cbn [Z.eqb Pos.eqb]; lia.
Qed.

(** A time within the range makes a valid date. *)
Lemma TimeClip_Valid (t : Z) : Z.abs t <= maxTime -> TimeClip t = Valid t.
Proof. intros H. unfold TimeClip. apply Z.leb_le in H. now rewrite H. Qed.

Lemma TimeClip_Invalid (t : Z) : maxTime < Z.abs t -> TimeClip t = Invalid.
Proof. intros H. unfold TimeClip. apply Z.leb_gt in H. now rewrite H. Qed.

(** A date that [TimeClip] makes is valid only for a time within the
    range. *)
Lemma TimeClip_inv (t u : Z) : TimeClip t = Valid u -> u = t /\ Z.abs t <= maxTime.
Proof.
  unfold TimeClip. destruct (Z.leb_spec (Z.abs t) maxTime) as [L | L]; [|discriminate].
  intros H. injection H as <-. auto.
Qed.

Section DateFacts.

Variable tza : Z.

Lemma LocalTime_UTC (t : Z) : LocalTime tza (UTC tza t) = t.
Proof. unfold LocalTime, UTC. lia. Qed.

(** [setDate] moves the local day by the difference between the new and the
    old day of the month, across months and years. *)
Lemma localDay_setDate (date dt : Z) :
  localDay tza (setDateValue tza date dt) = localDay tza date - getDate tza date + dt.
Proof.
  unfold localDay, setDateValue, getDate.
  rewrite LocalTime_UTC, Day_MakeDate by apply TimeWithinDay_range.
  apply MakeDay_same_month.
Qed.

(** [setDate] moves the time by whole days. *)
Lemma setDateValue_shift (date dt : Z) :
  setDateValue tza date dt = date + (dt - getDate tza date) * ES.msPerDay.
Proof.
  unfold setDateValue, getDate. cbv zeta.
  rewrite MakeDay_same_month.
  unfold UTC, LocalTime, ES.MakeDate, ES.Day, ES.TimeWithinDay, ES.msPerDay.
  generalize (ES.DateFromTime (date + tza)). intros k. zdiv.
Qed.

Lemma getDay_localDay (date : Z) : getDay tza date = (localDay tza date + 4) mod 7.
Proof. reflexivity. Qed.

(** The text of a date depends on its local day alone. *)
Lemma formatDate_localDay (d1 d2 : Z) :
  localDay tza d1 = localDay tza d2 -> formatDate tza d1 = formatDate tza d2.
Proof.
  unfold localDay, formatDate, getFullYear, getMonth, getDate.
  unfold ES.DateFromTime, ES.MonthFromTime, ES.InLeapYear, ES.DayWithinYear,
    ES.YearFromTime.
  intros ->. reflexivity.
Qed.

Lemma localDay_newDateYMD (year month day : Z) :
  localDay tza (newDateYMDValue tza year month day)
  = ES.MakeDay (if (0 <=? year) && (year <=? 99) then 1900 + year else year) month day.
Proof.
  unfold localDay, newDateYMDValue. rewrite LocalTime_UTC.
  apply Day_MakeDate. unfold ES.msPerDay. lia.
Qed.

(** The time of a date is that of the midnight of its local day, later by
    less than a day. *)
Lemma localDay_time (date : Z) :
  localDay tza date * ES.msPerDay - tza <= date
  < (localDay tza date + 1) * ES.msPerDay - tza.
Proof. unfold localDay, LocalTime, ES.Day, ES.msPerDay. zdiv. Qed.

Lemma newDateYMDValue_time (year month day : Z) :
  newDateYMDValue tza year month day
  = localDay tza (newDateYMDValue tza year month day) * ES.msPerDay - tza.
Proof.
  rewrite localDay_newDateYMD. unfold newDateYMDValue, UTC, ES.MakeDate. lia.
Qed.

Lemma setDate_unfold (date dt : Z) :
  setDate tza date dt = TimeClip (setDateValue tza date dt).
Proof. reflexivity. Qed.

Lemma newDateYMD_unfold (year month day : Z) :
  newDateYMD tza year month day = TimeClip (newDateYMDValue tza year month day).
Proof. reflexivity. Qed.

(** The valid date that [setDate] or the constructor makes holds the time
    computed. *)
Lemma setDate_inv (date dt f : Z) :
  setDate tza date dt = Valid f ->
  f = setDateValue tza date dt /\ Z.abs f <= maxTime.
Proof.
  rewrite setDate_unfold. generalize (setDateValue tza date dt). intros t H.
  apply TimeClip_inv in H. destruct H as [-> H]. auto.
Qed.

Lemma newDateYMD_inv (year month day f : Z) :
  newDateYMD tza year month day = Valid f ->
  f = newDateYMDValue tza year month day /\ Z.abs f <= maxTime.
Proof.
  rewrite newDateYMD_unfold. generalize (newDateYMDValue tza year month day).
  intros t H. apply TimeClip_inv in H. destruct H as [-> H]. auto.
Qed.

Lemma setDate_Valid (date dt : Z) :
  Z.abs (setDateValue tza date dt) <= maxTime ->
  setDate tza date dt = Valid (setDateValue tza date dt).
Proof.
  rewrite setDate_unfold. generalize (setDateValue tza date dt). intros t.
  apply TimeClip_Valid.
Qed.

Lemma newDateYMD_Valid (year month day : Z) :
  Z.abs (newDateYMDValue tza year month day) <= maxTime ->
  newDateYMD tza year month day = Valid (newDateYMDValue tza year month day).
Proof.
  rewrite newDateYMD_unfold. generalize (newDateYMDValue tza year month day).
  intros t. apply TimeClip_Valid.
Qed.

End DateFacts.


(** ** Decimal numerals *)

Lemma parseDigits_acc (u : Decimal.uint) (p : positive) :
  parseDigits 10 (Some (Z.pos p)) (NilEmpty.string_of_uint u)
  = Some (Z.pos (Pos.of_uint_acc u p)).
Proof.
  revert p.
  induction u; intros p; cbn [NilEmpty.string_of_uint Pos.of_uint_acc parseDigits];
    [reflexivity | ..];
    match goal with
    | |- context [digitValue ?c] =>
        let v := eval vm_compute in (digitValue c) in
        change (digitValue c) with v
    end; cbv iota;
    match goal with
    | |- context [?v <? 10] => change (v <? 10) with true
    end; cbv iota;
    rewrite <- IHu; do 2 f_equal; lia.
Qed.

Lemma parseDigits_numeral (u : Decimal.uint) (acc : option Z) :
  acc = None \/ acc = Some 0 ->
  u <> Decimal.Nil ->
  parseDigits 10 acc (NilEmpty.string_of_uint u) = Some (Z.of_N (Pos.of_uint u)).
Proof.
  revert acc.
  induction u; intros acc Hacc Hu; [congruence | ..];
    cbn [NilEmpty.string_of_uint Pos.of_uint parseDigits];
    match goal with
    | |- context [digitValue ?c] =>
        let v := eval vm_compute in (digitValue c) in
        change (digitValue c) with v
    end; cbv iota;
    match goal with
    | |- context [?v <? 10] => change (v <? 10) with true
    end; cbv iota.
  - (* a leading zero *)
    assert (E : Some (match acc with Some a => a * 10 + 0 | None => 0 end) = Some 0)
      by (destruct Hacc; subst; reflexivity).
    rewrite E.
    destruct u; try (apply IHu; [auto | discriminate]).
    reflexivity.
  - destruct Hacc; subst; cbn [Z.mul Z.add]; rewrite parseDigits_acc; reflexivity.
  - destruct Hacc; subst; cbn [Z.mul Z.add]; rewrite parseDigits_acc; reflexivity.
  - destruct Hacc; subst; cbn [Z.mul Z.add]; rewrite parseDigits_acc; reflexivity.
  - destruct Hacc; subst; cbn [Z.mul Z.add]; rewrite parseDigits_acc; reflexivity.
  - destruct Hacc; subst; cbn [Z.mul Z.add]; rewrite parseDigits_acc; reflexivity.
  - destruct Hacc; subst; cbn [Z.mul Z.add]; rewrite parseDigits_acc; reflexivity.
  - destruct Hacc; subst; cbn [Z.mul Z.add]; rewrite parseDigits_acc; reflexivity.
  - destruct Hacc; subst; cbn [Z.mul Z.add]; rewrite parseDigits_acc; reflexivity.
  - destruct Hacc; subst; cbn [Z.mul Z.add]; rewrite parseDigits_acc; reflexivity.
Qed.

Lemma parseInt_numeral (u : Decimal.uint) :
  u <> Decimal.Nil ->
  parseInt (Some (NilEmpty.string_of_uint u))
  = parseDigits 10 None (NilEmpty.string_of_uint u).
Proof.
  assert (M : forall r : option Z, option_map (Z.mul 1) r = r).
  { intros [z|]; cbn [option_map]; [f_equal; lia | reflexivity]. }
  intros Hu. destruct u; [congruence | | ..];
    try (unfold parseInt; cbn -[parseDigits Z.mul]; apply M).
  destruct u; unfold parseInt; cbn -[parseDigits Z.mul]; apply M.
Qed.

Lemma to_uint_not_Nil (p : positive) : Pos.to_uint p <> Decimal.Nil.
Proof.
  intros E. pose proof (DecimalPos.Unsigned.of_to p) as H.
  rewrite E in H. discriminate.
Qed.

(** [parseInt] reads the decimal text of a natural number back. *)
Lemma parseInt_NumberToString (n : Z) :
  0 <= n -> parseInt (Some (NumberToString n)) = Some n.
Proof.
  intros Hn. destruct n as [| p | p]; [reflexivity | | lia].
  unfold NumberToString. cbn [Z.to_int NilZero.string_of_int].
  pose proof (to_uint_not_Nil p) as NN.
  assert (E : NilZero.string_of_uint (Pos.to_uint p)
              = NilEmpty.string_of_uint (Pos.to_uint p)).
  { destruct (Pos.to_uint p); [congruence | reflexivity ..]. }
  rewrite E, parseInt_numeral, (parseDigits_numeral _ None) by auto.
  rewrite DecimalPos.Unsigned.of_to. reflexivity.
Qed.

(** [parseInt] reads the decimal text of a negative number back. *)
Lemma parseInt_negative_numeral (u : Decimal.uint) :
  u <> Decimal.Nil ->
  parseInt (Some (String "-" (NilEmpty.string_of_uint u)))
  = option_map (Z.mul (-1)) (parseDigits 10 None (NilEmpty.string_of_uint u)).
Proof.
  intros Hu. destruct u; [congruence | | ..];
    try (unfold parseInt; cbn -[parseDigits Z.mul]; reflexivity).
  destruct u; unfold parseInt; cbn -[parseDigits Z.mul]; reflexivity.
Qed.

(** [parseInt] reads the decimal text of every integer back. *)
Lemma parseInt_NumberToString_any (n : Z) : parseInt (Some (NumberToString n)) = Some n.
Proof.
  destruct n as [| p | p]; [reflexivity | apply parseInt_NumberToString; lia |].
  unfold NumberToString. cbn [Z.to_int NilZero.string_of_int].
  pose proof (to_uint_not_Nil p) as NN.
  assert (E : NilZero.string_of_uint (Pos.to_uint p)
              = NilEmpty.string_of_uint (Pos.to_uint p)).
  { destruct (Pos.to_uint p); [congruence | reflexivity ..]. }
  rewrite E, parseInt_negative_numeral, (parseDigits_numeral _ None) by auto.
  rewrite DecimalPos.Unsigned.of_to. reflexivity.
Qed.


(** ** Date literals *)

(** The year, month and day of the day that [MakeDay] makes of a date of the
    calendar. *)
Lemma civil_of_MakeDay (y m d t : Z) :
  0 <= m <= 11 -> 1 <= d <= ES.DaysInMonth y m ->
  ES.Day t = ES.MakeDay y m d ->
  ES.YearFromTime t = y /\ ES.MonthFromTime t = m /\ ES.DateFromTime t = d.
Proof.
  intros Hm Hd HD.
  assert (C : m = 0 \/ m = 1 \/ m = 2 \/ m = 3 \/ m = 4 \/ m = 5 \/ m = 6
              \/ m = 7 \/ m = 8 \/ m = 9 \/ m = 10 \/ m = 11) by lia.
  pose proof (DayFromYear_step y) as S.
  assert (Y : ES.YearFromTime t = y).
  { unfold ES.YearFromTime. apply YearFromDay_unique. rewrite HD, S.
    unfold ES.DaysInMonth, ES.MakeDay in *.
    destruct (DaysInYear_cases y) as [E | E];
      repeat (destruct C as [-> | C]); try subst m;
      repeat match goal with
             | H : context [?a / 12] |- _ =>
                 let v := eval vm_compute in (a / 12) in change (a / 12) with v in H
             | H : context [?a mod 12] |- _ =>
                 let v := eval vm_compute in (a mod 12) in change (a mod 12) with v in H
             | |- context [?a / 12] =>
                 let v := eval vm_compute in (a / 12) in change (a / 12) with v
             | |- context [?a mod 12] =>
                 let v := eval vm_compute in (a mod 12) in change (a mod 12) with v
             end;
      rewrite ?Z.add_0_r in *; cbn [ES.DaysBeforeMonth] in *;
      rewrite ?E in *; cbn [Z.eqb Pos.eqb] in *; try lia;
      rewrite S in Hd; rewrite ?E in Hd; lia. }
  split; [exact Y|].
  unfold ES.DateFromTime, ES.MonthFromTime, ES.InLeapYear, ES.DayWithinYear.
  rewrite Y, HD. unfold ES.DaysInMonth, ES.MakeDay in *.
  destruct (DaysInYear_cases y) as [E | E];
    repeat (destruct C as [-> | C]); try subst m;
    repeat match goal with
           | H : context [?a / 12] |- _ =>
               let v := eval vm_compute in (a / 12) in change (a / 12) with v in H
           | H : context [?a mod 12] |- _ =>
               let v := eval vm_compute in (a mod 12) in change (a mod 12) with v in H
           | |- context [?a / 12] =>
               let v := eval vm_compute in (a / 12) in change (a / 12) with v
           | |- context [?a mod 12] =>
               let v := eval vm_compute in (a mod 12) in change (a mod 12) with v
           end;
    rewrite ?Z.add_0_r in *; cbn [ES.DaysBeforeMonth] in *;
    rewrite ?E in *; cbn [Z.eqb Pos.eqb] in *;
    try (rewrite S in Hd; rewrite ?E in Hd);
    repeat match goal with
           | |- context [if ?a <? ?b then _ else _] =>
               let H := fresh in destruct (Z.ltb_spec a b) as [H | H]
           end; cbn [ES.DaysBeforeMonth]; lia.
Qed.

Lemma digit_inv (c : ascii) (a : Z) :
  digit c = Some a -> 0 <= a <= 9 /\ c = digitChar a.
Proof.
  unfold digit, digitChar, code. intros H.
  destruct ((48 <=? Z.of_N (N_of_ascii c)) && (Z.of_N (N_of_ascii c) <=? 57)) eqn:E;
    [|discriminate].
  injection H as <-. apply andb_true_iff in E. destruct E as [E1 E2].
  apply Z.leb_le in E1, E2. split; [lia|].
  replace (48 + (Z.of_N (N_of_ascii c) - 48)) with (Z.of_N (N_of_ascii c)) by lia.
  now rewrite N2Z.id, ascii_N_embedding.
Qed.

Lemma In_decimalDigits (a : Z) : 0 <= a <= 9 -> In a decimalDigits.
Proof.
  intros H. unfold decimalDigits. cbn [In].
  assert (C : a = 0 \/ a = 1 \/ a = 2 \/ a = 3 \/ a = 4 \/ a = 5 \/ a = 6
              \/ a = 7 \/ a = 8 \/ a = 9) by lia.
  intuition auto.
Qed.

Lemma yearTexts_hold : yearTexts = true.
Proof. vm_compute. reflexivity. Qed.

Lemma paddedTexts_hold : paddedTexts = true.
Proof. vm_compute. reflexivity. Qed.

Lemma year_text (a b c d : Z) :
  1 <= a <= 9 -> 0 <= b <= 9 -> 0 <= c <= 9 -> 0 <= d <= 9 ->
  NumberToString (1000 * a + 100 * b + 10 * c + d)
  = String (digitChar a) (String (digitChar b)
      (String (digitChar c) (String (digitChar d) EmptyString))).
Proof.
  intros Ha Hb Hc Hd. pose proof yearTexts_hold as T. unfold yearTexts in T.
  rewrite forallb_forall in T.
  assert (Ia : In a (tl decimalDigits)).
  { pose proof (In_decimalDigits a ltac:(lia)) as I.
    destruct I as [I | I]; [lia | exact I]. }
  specialize (T a Ia). rewrite forallb_forall in T.
  specialize (T b (In_decimalDigits b Hb)). rewrite forallb_forall in T.
  specialize (T c (In_decimalDigits c Hc)). rewrite forallb_forall in T.
  specialize (T d (In_decimalDigits d Hd)). now apply String.eqb_eq in T.
Qed.

Lemma padded_text (e f : Z) :
  0 <= e <= 9 -> 0 <= f <= 9 ->
  padStart2 (NumberToString (10 * e + f))
  = String (digitChar e) (String (digitChar f) EmptyString).
Proof.
  intros He Hf. pose proof paddedTexts_hold as T. unfold paddedTexts in T.
  rewrite forallb_forall in T.
  specialize (T e (In_decimalDigits e He)). rewrite forallb_forall in T.
  specialize (T f (In_decimalDigits f Hf)). now apply String.eqb_eq in T.
Qed.

Lemma Some_triple_inj {A B C : Type} (a a' : A) (b b' : B) (c c' : C) :
  Some (a, b, c) = Some (a', b', c') -> a = a' /\ b = b' /\ c = c'.
Proof. intros H. injection H as -> -> ->. auto. Qed.

(** What [parseDateOnly] accepts: ten characters, digits and two hyphens,
    that name a day of the calendar. *)
Lemma parseDateOnly_inv (s : string) (y m d : Z) :
  parseDateOnly s = Some (y, m, d) ->
  exists a b c e f g h i : Z,
    (0 <= a <= 9 /\ 0 <= b <= 9 /\ 0 <= c <= 9 /\ 0 <= e <= 9)
    /\ (0 <= f <= 9 /\ 0 <= g <= 9 /\ 0 <= h <= 9 /\ 0 <= i <= 9)
    /\ y = 1000 * a + 100 * b + 10 * c + e
    /\ m = 10 * f + g /\ d = 10 * h + i
    /\ 1 <= m <= 12 /\ 1 <= d <= ES.DaysInMonth y (m - 1)
    /\ s = String (digitChar a) (String (digitChar b) (String (digitChar c)
             (String (digitChar e) (String "-" (String (digitChar f)
                (String (digitChar g) (String "-" (String (digitChar h)
                   (String (digitChar i) EmptyString))))))))).
Proof.
  unfold parseDateOnly. intros H.
  destruct s as [| y1 [| y2 [| y3 [| y4 [| s1 [| m1 [| m2 [| s2 [| d1 [| d2 [|]]]]]]]]]]];
    try discriminate.
  destruct (digit y1) as [a|] eqn:Da; [|discriminate].
  destruct (digit y2) as [b|] eqn:Db; [|discriminate].
  destruct (digit y3) as [c|] eqn:Dc; [|discriminate].
  destruct (digit y4) as [e|] eqn:De; [|discriminate].
  destruct (digit m1) as [f|] eqn:Df; [|discriminate].
  destruct (digit m2) as [g|] eqn:Dg; [|discriminate].
  destruct (digit d1) as [h|] eqn:Dh; [|discriminate].
  destruct (digit d2) as [i|] eqn:Di; [|discriminate].
  cbv zeta in H.
  match type of H with (if ?t then _ else _) = _ => destruct t eqn:T end;
    [|discriminate].
  apply Some_triple_inj in H. destruct H as (<- & <- & <-).
  repeat (apply andb_true_iff in T; destruct T as [T ?]).
  repeat match goal with
         | H : (_ <=? _) = true |- _ => apply Z.leb_le in H
         | H : Ascii.eqb _ _ = true |- _ => apply Ascii.eqb_eq in H; subst
         | H : digit _ = Some _ |- _ => apply digit_inv in H; destruct H as [? ->]
         end.
  exists a, b, c, e, f, g, h, i.
  split; [auto|]. split; [auto|].
  split; [reflexivity|]. split; [reflexivity|]. split; [reflexivity|].
  split; [lia|]. split; [lia|]. reflexivity.
Qed.

(** At or east of UTC, and for a year of four digits, a date literal comes
    back from [new Date] and [formatDate] as it was written. *)
Lemma date_only_round_trip (tza : Z) (parseOther : string -> option Z)
  (s : string) (y m d : Z) :
  0 <= tza < ES.msPerDay ->
  parseDateOnly s = Some (y, m, d) ->
  1000 <= y ->
  exists date,
    newDateString parseOther s = Some date /\ formatDate tza date = s.
Proof.
  intros Hz P Hy. unfold newDateString. rewrite P.
  eexists. split; [reflexivity|].
  apply parseDateOnly_inv in P.
  destruct P as (a & b & c & e & f & g & h & i & (Ha & Hb & Hc & He)
                 & (Hf & Hg & Hh & Hi) & Ey & Em & Ed & Rm & Rd & ->).
  assert (D : ES.Day (LocalTime tza (ES.MakeDate (ES.MakeDay y (m - 1) d) 0))
              = ES.MakeDay y (m - 1) d).
  { unfold LocalTime, ES.MakeDate. rewrite Z.add_0_r.
    unfold ES.Day, ES.msPerDay in *. zdiv. }
  destruct (civil_of_MakeDay y (m - 1) d _ ltac:(lia) Rd D) as (Y & M & DD).
  unfold formatDate, getFullYear, getMonth, getDate. rewrite Y, M, DD.
  replace (m - 1 + 1) with m by lia. subst y m d.
  rewrite year_text, !padded_text by lia. reflexivity.
Qed.

Example date_only_round_trip_Tokyo :
  exists date,
    newDateString noOther "2024-02-29" = Some date
    /\ formatDate 32400000 date = "2024-02-29".
Proof.
  apply (date_only_round_trip 32400000 noOther "2024-02-29" 2024 2 29).
  - unfold ES.msPerDay. lia.
  - reflexivity.
  - lia.
Qed.


(** ** Years, months and days *)

Lemma MakeDay_date (y m d : Z) : ES.MakeDay y m d = ES.MakeDay y m 1 + d - 1.
Proof. unfold ES.MakeDay. lia. Qed.

(** The day of the month of a time does not exceed the length of its
    month. *)
Lemma DateFromTime_le_DaysInMonth (t : Z) :
  ES.DateFromTime t <= ES.DaysInMonth (ES.YearFromTime t) (ES.MonthFromTime t).
Proof.
  pose proof (DayWithinYear_range t) as R.
  pose proof (DayFromYear_step (ES.YearFromTime t)) as S.
  unfold ES.DateFromTime, ES.MonthFromTime, ES.InLeapYear, ES.DaysInMonth, ES.MakeDay in *.
  destruct (DaysInYear_cases (ES.YearFromTime t)) as [E | E]; rewrite E in *;
    cbn [Z.eqb Pos.eqb] in *;
    repeat match goal with
           | |- context [if ?a <? ?b then _ else _] =>
               let H := fresh in destruct (Z.ltb_spec a b) as [H | H]
           end;
    repeat match goal with
           | |- context [?a / 12] =>
               let v := eval vm_compute in (a / 12) in change (a / 12) with v
           | |- context [?a mod 12] =>
               let v := eval vm_compute in (a mod 12) in change (a mod 12) with v
           end;
    rewrite ?Z.add_0_r; cbn [ES.DaysBeforeMonth]; rewrite ?E; cbn [Z.eqb Pos.eqb];
    try lia;
    rewrite S, E; lia.
Qed.

Lemma localDay_unfold (tza date : Z) : localDay tza date = ES.Day (LocalTime tza date).
Proof. reflexivity. Qed.

Lemma getFullYear_unfold (tza date : Z) :
  getFullYear tza date = ES.YearFromTime (LocalTime tza date).
Proof. reflexivity. Qed.

Lemma getMonth_unfold (tza date : Z) :
  getMonth tza date = ES.MonthFromTime (LocalTime tza date).
Proof. reflexivity. Qed.

Lemma getDate_unfold (tza date : Z) :
  getDate tza date = ES.DateFromTime (LocalTime tza date).
Proof. reflexivity. Qed.

(** The two dates that [MONTH] builds from a year and a month. *)
Lemma month_ends (tza y m : Z) :
  0 <= m <= 11 -> ~ (0 <= y <= 99) ->
  (getFullYear tza (newDateYMDValue tza y m 1) = y
   /\ getMonth tza (newDateYMDValue tza y m 1) = m
   /\ getDate tza (newDateYMDValue tza y m 1) = 1)
  /\ (getFullYear tza (newDateYMDValue tza y (m + 1) 0) = y
      /\ getMonth tza (newDateYMDValue tza y (m + 1) 0) = m
      /\ getDate tza (newDateYMDValue tza y (m + 1) 0) = ES.DaysInMonth y m)
  /\ localDay tza (newDateYMDValue tza y m 1) = ES.MakeDay y m 1
  /\ localDay tza (newDateYMDValue tza y (m + 1) 0) = ES.MakeDay y m (ES.DaysInMonth y m)
  /\ 1 <= ES.DaysInMonth y m.
Proof.
  intros Hm NY.
  assert (Q : (if (0 <=? y) && (y <=? 99) then 1900 + y else y) = y).
  { destruct (Z.leb_spec 0 y), (Z.leb_spec y 99); cbn [andb]; try reflexivity.
    exfalso. apply NY. lia. }
  pose proof (localDay_newDateYMD tza y m 1) as F.
  pose proof (localDay_newDateYMD tza y (m + 1) 0) as T.
  rewrite Q in F, T.
  pose proof (MakeDay_month_order y m Hm) as O.
  assert (Dm : 1 <= ES.DaysInMonth y m).
  { unfold ES.DaysInMonth. rewrite (MakeDay_date y (m + 1) 0) in O. lia. }
  assert (T' : localDay tza (newDateYMDValue tza y (m + 1) 0)
               = ES.MakeDay y m (ES.DaysInMonth y m)).
  { rewrite T, (MakeDay_date y (m + 1) 0), (MakeDay_date y m (ES.DaysInMonth y m)).
    unfold ES.DaysInMonth. lia. }
  split; [|split; [|auto]]; rewrite getFullYear_unfold, getMonth_unfold, getDate_unfold.
  - rewrite localDay_unfold in F.
    apply (civil_of_MakeDay y m 1); [exact Hm | lia | exact F].
  - rewrite localDay_unfold in T'.
    apply (civil_of_MakeDay y m (ES.DaysInMonth y m)); [exact Hm | lia | exact T'].
Qed.

(** The local day of a date, from its year, month and day of the month. *)
Lemma localDay_civil (tza date : Z) :
  localDay tza date
  = ES.MakeDay (getFullYear tza date) (getMonth tza date) 1 + getDate tza date - 1
  /\ 1 <= getDate tza date
       <= ES.DaysInMonth (getFullYear tza date) (getMonth tza date).
Proof.
  unfold localDay, getFullYear, getMonth, getDate.
  pose proof (MakeDay_same_month (LocalTime tza date)
                (ES.DateFromTime (LocalTime tza date))) as N.
  rewrite MakeDay_date in N.
  pose proof (DateFromTime_range (LocalTime tza date)).
  pose proof (DateFromTime_le_DaysInMonth (LocalTime tza date)).
  lia.
Qed.

(** A month has 28 to 31 days. *)
Lemma DaysInMonth_range (y m : Z) : 0 <= m <= 11 -> 28 <= ES.DaysInMonth y m <= 31.
Proof.
  intros Hm.
  assert (C : m = 0 \/ m = 1 \/ m = 2 \/ m = 3 \/ m = 4 \/ m = 5 \/ m = 6
              \/ m = 7 \/ m = 8 \/ m = 9 \/ m = 10 \/ m = 11) by lia.
  clear Hm. pose proof (DayFromYear_step y) as St.
  unfold ES.DaysInMonth, ES.MakeDay.
  destruct (DaysInYear_cases y) as [E | E];
    repeat (destruct C as [-> | C]); try subst m;
    repeat match goal with
           | |- context [?a / 12] =>
               let v := eval vm_compute in (a / 12) in change (a / 12) with v
           | |- context [?a mod 12] =>
               let v := eval vm_compute in (a mod 12) in change (a mod 12) with v
           end;
    rewrite ?Z.add_0_r; cbn [ES.DaysBeforeMonth]; rewrite ?E; cbn [Z.eqb Pos.eqb];
    try lia;
    rewrite St, E; destruct (DaysInYear_cases (y + 1)) as [E1 | E1]; rewrite E1;
    cbn [Z.eqb Pos.eqb]; lia.
Qed.


(** ** The text of a date *)

Lemma digit_digitChar (a : Z) : 0 <= a <= 9 -> digit (digitChar a) = Some a.
Proof.
  intros H.
  assert (C : a = 0 \/ a = 1 \/ a = 2 \/ a = 3 \/ a = 4 \/ a = 5 \/ a = 6
              \/ a = 7 \/ a = 8 \/ a = 9) by lia.
  repeat (destruct C as [-> | C]); try subst a; reflexivity.
Qed.

(** The text that [formatDate] writes for a year of four digits. *)
Lemma formatDate_text (tza date : Z) :
  1000 <= getFullYear tza date <= 9999 ->
  exists a b c e f g h i : Z,
    (1 <= a <= 9 /\ 0 <= b <= 9 /\ 0 <= c <= 9 /\ 0 <= e <= 9)
    /\ (0 <= f <= 9 /\ 0 <= g <= 9 /\ 0 <= h <= 9 /\ 0 <= i <= 9)
    /\ getFullYear tza date = 1000 * a + 100 * b + 10 * c + e
    /\ getMonth tza date + 1 = 10 * f + g
    /\ getDate tza date = 10 * h + i
    /\ formatDate tza date
       = String (digitChar a) (String (digitChar b) (String (digitChar c)
           (String (digitChar e) (String "-" (String (digitChar f)
              (String (digitChar g) (String "-" (String (digitChar h)
                 (String (digitChar i) EmptyString))))))))).
Proof.
  intros Hy.
  pose proof (MonthFromTime_range (LocalTime tza date)) as Hm.
  pose proof (DateFromTime_range (LocalTime tza date)) as Hd.
  rewrite <- getMonth_unfold in Hm. rewrite <- getDate_unfold in Hd.
  unfold formatDate.
  set (y := getFullYear tza date) in *. set (m := getMonth tza date) in *.
  set (d := getDate tza date) in *.
  exists (y / 1000), (y / 100 mod 10), (y / 10 mod 10), (y mod 10),
         ((m + 1) / 10), ((m + 1) mod 10), (d / 10), (d mod 10).
  assert (Ey : y = 1000 * (y / 1000) + 100 * (y / 100 mod 10)
                   + 10 * (y / 10 mod 10) + y mod 10) by zdiv.
  assert (Em : m + 1 = 10 * ((m + 1) / 10) + (m + 1) mod 10) by zdiv.
  assert (Ed : d = 10 * (d / 10) + d mod 10) by zdiv.
  split; [zdiv|]. split; [zdiv|].
  split; [exact Ey|]. split; [exact Em|]. split; [exact Ed|].
  rewrite Ey at 1. rewrite Em at 1. rewrite Ed at 1.
  rewrite year_text, !padded_text by zdiv. reflexivity.
Qed.

(** Read back as a date-only literal, the text of a date gives the number
    of its local day. *)
Lemma formatDate_read_back (tza date : Z) :
  1000 <= getFullYear tza date <= 9999 ->
  dayOfISO (formatDate tza date) = Some (localDay tza date).
Proof.
  intros Hy.
  destruct (formatDate_text tza date Hy)
    as (a & b & c & e & f & g & h & i & (Ha & Hb & Hc & He)
        & (Hf & Hg & Hh & Hi) & Ey & Em & Ed & ->).
  destruct (localDay_civil tza date) as (N & Rd).
  pose proof (MonthFromTime_range (LocalTime tza date)) as Rm.
  rewrite <- getMonth_unfold in Rm.
  unfold dayOfISO, parseDateOnly.
  rewrite !digit_digitChar by lia. cbv zeta.
  change (Ascii.eqb "-" "-") with true. cbn [andb].
  rewrite <- Ey, <- Em, <- Ed.
  replace (getMonth tza date + 1 - 1) with (getMonth tza date) by lia.
  assert (B : (1 <=? getMonth tza date + 1) && (getMonth tza date + 1 <=? 12)
              && (1 <=? getDate tza date)
              && (getDate tza date
                  <=? ES.DaysInMonth (getFullYear tza date) (getMonth tza date))
              = true).
  { repeat (apply andb_true_intro; split); apply Z.leb_le; lia. }
  rewrite B. replace (getMonth tza date + 1 - 1) with (getMonth tza date) by lia.
  rewrite N, (MakeDay_date _ _ (getDate tza date)). reflexivity.
Qed.

Lemma length_append (a b : string) :
  String.length (a ++ b) = (String.length a + String.length b)%nat.
Proof. induction a as [| c a IH]; cbn [append String.length]; [reflexivity | now rewrite IH]. Qed.

Lemma splitTail6_app (a b : string) :
  String.length b = 6%nat -> splitTail6 (a ++ b) = (a, b).
Proof.
  intros L. induction a as [| c a IH].
  - cbn [append]. destruct b as [| c b]; [discriminate L|].
    unfold splitTail6. rewrite L. reflexivity.
  - cbn [append splitTail6]. rewrite IH.
    cbn [String.length]. rewrite length_append, L.
    replace (Nat.leb (S (String.length a + 6)) 6) with false; [reflexivity|].
    symmetry. apply Nat.leb_gt. lia.
Qed.

(** [readInt] reads the text of a number back. *)
Lemma readInt_NumberToString (n : Z) : readInt (NumberToString n) = Some n.
Proof.
  unfold readInt, NumberToString. rewrite NilZero.isi.
  - cbn [option_map]. now rewrite DecimalZ.of_to.
  - destruct n as [| p | p]; cbn [Z.to_int]; try discriminate.
    intros E. injection E as E. exact (to_uint_not_Nil p E).
  - destruct n as [| p | p]; cbn [Z.to_int]; try discriminate.
    intros E. injection E as E. exact (to_uint_not_Nil p E).
Qed.

(** The text that [formatDate] writes for a valid date: the year, and six
    characters for the month and the day. *)
Lemma formatDate_tail (tza date : Z) :
  exists f g h i : Z,
    (0 <= f <= 9 /\ 0 <= g <= 9 /\ 0 <= h <= 9 /\ 0 <= i <= 9)
    /\ getMonth tza date + 1 = 10 * f + g
    /\ getDate tza date = 10 * h + i
    /\ formatDate tza date
       = NumberToString (getFullYear tza date)
         ++ String "-" (String (digitChar f) (String (digitChar g)
              (String "-" (String (digitChar h) (String (digitChar i) EmptyString))))).
Proof.
  pose proof (MonthFromTime_range (LocalTime tza date)) as Hm.
  pose proof (DateFromTime_range (LocalTime tza date)) as Hd.
  rewrite <- getMonth_unfold in Hm. rewrite <- getDate_unfold in Hd.
  unfold formatDate.
  set (y := getFullYear tza date) in *. set (m := getMonth tza date) in *.
  set (d := getDate tza date) in *.
  exists ((m + 1) / 10), ((m + 1) mod 10), (d / 10), (d mod 10).
  assert (Em : m + 1 = 10 * ((m + 1) / 10) + (m + 1) mod 10) by zdiv.
  assert (Ed : d = 10 * (d / 10) + d mod 10) by zdiv.
  split; [zdiv|]. split; [exact Em|]. split; [exact Ed|].
  rewrite Em at 1. rewrite Ed at 1.
  rewrite !padded_text by zdiv. reflexivity.
Qed.

(** The text of a valid date names its local day, whatever its year. *)
Lemma dayOfText_formatDate (tza date : Z) :
  dayOfText (formatDate tza date) = Some (localDay tza date).
Proof.
  destruct (formatDate_tail tza date)
    as (f & g & h & i & (Hf & Hg & Hh & Hi) & Em & Ed & ->).
  destruct (localDay_civil tza date) as (N & Rd).
  pose proof (MonthFromTime_range (LocalTime tza date)) as Rm.
  rewrite <- getMonth_unfold in Rm.
  unfold dayOfText. rewrite splitTail6_app by reflexivity.
  rewrite readInt_NumberToString, !digit_digitChar by lia. cbv zeta.
  change (Ascii.eqb "-" "-") with true. cbn [andb].
  rewrite <- Em, <- Ed.
  replace (getMonth tza date + 1 - 1) with (getMonth tza date) by lia.
  assert (B : (1 <=? getMonth tza date + 1) && (getMonth tza date + 1 <=? 12)
              && (1 <=? getDate tza date)
              && (getDate tza date
                  <=? ES.DaysInMonth (getFullYear tza date) (getMonth tza date))
              = true).
  { repeat (apply andb_true_intro; split); apply Z.leb_le; lia. }
  rewrite B. rewrite N, (MakeDay_date _ _ (getDate tza date)). reflexivity.
Qed.

(** The text of an invalid date names no day. *)
Lemma dayOfText_Invalid (tza : Z) : dayOfText (formatDate tza Invalid) = None.
Proof. reflexivity. Qed.


(** ** The time-range resolver *)

Section RangeFacts.

Variable tza : Z.
Variable parseOther : string -> option Z.

Lemma rangeDates_TODAY (now now' : Z) (rest : list string) :
  rangeDates tza parseOther now now' ("TODAY" :: rest) = Return (Valid now, Valid now).
Proof. reflexivity. Qed.

Lemma rangeDates_WEEK (now now' : Z) (rest : list string) :
  rangeDates tza parseOther now now' ("WEEK" :: rest)
  = let dayOfWeek := getDay tza now in
    let firstDayOfWeek :=
      setDate tza now (getDate tza now - dayOfWeek + (if dayOfWeek =? 0 then -6 else 1)) in
    Return (firstDayOfWeek,
            match firstDayOfWeek with
            | Valid first => setDate tza first (getDate tza first + 6)
            | Invalid => Invalid
            end).
Proof. reflexivity. Qed.

Lemma rangeDates_MONTH (now now' : Z) (rest : list string) :
  rangeDates tza parseOther now now' ("MONTH" :: rest)
  = Return (newDateYMD tza (getFullYear tza now) (getMonth tza now) 1,
            newDateYMD tza (getFullYear tza now) (getMonth tza now + 1) 0).
Proof. reflexivity. Qed.

Lemma rangeDates_PAST (now now' : Z) (rest : list string) :
  rangeDates tza parseOther now now' ("PAST" :: rest)
  = match parseInt (nth_error rest 0) with
    | Some count =>
        if tokenIs (nth_error rest 1) "DAYS"
        then Return (setDate tza now' (getDate tza now - (count - 1)), Valid now)
        else Throw "Invalid PAST format. Use 'PAST <number> DAYS'."
    | None => Throw "Invalid PAST format. Use 'PAST <number> DAYS'."
    end.
Proof.
  unfold rangeDates.
  change (nth_error ("PAST" :: rest) 0) with (Some "PAST").
  change (nth_error ("PAST" :: rest) 1) with (nth_error rest 0).
  change (nth_error ("PAST" :: rest) 2) with (nth_error rest 1).
  change (tokenIs (Some "PAST") "TODAY") with false.
  change (tokenIs (Some "PAST") "WEEK") with false.
  change (tokenIs (Some "PAST") "MONTH") with false.
  change (tokenIs (Some "PAST") "PAST") with true. cbv iota.
  destruct (parseInt (nth_error rest 0)); [|reflexivity].
  destruct (tokenIs (nth_error rest 1) "DAYS"); reflexivity.
Qed.

Lemma rangeDates_FROM (now now' : Z) (rest : list string) :
  rangeDates tza parseOther now now' ("FROM" :: rest)
  = if (Nat.ltb (List.length rest) 3) || negb (tokenIs (nth_error rest 1) "TO")
    then Throw "Invalid FROM...TO format."
    else
      match newDateString parseOther (tokenText (nth_error rest 0)),
            newDateString parseOther (tokenText (nth_error rest 2)) with
      | Some from, Some to => Return (Valid from, Valid to)
      | _, _ => Throw "Invalid date format in FROM...TO. Use YYYY-MM-DD."
      end.
Proof.
  unfold rangeDates.
  change (nth_error ("FROM" :: rest) 0) with (Some "FROM").
  change (nth_error ("FROM" :: rest) 1) with (nth_error rest 0).
  change (nth_error ("FROM" :: rest) 2) with (nth_error rest 1).
  change (nth_error ("FROM" :: rest) 3) with (nth_error rest 2).
  change (tokenIs (Some "FROM") "TODAY") with false.
  change (tokenIs (Some "FROM") "WEEK") with false.
  change (tokenIs (Some "FROM") "MONTH") with false.
  change (tokenIs (Some "FROM") "PAST") with false.
  change (tokenIs (Some "FROM") "FROM") with true. cbv iota.
  change (Nat.ltb (List.length ("FROM" :: rest)) 4) with (Nat.ltb (List.length rest) 3).
  reflexivity.
Qed.

(** The Monday that [WEEK] computes, as a local day. *)
Lemma week_start_day (now : Z) :
  localDay tza
    (setDateValue tza now
       (getDate tza now - getDay tza now + (if getDay tza now =? 0 then -6 else 1)))
  = localDay tza now - (localDay tza now + 3) mod 7.
Proof.
  rewrite localDay_setDate, getDay_localDay.
  set (d := localDay tza now).
  destruct (Z.eqb_spec ((d + 4) mod 7) 0) as [E | E]; zdiv.
Qed.

(** The week of a clock that is six days inside the range of [Date]: two
    valid dates, the Monday on or before today and the day six days after
    it, at the time of day of the clock. *)
Lemma week_dates (now now' : Z) (rest : list string) :
  Z.abs now + 6 * ES.msPerDay <= maxTime ->
  exists first last : Z,
    rangeDates tza parseOther now now' ("WEEK" :: rest) = Return (Valid first, Valid last)
    /\ localDay tza first = localDay tza now - (localDay tza now + 3) mod 7
    /\ localDay tza last = localDay tza first + 6.
Proof.
  intros M. rewrite rangeDates_WEEK. cbv zeta.
  pose proof (week_start_day now) as W.
  set (dt := getDate tza now - getDay tza now + (if getDay tza now =? 0 then -6 else 1)) in *.
  assert (K : -6 <= dt - getDate tza now <= 0).
  { subst dt. rewrite getDay_localDay.
    destruct (Z.eqb_spec ((localDay tza now + 4) mod 7) 0) as [E | E]; zdiv. }
  pose proof (setDateValue_shift tza now dt) as S.
  set (first := setDateValue tza now dt) in *.
  assert (V : Z.abs first <= maxTime).
  { rewrite S. unfold ES.msPerDay, maxTime in *. lia. }
  pose proof (setDateValue_shift tza first (getDate tza first + 6)) as S'.
  set (last := setDateValue tza first (getDate tza first + 6)) in *.
  assert (V' : Z.abs last <= maxTime).
  { rewrite S', S. unfold ES.msPerDay, maxTime in *. lia. }
  exists first, last. rewrite (setDate_Valid tza now dt V). fold first.
  rewrite (setDate_Valid tza first _ V').
  split; [reflexivity|]. split; [exact W|].
  unfold last. rewrite localDay_setDate. lia.
Qed.

(** The month of a clock that is 31 days inside the range of [Date], in a
    year that the constructor takes as it is: two valid dates, the first
    and the last day of the month of today. *)
Lemma month_dates (now now' : Z) (rest : list string) :
  ~ (0 <= getFullYear tza now <= 99) ->
  Z.abs now + 31 * ES.msPerDay <= maxTime ->
  exists first last : Z,
    rangeDates tza parseOther now now' ("MONTH" :: rest) = Return (Valid first, Valid last)
    /\ localDay tza first = ES.MakeDay (getFullYear tza now) (getMonth tza now) 1
    /\ localDay tza last
       = ES.MakeDay (getFullYear tza now) (getMonth tza now) 1
         + ES.DaysInMonth (getFullYear tza now) (getMonth tza now) - 1
    /\ localDay tza first <= localDay tza now <= localDay tza last.
Proof.
  intros NY M. rewrite rangeDates_MONTH.
  destruct (month_ends tza (getFullYear tza now) (getMonth tza now)
              (MonthFromTime_range _) NY) as (_ & _ & F & T & Dm).
  destruct (localDay_civil tza now) as (N & RN).
  rewrite (MakeDay_date _ _ (ES.DaysInMonth _ _)) in T.
  pose proof (newDateYMDValue_time tza (getFullYear tza now) (getMonth tza now) 1) as Vf.
  pose proof (newDateYMDValue_time tza (getFullYear tza now) (getMonth tza now + 1) 0) as Vt.
  pose proof (localDay_time tza now) as Ln.
  set (first := newDateYMDValue tza (getFullYear tza now) (getMonth tza now) 1) in *.
  set (last := newDateYMDValue tza (getFullYear tza now) (getMonth tza now + 1) 0) in *.
  pose proof (DateFromTime_range (LocalTime tza now)) as Rd.
  rewrite <- getDate_unfold in Rd.
  pose proof (DaysInMonth_range (getFullYear tza now) (getMonth tza now)
                (MonthFromTime_range _)) as Dn.
  assert (V : Z.abs first <= maxTime /\ Z.abs last <= maxTime).
  { clearbody first last. unfold ES.msPerDay, maxTime in *. lia. }
  destruct V as [V V'].
  exists first, last.
  rewrite (newDateYMD_Valid tza _ _ _ V), (newDateYMD_Valid tza _ _ _ V').
  split; [reflexivity|]. split; [exact F|]. split; [exact T|].
  rewrite F, T, N. lia.
Qed.

(** [PAST] with a count and [DAYS]: the first date is a valid one when its
    time is within the range, and then its local day is that of [setDate]. *)
Lemma past_dates (now now' count : Z) (rest : list string) :
  parseInt (nth_error rest 0) = Some count ->
  nth_error rest 1 = Some "DAYS" ->
  Z.abs (now' - (count - 1 + (getDate tza now' - getDate tza now)) * ES.msPerDay)
  <= maxTime ->
  exists first : Z,
    rangeDates tza parseOther now now' ("PAST" :: rest) = Return (Valid first, Valid now)
    /\ localDay tza first
       = localDay tza now' - getDate tza now' + getDate tza now - (count - 1).
Proof.
  intros P D V. rewrite rangeDates_PAST, P, D. cbn [tokenIs].
  rewrite String.eqb_refl.
  pose proof (setDateValue_shift tza now' (getDate tza now - (count - 1))) as S.
  exists (setDateValue tza now' (getDate tza now - (count - 1))).
  rewrite setDate_Valid.
  - split; [reflexivity|]. rewrite localDay_setDate. lia.
  - rewrite S.
    replace (now' + (getDate tza now - (count - 1) - getDate tza now') * ES.msPerDay)
      with (now' - (count - 1 + (getDate tza now' - getDate tza now)) * ES.msPerDay)
      by lia.
    exact V.
Qed.

(** Two clock readings in one local month: their days of the month tell
    how many days lie between them. *)
Lemma same_month_days (now now' : Z) :
  getFullYear tza now' = getFullYear tza now ->
  getMonth tza now' = getMonth tza now ->
  localDay tza now' - getDate tza now' = localDay tza now - getDate tza now.
Proof.
  intros Y M.
  destruct (localDay_civil tza now) as (N & _).
  destruct (localDay_civil tza now') as (N' & _).
  rewrite N, N', Y, M. lia.
Qed.

(** The texts of a range of two valid dates. *)
Lemma parseTimeRange_texts (now now' : Z) (tokens : list string) (first last : Z) :
  rangeDates tza parseOther now now' tokens = Return (Valid first, Valid last) ->
  parseTimeRange tza parseOther now now' tokens
  = Return (formatDate tza first, formatDate tza last)
  /\ dayOfText (formatDate tza first) = Some (localDay tza first)
  /\ dayOfText (formatDate tza last) = Some (localDay tza last).
Proof.
  intros R. unfold parseTimeRange. rewrite R. cbn [bind].
  split; [reflexivity|]. split; apply dayOfText_formatDate.
Qed.

End RangeFacts.


(** ** Claims about the time-range resolver *)

(** C5, as the code has it.  For every integer [n >= 1], [PAST n DAYS]
    resolves to the text of today and the text of the day [n - 1] days
    before today, whatever months or years lie between, when the two
    readings of the clock fall in one local month and the first date, at
    the time of day of the second reading, is within the range of
    [Date]. *)
Theorem past_days_span (tza : Z) (parseOther : string -> option Z)
  (now now' n : Z) (rest : list string) :
  1 <= n ->
  getFullYear tza now' = getFullYear tza now ->
  getMonth tza now' = getMonth tza now ->
  Z.abs (now' - (n - 1 + (localDay tza now' - localDay tza now)) * ES.msPerDay)
  <= maxTime ->
  exists from to : ISODate,
    parseTimeRange tza parseOther now now'
      ("PAST" :: NumberToString n :: "DAYS" :: rest) = Return (from, to)
    /\ dayOfText to = Some (localDay tza now)
    /\ dayOfText from = Some (localDay tza now - (n - 1)).
Proof.
  intros Hn Y M V.
  pose proof (same_month_days tza now now' Y M) as S.
  destruct (past_dates tza parseOther now now' n (NumberToString n :: "DAYS" :: rest))
    as (first & R & L).
  - cbn [nth_error]. apply parseInt_NumberToString. lia.
  - reflexivity.
  - replace (getDate tza now' - getDate tza now)
      with (localDay tza now' - localDay tza now) by lia.
    exact V.
  - destruct (parseTimeRange_texts _ _ _ _ _ _ _ R) as (P & Tf & Tt).
    exists (formatDate tza first), (formatDate tza now).
    split; [exact P|]. split; [exact Tt|]. rewrite Tf. f_equal. lia.
Qed.

Lemma past_days_span_witness :
  exists from to : ISODate,
    parseTimeRange 0 noOther noon_2025_01_15 noon_2025_01_15
      ("PAST" :: NumberToString 20 :: "DAYS" :: []) = Return (from, to)
    /\ dayOfText to = Some (localDay 0 noon_2025_01_15)
    /\ dayOfText from = Some (localDay 0 noon_2025_01_15 - (20 - 1)).
Proof.
  apply (past_days_span 0 noOther noon_2025_01_15 noon_2025_01_15 20 []).
  - lia.
  - reflexivity.
  - reflexivity.
  - vm_compute. discriminate.
Defined.

(** C5 as stated fails.  A count that leads beyond the range of [Date]
    makes an invalid date, whose text names no day; and when the clock
    passes from one month into the next between its two readings, the
    range does not begin [n - 1] days before today: from 23:59:59.999 on
    the 31st of January to midnight, [PAST 1 DAYS] begins on the 3rd of
    March. *)
Lemma past_days_not_spanned :
  parseQuery 0 noOther noon_2025_01_15 noon_2025_01_15 "LIST PAST 999999999 DAYS"
  = Return {| type := LIST; from := "NaN-NaN-NaN"; to := "2025-01-15" |}
  /\ dayOfText "NaN-NaN-NaN" = None
  /\ parseQuery 0 noOther 1738367999999 1738368000000 "LIST PAST 1 DAYS"
     = Return {| type := LIST; from := "2025-03-03"; to := "2025-01-31" |}.
Proof. repeat split; vm_compute; reflexivity. Qed.




(** C3, as the code has it.  [PAST] followed by tokens resolves exactly when
    [parseInt] reads a number from the first token and the second token is
    [DAYS].  The decimal text of every integer, be it positive, zero or
    negative, is read as that integer, so no count is refused for its
    value.  Every failure throws one fixed message, which does not quote
    the token. *)
Theorem past_accepts_any_number (tza : Z) (parseOther : string -> option Z)
  (now now' : Z) (rest : list string) :
  ((exists r, parseTimeRange tza parseOther now now' ("PAST" :: rest) = Return r)
   <-> (exists count, parseInt (nth_error rest 0) = Some count)
       /\ nth_error rest 1 = Some "DAYS")
  /\ (forall n more,
        parseInt (Some (NumberToString n)) = Some n
        /\ exists r,
             parseTimeRange tza parseOther now now'
               ("PAST" :: NumberToString n :: "DAYS" :: more) = Return r)
  /\ (forall message,
        parseTimeRange tza parseOther now now' ("PAST" :: rest) = Throw message ->
        message = "Invalid PAST format. Use 'PAST <number> DAYS'.").
Proof.
  assert (D : forall t, tokenIs t "DAYS" = true <-> t = Some "DAYS").
  { intros [t|]; cbn [tokenIs]; [rewrite String.eqb_eq|]; split; congruence. }
  unfold parseTimeRange.
  split; [|split].
  - rewrite rangeDates_PAST.
    destruct (parseInt (nth_error rest 0)) as [count|].
    + destruct (tokenIs (nth_error rest 1) "DAYS") eqn:E.
      * apply D in E. cbn [bind].
        split; [intros _; split; [eauto | exact E] | eauto].
      * split; [intros [r H]; discriminate|].
        intros [_ H]. apply D in H. congruence.
    + split; [intros [r H]; discriminate | intros [[c H] _]; discriminate].
  - intros n more. split; [apply parseInt_NumberToString_any|].
    rewrite rangeDates_PAST. cbn [nth_error].
    rewrite parseInt_NumberToString_any. cbn [tokenIs]. rewrite String.eqb_refl.
    cbn [bind]. eauto.
  - intros message. rewrite rangeDates_PAST.
    destruct (parseInt (nth_error rest 0)); [|cbn [bind]; congruence].
    destruct (tokenIs (nth_error rest 1) "DAYS"); cbn [bind]; congruence.
Qed.

(** C3 as stated fails: a count of zero is accepted, and the range it
    yields begins on the day after today; a negative count is accepted as
    well; and the message for a count that is not a number does not cite
    it. *)
Lemma past_zero_days_accepted :
  parseInt (Some "0") = Some 0
  /\ parseQuery 0 noOther noon_2025_01_15 noon_2025_01_15 "LIST PAST 0 DAYS"
     = Return {| type := LIST; from := "2025-01-16"; to := "2025-01-15" |}
  /\ parseQuery 0 noOther noon_2025_01_15 noon_2025_01_15 "LIST PAST -3 DAYS"
     = Return {| type := LIST; from := "2025-01-19"; to := "2025-01-15" |}
  /\ parseQuery 0 noOther noon_2025_01_15 noon_2025_01_15 "LIST PAST x DAYS"
     = Throw "Invalid PAST format. Use 'PAST <number> DAYS'.".
Proof. repeat split; vm_compute; reflexivity. Qed.


(** ** Claims about the query parser *)

(** A text that is not that of an invalid date is the text of a valid
    one. *)
Lemma formatDate_valid (tza : Z) (date : Date) :
  formatDate tza date <> "NaN-NaN-NaN" -> exists t, date = Valid t.
Proof.
  destruct date as [t|]; [eauto|]. intros H. exfalso. apply H. reflexivity.
Qed.

(** The two dates of a range are in order, when they are valid, for every
    range but [PAST] with a count below 1 or with clock readings in two
    months, and [FROM ... TO ...] with the later date first. *)
Lemma rangeDates_ordered (tza : Z) (parseOther : string -> option Z)
  (now now' : Z) (tokens : list string) (f t : Z) :
  rangeDates tza parseOther now now' tokens = Return (Valid f, Valid t) ->
  (nth_error tokens 0 = Some "PAST" ->
   exists n, parseInt (nth_error tokens 1) = Some n /\ 1 <= n
             /\ getFullYear tza now' = getFullYear tza now
             /\ getMonth tza now' = getMonth tza now) ->
  (nth_error tokens 0 = Some "FROM" ->
   exists d1 d2,
     newDateString parseOther (tokenText (nth_error tokens 1)) = Some d1
     /\ newDateString parseOther (tokenText (nth_error tokens 3)) = Some d2
     /\ d1 <= d2) ->
  localDay tza f <= localDay tza t.
Proof.
  unfold rangeDates. intros R PN FR.
  destruct (nth_error tokens 0) as [t1|]; cbn [tokenIs] in R; [|discriminate].
  destruct (String.eqb_spec t1 "TODAY") as [E | _].
  { apply Return_pair_inj in R. destruct R as [Ef Et].
    injection Ef as <-. injection Et as <-. lia. }
  destruct (String.eqb_spec t1 "WEEK") as [E | _].
  { apply Return_pair_inj in R. destruct R as [Ef Et].
    rewrite Ef in Et. apply setDate_inv in Et. destruct Et as [Et _].
    rewrite Et, localDay_setDate. lia. }
  destruct (String.eqb_spec t1 "MONTH") as [E | _].
  { apply Return_pair_inj in R. destruct R as [Ef Et].
    apply newDateYMD_inv in Ef, Et. destruct Ef as [Ef _]. destruct Et as [Et _].
    rewrite Ef, Et, !localDay_newDateYMD.
    apply MakeDay_month_order, MonthFromTime_range. }
  destruct (String.eqb_spec t1 "PAST") as [E | _].
  { destruct PN as (n & Hp & Hn & Y & M); [congruence|]. rewrite Hp in R.
    destruct (negb _); [discriminate|].
    apply Return_pair_inj in R. destruct R as [Ef Et].
    injection Et as <-. apply setDate_inv in Ef. destruct Ef as [Ef _].
    rewrite Ef, localDay_setDate.
    pose proof (same_month_days tza now now' Y M). lia. }
  destruct (String.eqb_spec t1 "FROM") as [E | _]; [|discriminate].
  destruct FR as (d1 & d2 & P1 & P2 & L); [congruence|].
  destruct (_ || _); [discriminate|].
  rewrite P1, P2 in R.
  apply Return_pair_inj in R. destruct R as [Ef Et].
  injection Ef as <-. injection Et as <-.
  unfold localDay, LocalTime, ES.Day, ES.msPerDay. zdiv.
Qed.

(** C2, as the code has it.  A query that parses with two valid dates (a
    date beyond the range of [Date] is written [NaN-NaN-NaN]) has
    [from <= to]: its two texts name days in order, when its range is
    [TODAY], [WEEK], [MONTH], [PAST n DAYS] with [n >= 1] and both readings
    of the clock in one local month, or [FROM d1 TO d2] with the instant of
    [d1] not after that of [d2]. *)
Theorem ordered_range (tza : Z) (parseOther : string -> option Z)
  (now now' : Z) (source : string) (query : HarvestQuery) :
  parseQuery tza parseOther now now' source = Return query ->
  from query <> "NaN-NaN-NaN" ->
  to query <> "NaN-NaN-NaN" ->
  (nth_error (tokenize source) 1 = Some "PAST" ->
   exists n, parseInt (nth_error (tokenize source) 2) = Some n /\ 1 <= n
             /\ getFullYear tza now' = getFullYear tza now
             /\ getMonth tza now' = getMonth tza now) ->
  (nth_error (tokenize source) 1 = Some "FROM" ->
   exists d1 d2,
     newDateString parseOther (tokenText (nth_error (tokenize source) 2)) = Some d1
     /\ newDateString parseOther (tokenText (nth_error (tokenize source) 4)) = Some d2
     /\ d1 <= d2) ->
  exists f t : Z,
    dayOfText (from query) = Some f
    /\ dayOfText (to query) = Some t
    /\ f <= t.
Proof.
  unfold parseQuery, parseTimeRange. intros P Vf Vt PN FR.
  destruct (tokenize source) as [| t0 [| t1 rest]]; try discriminate.
  cbn [List.length Nat.ltb Nat.leb hd tl] in P.
  change (nth_error (t0 :: t1 :: rest) 1) with (nth_error (t1 :: rest) 0) in *.
  change (nth_error (t0 :: t1 :: rest) 2) with (nth_error (t1 :: rest) 1) in *.
  change (nth_error (t0 :: t1 :: rest) 4) with (nth_error (t1 :: rest) 3) in *.
  destruct (rangeDates tza parseOther now now' (t1 :: rest)) as [[f t] | m] eqn:R.
  - assert (Q : from query = formatDate tza f /\ to query = formatDate tza t).
    { destruct (String.eqb t0 "LIST"), (String.eqb t0 "SUMMARY");
        cbn [bind] in P; try discriminate;
        injection P as <-; cbn [from to]; auto. }
    destruct Q as [Qf Qt]. rewrite Qf in Vf |- *. rewrite Qt in Vt |- *.
    destruct (formatDate_valid _ _ Vf) as [f' ->].
    destruct (formatDate_valid _ _ Vt) as [t' ->].
    exists (localDay tza f'), (localDay tza t').
    split; [apply dayOfText_formatDate|]. split; [apply dayOfText_formatDate|].
    exact (rangeDates_ordered _ _ _ _ _ _ _ R PN FR).
  - destruct (String.eqb t0 "LIST"), (String.eqb t0 "SUMMARY");
      cbn [bind] in P; discriminate.
Qed.

Lemma ordered_range_witness :
  exists f t : Z,
    dayOfText "2025-01-09" = Some f
    /\ dayOfText "2025-01-15" = Some t
    /\ f <= t.
Proof.
  apply (ordered_range 0 noOther noon_2025_01_15 noon_2025_01_15 "LIST PAST 7 DAYS"
           {| type := LIST; from := "2025-01-09"; to := "2025-01-15" |}).
  - vm_compute. reflexivity.
  - discriminate.
  - discriminate.
  - intros _. exists 7. split; [vm_compute; reflexivity|]. split; [lia|].
    split; reflexivity.
  - vm_compute. discriminate.
Defined.

(** C2 as stated fails: the parser compares no dates, and nothing is
    rejected for the order of its dates.  A [FROM ... TO ...] range whose first date is the
    later one parses, and the query holds the inverted range; so does
    [PAST] with a count of zero; a count that leads beyond the range of
    [Date] parses to a query whose [from] names no day; and when the clock
    passes into the next month between its two readings, [PAST 1 DAYS]
    begins after today. *)
Lemma inverted_range_accepted :
  (exists (query : HarvestQuery) (f t : Z),
     parseQuery 0 noOther noon_2025_01_15 noon_2025_01_15
       "LIST FROM 2025-02-01 TO 2025-01-01" = Return query
     /\ dayOfText (from query) = Some f
     /\ dayOfText (to query) = Some t
     /\ t < f)
  /\ parseQuery 0 noOther noon_2025_01_15 noon_2025_01_15 "LIST PAST 0 DAYS"
     = Return {| type := LIST; from := "2025-01-16"; to := "2025-01-15" |}
  /\ parseQuery 0 noOther noon_2025_01_15 noon_2025_01_15 "LIST PAST 999999999 DAYS"
     = Return {| type := LIST; from := "NaN-NaN-NaN"; to := "2025-01-15" |}
  /\ parseQuery 0 noOther 1738367999999 1738368000000 "LIST PAST 1 DAYS"
     = Return {| type := LIST; from := "2025-03-03"; to := "2025-01-31" |}.
Proof.
  split.
  - exists {| type := LIST; from := "2025-02-01"; to := "2025-01-01" |}, 20120, 20089.
    repeat split; vm_compute; reflexivity.
  - repeat split; vm_compute; reflexivity.
Qed.

(** C10.  A source whose tokens begin with [LIST] or [SUMMARY] (after the
    upper-casing of the tokenizer) and then [TODAY], [WEEK] or [MONTH]
    parses, and parses to the query of its first two tokens: the tokens that
    follow are ignored. *)
Theorem trailing_tokens_ignored (tza : Z) (parseOther : string -> option Z)
  (now now' : Z) (source ty kw : string) (rest : list string) :
  tokenize source = ty :: kw :: rest ->
  ty = "LIST" \/ ty = "SUMMARY" ->
  kw = "TODAY" \/ kw = "WEEK" \/ kw = "MONTH" ->
  parseQuery tza parseOther now now' source
  = parseQuery tza parseOther now now' (ty ++ " " ++ kw)
  /\ exists query, parseQuery tza parseOther now now' source = Return query.
Proof.
  intros T Hty Hkw. unfold parseQuery. rewrite T.
  destruct Hty as [-> | ->]; destruct Hkw as [-> | [-> | ->]];
    match goal with
    | |- context [tokenize ?s] =>
        let v := eval vm_compute in (tokenize s) in change (tokenize s) with v
    end;
    cbn [List.length Nat.ltb Nat.leb hd tl];
    repeat match goal with
           | |- context [String.eqb ?a ?b] =>
               let v := eval vm_compute in (String.eqb a b) in
               change (String.eqb a b) with v
           end;
    cbv iota; unfold parseTimeRange;
    rewrite ?rangeDates_TODAY, ?rangeDates_WEEK, ?rangeDates_MONTH;
    (split; [reflexivity | eexists; reflexivity]).
Qed.

Lemma trailing_tokens_ignored_witness :
  parseQuery 0 noOther noon_2025_01_15 noon_2025_01_15 "LIST TODAY EXTRA TOKENS"
  = parseQuery 0 noOther noon_2025_01_15 noon_2025_01_15 ("LIST" ++ " " ++ "TODAY")
  /\ exists query,
       parseQuery 0 noOther noon_2025_01_15 noon_2025_01_15 "LIST TODAY EXTRA TOKENS"
       = Return query.
Proof.
  apply (trailing_tokens_ignored 0 noOther noon_2025_01_15 noon_2025_01_15
           "LIST TODAY EXTRA TOKENS" "LIST" "TODAY" ["EXTRA"; "TOKENS"]).
  - reflexivity.
  - left. reflexivity.
  - left. reflexivity.
Defined.

(** C4, at a failing input.  In a zone five hours west of UTC the dates of
    [FROM 2025-01-01 TO 2025-01-31] come back one day early: a date-only
    text is read as midnight UTC, and [formatDate] writes the local day,
    which is still the day before. *)
Theorem from_to_shifted_west_of_UTC :
  parseQuery (-18000000) noOther noon_2025_01_15 noon_2025_01_15
    "SUMMARY FROM 2025-01-01 TO 2025-01-31"
  = Return {| type := SUMMARY; from := "2024-12-31"; to := "2025-01-30" |}.
Proof. vm_compute. reflexivity. Qed.


(** ** The stable sort *)

Section SortFacts.

Context {A : Type} (cmp : A -> A -> Q).

Lemma insert_Permutation (x : A) (l : list A) : Permutation (insert cmp x l) (x :: l).
Proof.
  induction l as [| y l IH]; cbn [insert]; [reflexivity|].
  destruct (Qlt_le_dec 0 (cmp x y)); [|reflexivity].
  rewrite IH. apply perm_swap.
Qed.

Lemma sort_Permutation (l : list A) : Permutation (sort cmp l) l.
Proof.
  induction l as [| x l IH]; cbn [sort]; [reflexivity|].
  rewrite insert_Permutation. now apply perm_skip.
Qed.

Hypothesis cmp_antisym : forall a b, (0 < cmp a b)%Q -> (cmp b a <= 0)%Q.

Lemma insert_Sorted (x : A) (l : list A) :
  Sorted (inOrder cmp) l -> Sorted (inOrder cmp) (insert cmp x l).
Proof.
  induction 1 as [| y l S IH H]; cbn [insert].
  - repeat constructor.
  - destruct (Qlt_le_dec 0 (cmp x y)) as [G | L].
    + constructor; [exact IH|].
      destruct H as [| z l H]; cbn [insert].
      * constructor. apply cmp_antisym, G.
      * destruct (Qlt_le_dec 0 (cmp x z)); constructor; auto.
        apply cmp_antisym, G.
    + constructor; [constructor; assumption|]. constructor. exact L.
Qed.

Lemma sort_Sorted (l : list A) : Sorted (inOrder cmp) (sort cmp l).
Proof.
  induction l as [| x l IH]; cbn [sort]; [constructor|].
  now apply insert_Sorted.
Qed.

End SortFacts.

Section Stability.

Context {A : Type} (cmp : A -> A -> Q) (p : A -> bool).

(** No member of the class [p] has to stand after another one. *)
Hypothesis tied : forall a b, p a = true -> p b = true -> ~ (0 < cmp a b)%Q.

Lemma filter_insert (x : A) (l : list A) :
  filter p (insert cmp x l) = filter p (x :: l).
Proof.
  induction l as [| y l IH]; cbn [insert]; [reflexivity|].
  destruct (Qlt_le_dec 0 (cmp x y)) as [G | L]; [|reflexivity].
  cbn [filter] in *. rewrite IH.
  destruct (p x) eqn:Px, (p y) eqn:Py; try reflexivity.
  exfalso. exact (tied x y Px Py G).
Qed.

(** The sort is stable: the members of a class of ties keep their order. *)
Lemma filter_sort (l : list A) : filter p (sort cmp l) = filter p l.
Proof.
  induction l as [| x l IH]; cbn [sort]; [reflexivity|].
  rewrite filter_insert. cbn [filter]. now rewrite IH.
Qed.

End Stability.


(** ** The totals of ordinary names *)

Module PlainFacts.

Import Plain.

Lemma getOwn_setOwn_same (o : Totals) (k : string) (v : Q) :
  getOwn (setOwn o k v) k = Some v.
Proof.
  induction o as [| [k' v'] o IH]; cbn [setOwn getOwn].
  - now rewrite String.eqb_refl.
  - destruct (String.eqb k' k) eqn:E; cbn [getOwn]; rewrite E; auto.
Qed.

Lemma getOwn_setOwn_other (o : Totals) (k k0 : string) (v : Q) :
  k0 <> k -> getOwn (setOwn o k v) k0 = getOwn o k0.
Proof.
  intros N. induction o as [| [k' v'] o IH]; cbn [setOwn getOwn].
  - destruct (String.eqb_spec k k0); [congruence | reflexivity].
  - destruct (String.eqb_spec k' k) as [-> | N']; cbn [getOwn].
    + destruct (String.eqb_spec k k0); [congruence | reflexivity].
    + now rewrite IH.
Qed.

Lemma Qsum_setOwn (o : Totals) (k : string) (v : Q) :
  (Qsum (map snd (setOwn o k v)) == Qsum (map snd o) - valueAt o k + v)%Q.
Proof.
  unfold valueAt.
  induction o as [| [k' v'] o IH]; cbn [setOwn getOwn map snd Qsum fold_right].
  - ring.
  - destruct (String.eqb k' k); cbn [map snd Qsum fold_right].
    + ring.
    + fold (Qsum (map snd (setOwn o k v))). fold (Qsum (map snd o)).
      rewrite IH. ring.
Qed.

Lemma falsy_valueAt (o : Totals) (k : string) :
  falsy (getOwn o k) = true -> (valueAt o k == 0)%Q.
Proof.
  unfold falsy, valueAt. destruct (getOwn o k); [apply Qeq_bool_eq | reflexivity].
Qed.

(** One turn of the loop adds the hours of the entry to both sums. *)
Lemma addEntry_sums (th : Q) (o : Totals) (e : HarvestTimeEntry) :
  (fst (addEntry (th, o) e) == th + hours e)%Q
  /\ (Qsum (map snd (snd (addEntry (th, o) e))) == Qsum (map snd o) + hours e)%Q.
Proof.
  unfold addEntry. cbn [fst snd]. split; [reflexivity|].
  destruct (falsy (getOwn o (name (project e)))) eqn:F.
  - rewrite !Qsum_setOwn, (falsy_valueAt _ _ F). ring.
  - rewrite Qsum_setOwn. ring.
Qed.

Lemma aggregate_sums (entries : list HarvestTimeEntry) (th : Q) (o : Totals) :
  (fst (fold_left addEntry entries (th, o)) == th + Qsum (map hours entries))%Q
  /\ (Qsum (map snd (snd (fold_left addEntry entries (th, o))))
      == Qsum (map snd o) + Qsum (map hours entries))%Q.
Proof.
  revert th o.
  induction entries as [| e entries IH]; intros th o;
    cbn [fold_left map Qsum fold_right].
  - cbn [fst snd]. split; ring.
  - fold (Qsum (map hours entries)).
    destruct (addEntry (th, o) e) as [th' o'] eqn:E.
    pose proof (addEntry_sums th o e) as [S1 S2]. rewrite E in S1, S2.
    cbn [fst snd] in S1, S2.
    destruct (IH th' o') as [I1 I2]. rewrite I1, I2, S1, S2. split; ring.
Qed.

(** The names of the object are the project names in the order in which
    they are first met. *)
Lemma keys_setOwn (o : Totals) (k : string) (v : Q) :
  map fst (setOwn o k v) = addName (map fst o) k.
Proof.
  unfold addName.
  induction o as [| [k' v'] o IH]; cbn [setOwn map fst existsb]; [reflexivity|].
  destruct (String.eqb k' k) eqn:E; cbn [orb map fst]; [reflexivity|].
  rewrite IH. destruct (existsb _ (map fst o)); reflexivity.
Qed.

Lemma existsb_getOwn (o : Totals) (k : string) :
  existsb (fun k' => String.eqb k' k) (map fst o) = true <-> getOwn o k <> None.
Proof.
  induction o as [| [k' v'] o IH]; cbn [map fst existsb getOwn].
  - split; [discriminate | congruence].
  - destruct (String.eqb k' k); cbn [orb]; [split; [discriminate | reflexivity]|].
    exact IH.
Qed.

Lemma addName_present (o : Totals) (k : string) :
  getOwn o k <> None -> addName (map fst o) k = map fst o.
Proof.
  intros H. unfold addName. apply existsb_getOwn in H. now rewrite H.
Qed.

Lemma keys_addEntry (th : Q) (o : Totals) (e : HarvestTimeEntry) :
  map fst (snd (addEntry (th, o) e)) = addName (map fst o) (projectName e).
Proof.
  unfold addEntry, projectName. cbn [snd].
  destruct (falsy (getOwn o (name (project e)))) eqn:F.
  - rewrite keys_setOwn, addName_present, keys_setOwn; [reflexivity|].
    rewrite getOwn_setOwn_same. discriminate.
  - rewrite keys_setOwn. assert (P : getOwn o (name (project e)) <> None).
    { destruct (getOwn o (name (project e))); [discriminate | discriminate F]. }
    now rewrite !addName_present.
Qed.

Lemma keys_fold (entries : list HarvestTimeEntry) (th : Q) (o : Totals) :
  map fst (snd (fold_left addEntry entries (th, o)))
  = fold_left addName (map projectName entries) (map fst o).
Proof.
  revert th o.
  induction entries as [| e entries IH]; intros th o; cbn [fold_left map];
    [reflexivity|].
  destruct (addEntry (th, o) e) as [th' o'] eqn:E.
  rewrite IH. f_equal.
  pose proof (keys_addEntry th o e) as K. now rewrite E in K.
Qed.

Lemma keys_projectTotals (entries : list HarvestTimeEntry) :
  map fst (projectTotals entries) = firstSeen (map projectName entries).
Proof. apply (keys_fold entries 0%Q []). Qed.

Lemma valueAt_setOwn_same (o : Totals) (k : string) (v : Q) :
  valueAt (setOwn o k v) k = v.
Proof. unfold valueAt. now rewrite getOwn_setOwn_same. Qed.

Lemma valueAt_setOwn_other (o : Totals) (k k0 : string) (v : Q) :
  k0 <> k -> valueAt (setOwn o k v) k0 = valueAt o k0.
Proof. intros N. unfold valueAt. now rewrite getOwn_setOwn_other. Qed.

(** The hours of the entries of project [k]. *)
Lemma valueAt_addEntry (th : Q) (o : Totals) (e : HarvestTimeEntry) (k : string) :
  (valueAt (snd (addEntry (th, o) e)) k
   == valueAt o k + (if String.eqb (projectName e) k then hours e else 0))%Q.
Proof.
  unfold addEntry, projectName. cbn [snd].
  destruct (String.eqb_spec (name (project e)) k) as [<- | N].
  - rewrite valueAt_setOwn_same.
    destruct (falsy (getOwn o (name (project e)))) eqn:F; [|reflexivity].
    rewrite valueAt_setOwn_same, (falsy_valueAt _ _ F). reflexivity.
  - rewrite valueAt_setOwn_other by congruence.
    destruct (falsy (getOwn o (name (project e)))).
    + rewrite valueAt_setOwn_other by congruence. ring.
    + ring.
Qed.

Lemma valueAt_fold (entries : list HarvestTimeEntry) (th : Q) (o : Totals) (k : string) :
  (valueAt (snd (fold_left addEntry entries (th, o))) k
   == valueAt o k
      + Qsum (map hours (filter (fun e => String.eqb (projectName e) k) entries)))%Q.
Proof.
  revert th o.
  induction entries as [| e entries IH]; intros th o; cbn [fold_left filter].
  - cbn [snd map Qsum fold_right]. ring.
  - destruct (addEntry (th, o) e) as [th' o'] eqn:E.
    rewrite IH. pose proof (valueAt_addEntry th o e k) as V.
    rewrite E in V. cbn [snd] in V. rewrite V.
    destruct (String.eqb (projectName e) k); unfold Qsum; cbn [map fold_right]; ring.
Qed.

Lemma Qsum_Permutation (l l' : list Q) : Permutation l l' -> (Qsum l == Qsum l')%Q.
Proof.
  induction 1; cbn [Qsum fold_right] in *.
  - reflexivity.
  - now rewrite IHPermutation.
  - ring.
  - now rewrite IHPermutation1.
Qed.

Lemma addName_In (seen : list string) (k x : string) :
  In x (addName seen k) <-> In x seen \/ x = k.
Proof.
  unfold addName. destruct (existsb _ seen) eqn:E.
  - split; [auto|]. intros [H | ->]; [exact H|].
    apply existsb_exists in E. destruct E as (y & Hy & Ey).
    apply String.eqb_eq in Ey. now subst.
  - rewrite in_app_iff. cbn [In]. intuition congruence.
Qed.

Lemma addName_NoDup (seen : list string) (k : string) :
  NoDup seen -> NoDup (addName seen k).
Proof.
  intros N. unfold addName. destruct (existsb _ seen) eqn:E; [exact N|].
  apply NoDup_app; [exact N | repeat constructor; auto |].
  intros x Hx [K | []]. subst x.
  assert (T : existsb (fun k' => String.eqb k' k) seen = true).
  { apply existsb_exists. exists k. split; [exact Hx | apply String.eqb_refl]. }
  congruence.
Qed.

Lemma fold_addName_NoDup (names seen : list string) :
  NoDup seen -> NoDup (fold_left addName names seen).
Proof.
  revert seen. induction names as [| k names IH]; intros seen N; cbn [fold_left];
    [exact N|]. apply IH, addName_NoDup, N.
Qed.

Lemma fold_addName_In (names seen : list string) (x : string) :
  In x (fold_left addName names seen) <-> In x seen \/ In x names.
Proof.
  revert seen. induction names as [| k names IH]; intros seen; cbn [fold_left In].
  - tauto.
  - rewrite IH, addName_In. intuition congruence.
Qed.

Lemma firstSeen_NoDup (names : list string) : NoDup (firstSeen names).
Proof. apply fold_addName_NoDup. constructor. Qed.

Lemma firstSeen_In (names : list string) (x : string) :
  In x (firstSeen names) <-> In x names.
Proof. unfold firstSeen. rewrite fold_addName_In. cbn [In]. tauto. Qed.

Lemma filter_partition_Permutation {A : Type} (p : A -> bool) (l : list A) :
  Permutation (filter p l ++ filter (fun x => negb (p x)) l) l.
Proof.
  induction l as [| x l IH]; cbn [filter app]; [reflexivity|].
  destruct (p x); cbn [negb app].
  - now apply perm_skip.
  - rewrite <- Permutation_middle. now apply perm_skip.
Qed.

Lemma keys_Permutation (o : Totals) : Permutation (keys o) (map fst o).
Proof.
  unfold keys. rewrite sort_Permutation. apply filter_partition_Permutation.
Qed.

Lemma sortedProjects_Permutation (entries : list HarvestTimeEntry) :
  Permutation (sortedProjects entries) (firstSeen (map projectName entries)).
Proof.
  unfold sortedProjects.
  rewrite sort_Permutation, keys_Permutation. now rewrite keys_projectTotals.
Qed.

(** Reading each name of an object with distinct names gives its values. *)
Lemma Qsum_valueAt_keys (o : Totals) :
  NoDup (map fst o) ->
  (Qsum (map (valueAt o) (map fst o)) == Qsum (map snd o))%Q.
Proof.
  induction o as [| [k v] o IH]; cbn [map fst snd Qsum fold_right]; [reflexivity|].
  intros N. inversion N as [| ? ? NI N']; subst.
  unfold valueAt at 1. cbn [getOwn]. rewrite String.eqb_refl.
  fold (Qsum (map (valueAt ((k, v) :: o)) (map fst o))). fold (Qsum (map snd o)).
  rewrite <- (IH N').
  assert (E : map (valueAt ((k, v) :: o)) (map fst o) = map (valueAt o) (map fst o)).
  { apply map_ext_in. intros k0 Hk. unfold valueAt. cbn [getOwn].
    destruct (String.eqb_spec k k0) as [-> | _]; [contradiction | reflexivity]. }
  rewrite E. reflexivity.
Qed.

(** The totals of the projects that the summary shows add up to the
    hours of all the entries, exactly, and so does the total that heads the
    summary.  The entries are grouped by the name of their project: every
    name is shown once, and its total is the sum of the hours of the entries
    of that name. *)
Lemma plain_totals_add_up (entries : list HarvestTimeEntry) :
  (Qsum (map (valueAt (projectTotals entries)) (sortedProjects entries))
   == Qsum (map hours entries))%Q
  /\ (totalHours entries == Qsum (map hours entries))%Q
  /\ NoDup (sortedProjects entries)
  /\ (forall k, In k (sortedProjects entries) <-> In k (map projectName entries))
  /\ (forall k,
        (valueAt (projectTotals entries) k
         == Qsum (map hours (filter (fun e => String.eqb (projectName e) k) entries)))%Q).
Proof.
  pose proof (sortedProjects_Permutation entries) as P.
  pose proof (firstSeen_NoDup (map projectName entries)) as N.
  destruct (aggregate_sums entries 0%Q []) as [S1 S2].
  cbn [map Qsum fold_right] in S1, S2.
  repeat split.
  - rewrite (Qsum_Permutation _ _ (Permutation_map _ P)).
    rewrite <- keys_projectTotals in N |- *.
    rewrite (Qsum_valueAt_keys _ N). unfold projectTotals, aggregate.
    rewrite S2. ring.
  - unfold totalHours, aggregate. rewrite S1. ring.
  - apply (Permutation_NoDup (Permutation_sym P) N).
  - intros H. apply firstSeen_In. apply (Permutation_in _ P H).
  - intros H. apply (Permutation_in _ (Permutation_sym P)). now apply firstSeen_In.
  - intros k. unfold projectTotals, aggregate. rewrite valueAt_fold.
    unfold valueAt. cbn [getOwn]. ring.
Qed.

Lemma descending_antisym (o : Totals) (a b : string) :
  (0 < valueAt o b - valueAt o a)%Q -> (valueAt o a - valueAt o b <= 0)%Q.
Proof. intros H. lra. Qed.

Lemma filter_none {A : Type} (p : A -> bool) (l : list A) :
  (forall x, In x l -> p x = false) -> filter p l = [].
Proof.
  induction l as [| x l IH]; intros H; cbn [filter]; [reflexivity|].
  rewrite (H x (or_introl eq_refl)). apply IH. intros y Hy. apply H. now right.
Qed.

Lemma filter_all {A : Type} (p : A -> bool) (l : list A) :
  (forall x, In x l -> p x = true) -> filter p l = l.
Proof.
  induction l as [| x l IH]; intros H; cbn [filter]; [reflexivity|].
  rewrite (H x (or_introl eq_refl)). f_equal. apply IH.
  intros y Hy. apply H. now right.
Qed.

Lemma ascending_antisym (a b : string) :
  (0 < indexOf a - indexOf b)%Q -> (indexOf b - indexOf a <= 0)%Q.
Proof. intros H. lra. Qed.

Lemma tiedAt_no_swap (o : Totals) (h : Q) (a b : string) :
  tiedAt o h a = true -> tiedAt o h b = true ->
  ~ (0 < valueAt o b - valueAt o a)%Q.
Proof.
  unfold tiedAt. intros Ha Hb. apply Qeq_bool_eq in Ha, Hb. lra.
Qed.

(** The projects of the summary are in descending
    order of their totals.  Projects with equal totals stand in the order in
    which [Object.keys] lists the names of the totals object: first the names
    that are array indices (the decimal texts of 0 to 2^32 - 2), in ascending
    numeric order, then the other names in the order in which the entries
    first mention them.  So when no project name is an array index, projects
    with equal totals stand in the order in which they are first met. *)
Lemma plain_order (entries : list HarvestTimeEntry) :
  StronglySorted
    (fun a b => (valueAt (projectTotals entries) b <= valueAt (projectTotals entries) a)%Q)
    (sortedProjects entries)
  /\ (forall h,
        filter (tiedAt (projectTotals entries) h) (sortedProjects entries)
        = filter (tiedAt (projectTotals entries) h) (keys (projectTotals entries)))
  /\ (exists indices,
        keys (projectTotals entries)
        = (indices
           ++ filter (fun k => negb (isArrayIndex k))
                     (firstSeen (map projectName entries)))%list
        /\ Permutation indices
             (filter isArrayIndex (firstSeen (map projectName entries)))
        /\ Sorted (fun a b => (indexOf a <= indexOf b)%Q) indices)
  /\ ((forall k, In k (map projectName entries) -> isArrayIndex k = false) ->
      forall h,
        filter (tiedAt (projectTotals entries) h) (sortedProjects entries)
        = filter (tiedAt (projectTotals entries) h)
                 (firstSeen (map projectName entries))).
Proof.
  set (o := projectTotals entries).
  assert (T : forall h,
             filter (tiedAt o h) (sortedProjects entries) = filter (tiedAt o h) (keys o)).
  { intros h. unfold sortedProjects. fold o.
    apply filter_sort. intros a b. apply tiedAt_no_swap. }
  split; [|split; [exact T | split]].
  - apply Sorted_StronglySorted.
    + intros a b c Hab Hbc. lra.
    + unfold sortedProjects. fold o.
      pose proof (sort_Sorted (fun a b => valueAt o b - valueAt o a)%Q
                    (descending_antisym o) (keys o)) as S.
      revert S. apply Sorted_ind.
      * constructor.
      * intros a l _ IH H. constructor; [exact IH|].
        destruct H as [| b l H]; constructor. unfold inOrder in H. lra.
  - exists (sort (fun a b => indexOf a - indexOf b)%Q
                 (filter isArrayIndex (firstSeen (map projectName entries)))).
    split; [|split].
    + unfold keys. subst o. now rewrite keys_projectTotals.
    + apply sort_Permutation.
    + pose proof (sort_Sorted (fun a b => indexOf a - indexOf b)%Q
                    ascending_antisym
                    (filter isArrayIndex (firstSeen (map projectName entries)))) as S.
      revert S. apply Sorted_ind.
      * constructor.
      * intros a l _ IH H. constructor; [exact IH|].
        destruct H as [| b l H]; constructor. unfold inOrder in H. lra.
  - intros NI h. rewrite T. f_equal. unfold keys. subst o.
    rewrite keys_projectTotals.
    set (names := firstSeen (map projectName entries)).
    assert (F : forall k, In k names -> isArrayIndex k = false).
    { intros k Hk. apply NI. now apply firstSeen_In. }
    rewrite (filter_none isArrayIndex names F).
    cbn [sort app]. apply filter_all.
    intros k Hk. now rewrite (F k Hk).
Qed.

End PlainFacts.


(** ** The totals object and its prototype *)

Lemma ordinary_spec (k : string) :
  ordinary k = true ->
  String.eqb k "__proto__" = false
  /\ existsb (String.eqb k) inheritedMethods = false.
Proof.
  unfold ordinary. intros H. apply andb_true_iff in H. destruct H as [H1 H2].
  apply negb_true_iff in H1, H2. auto.
Qed.

Lemma getOwn_lift (o : Plain.Totals) (k : string) :
  getOwn (Plain.lift o) k = option_map Number (getOwn o k).
Proof.
  induction o as [| [k' v] o IH]; cbn [Plain.lift map getOwn fst snd]; [reflexivity|].
  destruct (String.eqb k' k); [reflexivity | exact IH].
Qed.

Lemma setOwn_lift (o : Plain.Totals) (k : string) (q : Q) :
  setOwn (Plain.lift o) k (Number q) = Plain.lift (setOwn o k q).
Proof.
  induction o as [| [k' v] o IH]; cbn [Plain.lift map setOwn fst snd]; [reflexivity|].
  destruct (String.eqb k' k); cbn [Plain.lift map fst snd]; [reflexivity|].
  f_equal. exact IH.
Qed.

Lemma keys_lift (o : Plain.Totals) : keys (Plain.lift o) = keys o.
Proof.
  unfold keys, Plain.lift. rewrite map_map. cbn [fst]. reflexivity.
Qed.

(** An ordinary name is read as its own property, or as [undefined]. *)
Lemma getProperty_lift (o : Plain.Totals) (k : string) :
  ordinary k = true ->
  getProperty (Plain.lift o) k
  = match getOwn o k with Some q => Number q | None => Undefined end.
Proof.
  intros H. destruct (ordinary_spec k H) as [P I].
  unfold getProperty. rewrite P, getOwn_lift, I.
  destruct (getOwn o k); reflexivity.
Qed.

Lemma setProperty_lift (o : Plain.Totals) (k : string) (q : Q) :
  ordinary k = true ->
  setProperty (Plain.lift o) k (Number q) = Plain.lift (setOwn o k q).
Proof.
  intros H. destruct (ordinary_spec k H) as [P _].
  unfold setProperty. rewrite P. apply setOwn_lift.
Qed.

(** On an entry with an ordinary name, the turn of the loop is that of the
    map of numbers. *)
Lemma addEntry_lift (th : Q) (o : Plain.Totals) (e : HarvestTimeEntry) :
  ordinary (projectName e) = true ->
  addEntry (th, Plain.lift o) e
  = (fst (Plain.addEntry (th, o) e), Plain.lift (snd (Plain.addEntry (th, o) e))).
Proof.
  unfold projectName. intros H.
  unfold addEntry, Plain.addEntry. cbn [fst snd]. f_equal.
  rewrite (getProperty_lift o _ H).
  destruct (getOwn o (name (project e))) as [q|] eqn:G; cbn [falsy Plain.falsy].
  - destruct (Qeq_bool q 0).
    + rewrite (setProperty_lift _ _ _ H), (getProperty_lift _ _ H).
      rewrite PlainFacts.getOwn_setOwn_same. cbn [plus].
      rewrite (setProperty_lift _ _ _ H). f_equal. f_equal.
      now rewrite PlainFacts.valueAt_setOwn_same.
    + rewrite (getProperty_lift _ _ H), G. cbn [plus].
      rewrite (setProperty_lift _ _ _ H). f_equal. f_equal.
      unfold Plain.valueAt. now rewrite G.
  - rewrite (setProperty_lift _ _ _ H), (getProperty_lift _ _ H).
    rewrite PlainFacts.getOwn_setOwn_same. cbn [plus].
    rewrite (setProperty_lift _ _ _ H). f_equal. f_equal.
    now rewrite PlainFacts.valueAt_setOwn_same.
Qed.

Lemma aggregate_lift (entries : list HarvestTimeEntry) :
  (forall e, In e entries -> ordinary (projectName e) = true) ->
  forall (th : Q) (o : Plain.Totals),
    fold_left addEntry entries (th, Plain.lift o)
    = (fst (fold_left Plain.addEntry entries (th, o)),
       Plain.lift (snd (fold_left Plain.addEntry entries (th, o)))).
Proof.
  induction entries as [| e entries IH]; intros H th o; cbn [fold_left];
    [reflexivity|].
  rewrite addEntry_lift by (apply H; now left).
  destruct (Plain.addEntry (th, o) e) as [th' o']. cbn [fst snd].
  apply IH. intros e' I. apply H. now right.
Qed.

(** With ordinary names only, the totals are those of the map of numbers. *)
Lemma plain_aggregate (entries : list HarvestTimeEntry) :
  (forall e, In e entries -> ordinary (projectName e) = true) ->
  totalHours entries = Plain.totalHours entries
  /\ projectTotals entries = Plain.lift (Plain.projectTotals entries).
Proof.
  intros H. unfold totalHours, projectTotals, aggregate.
  change (@nil (string * Value)) with (Plain.lift []).
  rewrite (aggregate_lift entries H). cbn [fst snd]. split; reflexivity.
Qed.

Lemma insert_ext {A : Type} (cmp1 cmp2 : A -> A -> Q) (x : A) (l : list A) :
  (forall b, In b l -> cmp1 x b = cmp2 x b) ->
  insert cmp1 x l = insert cmp2 x l.
Proof.
  induction l as [| y l IH]; intros H; cbn [insert]; [reflexivity|].
  rewrite (H y (or_introl eq_refl)).
  destruct (Qlt_le_dec 0 (cmp2 x y)); [|reflexivity].
  f_equal. apply IH. intros b I. apply H. now right.
Qed.

(** The sort reads the comparator on the members of the list only. *)
Lemma sort_ext {A : Type} (cmp1 cmp2 : A -> A -> Q) (l : list A) :
  (forall a b, In a l -> In b l -> cmp1 a b = cmp2 a b) ->
  sort cmp1 l = sort cmp2 l.
Proof.
  induction l as [| x l IH]; intros H; cbn [sort]; [reflexivity|].
  rewrite IH by (intros a b Ia Ib; apply H; now right).
  apply insert_ext. intros b I. apply H; [now left|]. right.
  apply (Permutation_in _ (sort_Permutation cmp2 l) I).
Qed.

(** The names of the totals are names of projects. *)
Lemma plain_keys_names (entries : list HarvestTimeEntry) (k : string) :
  In k (keys (Plain.projectTotals entries)) <-> In k (map projectName entries).
Proof.
  split; intros I.
  - apply PlainFacts.firstSeen_In. rewrite <- PlainFacts.keys_projectTotals.
    apply (Permutation_in _ (PlainFacts.keys_Permutation _) I).
  - apply PlainFacts.firstSeen_In in I. rewrite <- PlainFacts.keys_projectTotals in I.
    apply (Permutation_in _ (Permutation_sym (PlainFacts.keys_Permutation _)) I).
Qed.


Lemma getOwn_present {V : Type} (o : list (string * V)) (k : string) :
  In k (map fst o) -> getOwn o k <> None.
Proof.
  induction o as [| [k' v] o IH]; cbn [map fst In getOwn]; [tauto|].
  intros [-> | I]; [now rewrite String.eqb_refl|].
  destruct (String.eqb k' k); [discriminate | now apply IH].
Qed.

(** An ordinary name of the totals is read as its number. *)
Lemma getProperty_present (o : Plain.Totals) (k : string) :
  ordinary k = true -> In k (map fst o) ->
  getProperty (Plain.lift o) k = Number (Plain.valueAt o k).
Proof.
  intros H I. rewrite (getProperty_lift o k H). unfold Plain.valueAt.
  pose proof (getOwn_present o k I) as P.
  destruct (getOwn o k); [reflexivity | contradiction].
Qed.

Lemma plain_keys_present (entries : list HarvestTimeEntry) (k : string) :
  In k (keys (Plain.projectTotals entries)) ->
  In k (map fst (Plain.projectTotals entries)).
Proof.
  intros I. apply (Permutation_in _ (PlainFacts.keys_Permutation _) I).
Qed.

Lemma ordinary_names (entries : list HarvestTimeEntry) (k : string) :
  (forall e, In e entries -> ordinary (projectName e) = true) ->
  In k (map projectName entries) -> ordinary k = true.
Proof.
  intros H I. apply in_map_iff in I. destruct I as (e & <- & I). now apply H.
Qed.

(** With ordinary names only, the order of the summary is that of the map
    of numbers. *)
Lemma plain_sortedProjects (entries : list HarvestTimeEntry) :
  (forall e, In e entries -> ordinary (projectName e) = true) ->
  sortedProjects entries = Plain.sortedProjects entries.
Proof.
  intros H. unfold sortedProjects, Plain.sortedProjects.
  rewrite (proj2 (plain_aggregate entries H)), keys_lift.
  apply sort_ext. intros a b Ia Ib.
  rewrite !getProperty_present;
    try (apply plain_keys_present; assumption);
    try (apply (ordinary_names entries _ H), plain_keys_names; assumption).
  reflexivity.
Qed.

(** The number that the object holds for a project is the sum of the hours
    of its entries. *)
Lemma plain_valueAt_hoursOf (entries : list HarvestTimeEntry) (k : string) :
  (Plain.valueAt (Plain.projectTotals entries) k == hoursOf entries k)%Q.
Proof. apply (PlainFacts.plain_totals_add_up entries). Qed.

Lemma Qeq_bool_left (x y h : Q) : (x == y)%Q -> Qeq_bool x h = Qeq_bool y h.
Proof.
  intros E. destruct (Qeq_bool y h) eqn:B.
  - apply Qeq_bool_iff. apply Qeq_bool_iff in B. now rewrite E.
  - destruct (Qeq_bool x h) eqn:B'; [|reflexivity].
    apply Qeq_bool_iff in B'. rewrite E in B'. apply Qeq_bool_iff in B'. congruence.
Qed.

Lemma tiedAt_tied (entries : list HarvestTimeEntry) (h : Q) (k : string) :
  Plain.tiedAt (Plain.projectTotals entries) h k = tied entries h k.
Proof. apply Qeq_bool_left, plain_valueAt_hoursOf. Qed.

Lemma StronglySorted_impl {A : Type} (R S : A -> A -> Prop) (l : list A) :
  (forall a b, R a b -> S a b) -> StronglySorted R l -> StronglySorted S l.
Proof.
  intros I. induction 1 as [| a l H IH F]; constructor; [exact IH|].
  revert F. apply Forall_impl. apply I.
Qed.

(** The two loops over projects whose totals are numbers. *)
Lemma barsFrom_numbers (total : Q) (o : Totals) (colorIndex : nat)
  (names : list string) (values : list Q) :
  Forall2 (fun k v => getProperty o k = Number v) names values ->
  exists bars legend,
    barsFrom total o colorIndex names = Return bars
    /\ legendFrom o colorIndex names = Return legend
    /\ Forall2 (fun v bar => bar_width bar = percentage total (Number v)) values bars
    /\ map bar_title bars
       = map (fun kv => fst kv ++ ": " ++ toFixed2 (snd kv) ++ " hours")
             (combine names values)
    /\ map legend_text legend = map bar_title bars
    /\ map swatch_color legend = map bar_color bars
    /\ forall i, (i < List.length names)%nat ->
         nth_error (map bar_color bars) i = Some (colorAt (colorIndex + i)).
Proof.
  intros F. revert colorIndex.
  induction F as [| k v names values G F IH]; intros colorIndex.
  - exists [], []. cbn [barsFrom legendFrom map combine List.length].
    repeat split; try constructor. intros i L. inversion L.
  - destruct (IH (S colorIndex)) as (bars & legend & B & L & W & T & LT & LC & C).
    cbn [barsFrom legendFrom]. rewrite G. cbn [toFixed bind]. rewrite B, L.
    cbn [bind].
    eexists; eexists. split; [reflexivity|]. split; [reflexivity|].
    cbn [map combine bar_title bar_color legend_text swatch_color fst snd List.length].
    repeat split.
    + constructor; [reflexivity | exact W].
    + f_equal. exact T.
    + f_equal. exact LT.
    + f_equal. exact LC.
    + intros [| i] Hi; cbn [nth_error].
      * now rewrite Nat.add_0_r.
      * rewrite C by lia. f_equal. f_equal. lia.
Qed.

(** With ordinary names only, every project of the summary has a number. *)
Lemma plain_values (entries : list HarvestTimeEntry) :
  (forall e, In e entries -> ordinary (projectName e) = true) ->
  Forall2 (fun k v => getProperty (projectTotals entries) k = Number v
                      /\ (v == hoursOf entries k)%Q)
          (sortedProjects entries)
          (map (Plain.valueAt (Plain.projectTotals entries)) (sortedProjects entries)).
Proof.
  intros H.
  assert (I : forall k, In k (sortedProjects entries) ->
                        In k (keys (Plain.projectTotals entries))).
  { intros k. rewrite (plain_sortedProjects entries H).
    unfold Plain.sortedProjects. apply Permutation_in, sort_Permutation. }
  rewrite (proj2 (plain_aggregate entries H)).
  induction (sortedProjects entries) as [| k names IH]; cbn [map]; constructor.
  - split; [|apply plain_valueAt_hoursOf]. apply getProperty_present.
    + apply (ordinary_names entries _ H), plain_keys_names, I. now left.
    + apply plain_keys_present, I. now left.
  - apply IH. intros k' I'. apply I. now right.
Qed.

(** With ordinary names only, the summary is rendered, and it shows the
    projects of [sortedProjects] in that order, each with the sum of the
    hours of its entries. *)
Lemma ordinary_summary (entries : list HarvestTimeEntry) :
  (forall e, In e entries -> ordinary (projectName e) = true) ->
  exists bars legend values,
    renderSummary entries
    = Return (Summary "Time summary"
                ("Total hours: " ++ toFixed2 (totalHours entries)) bars legend)
    /\ Forall2 (fun k v => getProperty (projectTotals entries) k = Number v
                           /\ (v == hoursOf entries k)%Q)
               (sortedProjects entries) values
    /\ Forall2 (fun v bar => bar_width bar = percentage (totalHours entries) (Number v))
               values bars
    /\ map bar_title bars
       = map (fun kv => fst kv ++ ": " ++ toFixed2 (snd kv) ++ " hours")
             (combine (sortedProjects entries) values)
    /\ map legend_text legend = map bar_title bars
    /\ map swatch_color legend = map bar_color bars
    /\ forall i, (i < List.length (sortedProjects entries))%nat ->
         nth_error (map bar_color bars) i = Some (colorAt i).
Proof.
  intros H. pose proof (plain_values entries H) as V.
  assert (V' : Forall2 (fun k v => getProperty (projectTotals entries) k = Number v)
                 (sortedProjects entries)
                 (map (Plain.valueAt (Plain.projectTotals entries))
                      (sortedProjects entries))).
  { revert V. apply Forall2_impl. intros k v [G _]. exact G. }
  destruct (barsFrom_numbers (totalHours entries) (projectTotals entries) 0 _ _ V')
    as (bars & legend & B & L & W & T & LT & LC & C).
  exists bars, legend,
    (map (Plain.valueAt (Plain.projectTotals entries)) (sortedProjects entries)).
  unfold renderSummary. rewrite B, L. cbn [bind].
  split; [reflexivity|]. split; [exact V|]. auto 6.
Qed.

Lemma ordinary_sortedProjects_Permutation (entries : list HarvestTimeEntry) :
  (forall e, In e entries -> ordinary (projectName e) = true) ->
  Permutation (sortedProjects entries) (firstSeen (map projectName entries)).
Proof.
  intros H. rewrite (plain_sortedProjects entries H).
  apply PlainFacts.sortedProjects_Permutation.
Qed.

Lemma Qsum_Forall2 (l l' : list Q) : Forall2 Qeq l l' -> (Qsum l == Qsum l')%Q.
Proof.
  induction 1 as [| x y l l' E F IH]; cbn [Qsum fold_right]; [reflexivity|].
  fold (Qsum l). fold (Qsum l'). now rewrite E, IH.
Qed.

(** The total that heads the summary is the sum of the hours of all the
    entries, whatever the names of their projects. *)
Lemma totalHours_sum (entries : list HarvestTimeEntry) :
  (totalHours entries == Qsum (map hours entries))%Q.
Proof.
  unfold totalHours, aggregate.
  assert (G : forall (l : list HarvestTimeEntry) (th : Q) (o : Totals),
             (fst (fold_left addEntry l (th, o)) == th + Qsum (map hours l))%Q).
  { induction l as [| e l IH]; intros th o; cbn [fold_left map Qsum fold_right].
    - cbn [fst]. ring.
    - fold (Qsum (map hours l)).
      destruct (addEntry (th, o) e) as [th' o'] eqn:E.
      rewrite IH. unfold addEntry in E. injection E as <- _. ring. }
  rewrite G. ring.
Qed.

(** ** Claims about the summary *)

(** C7 fails on the code for a project that bears a name of
    [Object.prototype].  The hours of a project named [__proto__] enter the
    total of all entries and no total of a project: the summary of one hour
    for [__proto__] and two for [Proj A] is headed by 3.00 hours and shows
    [Proj A] with 2.00 hours alone.  For a project named [constructor] the
    total is a string, the call of [toFixed] throws, and the block shows the
    message of the error in place of a summary. *)
Theorem inherited_name_breaks_totals :
  totalHours [entry "__proto__" 1; entry "Proj A" 2] = 3%Q
  /\ projectTotals [entry "__proto__" 1; entry "Proj A" 2] = [("Proj A", Number 2)]
  /\ renderSummary [entry "__proto__" 1; entry "Proj A" 2]
     = Return (Summary "Time summary" "Total hours: 3.00"
                 [{| bar_width := Number (200 # 3); bar_color := "#84b65a";
                     bar_title := "Proj A: 2.00 hours" |}]
                 [{| swatch_color := "#84b65a"; legend_text := "Proj A: 2.00 hours" |}])
  /\ projectTotals [entry "constructor" 1; entry "constructor" 2] = [("constructor", Str)]
  /\ renderSummary [entry "constructor" 1; entry "constructor" 2]
     = Throw "projectHours.toFixed is not a function"
  /\ shown (hqlProcessor 0 noOther noMarkup 1736899200000 1736899200000
              (pluginOver (fun _ => HttpResponse 200
                 {| time_entries := Some [entry "constructor" 1; entry "constructor" 2] |}))
              "SUMMARY TODAY" noContext)
     = Text "Error processing Harvest query: projectHours.toFixed is not a function".
Proof. repeat split; vm_compute; reflexivity. Qed.

(** C8 fails on the code for a project that bears a name of
    [Object.prototype].  With one hour for [constructor] and three for
    [Proj A], four in all, the share of [constructor] is not a number and
    the summary is not rendered.  With one hour for [__proto__] and three
    for [Proj A] the only share is that of [Proj A], 300/4 of 100. *)
Theorem inherited_name_has_no_share :
  totalHours [entry "constructor" 1; entry "Proj A" 3] = 4%Q
  /\ sortedProjects [entry "constructor" 1; entry "Proj A" 3] = ["constructor"; "Proj A"]
  /\ percentage (totalHours [entry "constructor" 1; entry "Proj A" 3])
       (getProperty (projectTotals [entry "constructor" 1; entry "Proj A" 3]) "constructor")
     = NaN
  /\ renderSummary [entry "constructor" 1; entry "Proj A" 3]
     = Throw "projectHours.toFixed is not a function"
  /\ sortedProjects [entry "__proto__" 1; entry "Proj A" 3] = ["Proj A"]
  /\ renderSummary [entry "__proto__" 1; entry "Proj A" 3]
     = Return (Summary "Time summary" "Total hours: 4.00"
                 [{| bar_width := Number (300 # 4); bar_color := "#84b65a";
                     bar_title := "Proj A: 3.00 hours" |}]
                 [{| swatch_color := "#84b65a"; legend_text := "Proj A: 3.00 hours" |}]).
Proof. repeat split; vm_compute; reflexivity. Qed.

(** C9, as the code has it, for projects whose names are not names of
    [Object.prototype], with the hours as exact rationals.  The summary
    lists every project once, in descending order of the hours of its
    entries.  Projects with equal hours stand in the order in which
    [Object.keys] lists the names of the totals object: first the names
    that are array indices (the decimal texts of 0 to 2^32 - 2), in ascending
    numeric order, then the other names in the order in which the entries
    first mention them.  So when no project name is an array index, projects
    with equal hours stand in the order in which they are first met.  The
    titles of the bars are those of the projects in that order. *)
Theorem summary_order (entries : list HarvestTimeEntry) :
  (forall e, In e entries -> ordinary (projectName e) = true) ->
  StronglySorted (fun a b => (hoursOf entries b <= hoursOf entries a)%Q)
                 (sortedProjects entries)
  /\ Permutation (sortedProjects entries) (firstSeen (map projectName entries))
  /\ (forall h,
        filter (tied entries h) (sortedProjects entries)
        = filter (tied entries h) (keys (projectTotals entries)))
  /\ (exists indices,
        keys (projectTotals entries)
        = (indices
           ++ filter (fun k => negb (isArrayIndex k))
                     (firstSeen (map projectName entries)))%list
        /\ Permutation indices
             (filter isArrayIndex (firstSeen (map projectName entries)))
        /\ Sorted (fun a b => (indexOf a <= indexOf b)%Q) indices)
  /\ ((forall k, In k (map projectName entries) -> isArrayIndex k = false) ->
      forall h,
        filter (tied entries h) (sortedProjects entries)
        = filter (tied entries h) (firstSeen (map projectName entries)))
  /\ (exists report values,
        renderSummary entries = Return report
        /\ Forall2 (fun k v => (v == hoursOf entries k)%Q) (sortedProjects entries) values
        /\ map bar_title (barsOf report)
           = map (fun kv => fst kv ++ ": " ++ toFixed2 (snd kv) ++ " hours")
                 (combine (sortedProjects entries) values)).
Proof.
  intros H.
  destruct (PlainFacts.plain_order entries) as (S & T & K & F).
  destruct (plain_aggregate entries H) as [_ P].
  pose proof (plain_sortedProjects entries H) as SP.
  assert (E : forall h l,
             filter (Plain.tiedAt (Plain.projectTotals entries) h) l
             = filter (tied entries h) l).
  { intros h l. apply filter_ext. intros k. apply tiedAt_tied. }
  split; [|split; [|split; [|split; [|split]]]].
  - rewrite SP. revert S. apply StronglySorted_impl. intros a b L.
    now rewrite <- !plain_valueAt_hoursOf.
  - rewrite SP. apply PlainFacts.sortedProjects_Permutation.
  - intros h. rewrite P, keys_lift, SP, <- !E. apply T.
  - rewrite P, keys_lift. exact K.
  - intros NI h. rewrite SP, <- !E. now apply F.
  - destruct (ordinary_summary entries H) as (bars & legend & values & R & V & _ & B & _).
    eexists; exists values. split; [exact R|]. split; [|exact B].
    revert V. apply Forall2_impl. intros k v [_ G]. exact G.
Qed.

Lemma summary_order_witness :
  filter (tied [entry "Proj A" 1; entry "Proj B" 3; entry "Proj C" 1] 1)
         (sortedProjects [entry "Proj A" 1; entry "Proj B" 3; entry "Proj C" 1])
  = filter (tied [entry "Proj A" 1; entry "Proj B" 3; entry "Proj C" 1] 1)
           (firstSeen (map projectName
                         [entry "Proj A" 1; entry "Proj B" 3; entry "Proj C" 1])).
Proof.
  refine (proj1 (proj2 (proj2 (proj2 (proj2
           (summary_order [entry "Proj A" 1; entry "Proj B" 3; entry "Proj C" 1] _)))))
           _ 1%Q).
  - intros e [<- | [<- | [<- | []]]]; reflexivity.
  - intros k [<- | [<- | [<- | []]]]; reflexivity.
Defined.

(** C9 as stated fails: two projects with equal totals, the second of which
    has a name that is an array index, are shown in the reverse of the order
    in which they were met. *)
Lemma tie_not_in_first_seen_order :
  sortedProjects [entry "Proj B" 1; entry "7" 1] = ["7"; "Proj B"]
  /\ firstSeen (map projectName [entry "Proj B" 1; entry "7" 1]) = ["Proj B"; "7"]
  /\ hoursOf [entry "Proj B" 1; entry "7" 1] "7"
     = hoursOf [entry "Proj B" 1; entry "7" 1] "Proj B"
  /\ renderSummary [entry "Proj B" 1; entry "7" 1]
     = Return (Summary "Time summary" "Total hours: 2.00"
                 [{| bar_width := Number (100 # 2); bar_color := "#84b65a";
                     bar_title := "7: 1.00 hours" |};
                  {| bar_width := Number (100 # 2); bar_color := "#c25956";
                     bar_title := "Proj B: 1.00 hours" |}]
                 [{| swatch_color := "#84b65a"; legend_text := "7: 1.00 hours" |};
                  {| swatch_color := "#c25956"; legend_text := "Proj B: 1.00 hours" |}]).
Proof. repeat split; vm_compute; reflexivity. Qed.

(** ** Claims about the processor *)

(** A request that fails leaves [getTimeEntries] with the empty array. *)
Lemma getTimeEntries_request_fails (plugin : HarvestPlugin) (query : HarvestQuery) :
  (forall endpoint, request plugin endpoint = None) ->
  getTimeEntries plugin query = [].
Proof.
  intros F. unfold getTimeEntries.
  destruct (userId plugin) as [[| uid | uid] |]; try reflexivity; now rewrite F.
Qed.

Lemma request_unreachable (endpoint : string) :
  request (pluginOver unreachable) endpoint = None.
Proof. reflexivity. Qed.

Lemma request_refusing (endpoint : string) :
  request (pluginOver refusing) endpoint = None.
Proof. reflexivity. Qed.

(** The text for a failed fetch is never shown, whatever the plugin, the
    service, the source and the note. *)
Lemma never_failed_to_fetch (tza : Z) (parseOther : string -> option Z)
  (innerHTML : Report -> string) (now now' : Z) (plugin : HarvestPlugin)
  (source : string) (ctx : Context) :
  shown (hqlProcessor tza parseOther innerHTML now now' plugin source ctx)
  <> Text "Failed to fetch Harvest report.".
Proof.
  unfold hqlProcessor, processed.
  destruct (parseQuery tza parseOther now now' _) as [query | message];
    cbn [bind]; [|cbn [shown]; discriminate].
  destruct (includes "--static" source); unfold truthy; cbn [negb];
    destruct (renderReport _ query) as [report | message]; cbn [bind shown];
    try discriminate.
  destruct (sourceFile ctx); [|cbn [shown]; discriminate].
  destruct (sectionInfo ctx) as [[lineStart lineEnd] |]; cbn [shown]; discriminate.
Qed.

(** C1, at failing inputs.  With the service unreachable, or refusing the
    request, the query [LIST TODAY] ends with the text for a period without
    entries, the same display as when the service answers with no entries;
    the text for a failed fetch is not shown. *)
Theorem fetch_failure_shown_as_no_entries :
  shown (hqlProcessor 0 noOther noMarkup noon_2025_01_15 noon_2025_01_15
           (pluginOver unreachable) "LIST TODAY" noContext)
  = Rendered (NoEntries "No time entries found for the selected period.")
  /\ shown (hqlProcessor 0 noOther noMarkup noon_2025_01_15 noon_2025_01_15
              (pluginOver refusing) "LIST TODAY" noContext)
     = Rendered (NoEntries "No time entries found for the selected period.")
  /\ shown (hqlProcessor 0 noOther noMarkup noon_2025_01_15 noon_2025_01_15
              (pluginOver answeringNothing) "LIST TODAY" noContext)
     = Rendered (NoEntries "No time entries found for the selected period.").
Proof. repeat split; vm_compute; reflexivity. Qed.


(** * Further properties of the parser *)

(** ** Letter case and white space *)

Lemma isWhiteSpace_toUpperCaseChar (c : ascii) :
  isWhiteSpace (toUpperCaseChar c) = isWhiteSpace c.
Proof. destruct c as [[] [] [] [] [] [] [] []]; reflexivity. Qed.

Lemma toUpperCaseChar_idem (c : ascii) :
  toUpperCaseChar (toUpperCaseChar c) = toUpperCaseChar c.
Proof. destruct c as [[] [] [] [] [] [] [] []]; reflexivity. Qed.

Lemma toUpperCase_idem (s : string) : toUpperCase (toUpperCase s) = toUpperCase s.
Proof.
  induction s as [| c s IH]; cbn [toUpperCase]; [reflexivity|].
  now rewrite toUpperCaseChar_idem, IH.
Qed.

Lemma toUpperCase_append (s r : string) :
  toUpperCase (s ++ r) = toUpperCase s ++ toUpperCase r.
Proof.
  induction s as [| c s IH]; cbn [toUpperCase append]; [reflexivity|].
  now rewrite IH.
Qed.

Lemma trimStart_toUpperCase (s : string) :
  trimStart (toUpperCase s) = toUpperCase (trimStart s).
Proof.
  induction s as [| c s IH]; cbn [toUpperCase trimStart]; [reflexivity|].
  rewrite isWhiteSpace_toUpperCaseChar.
  destruct (isWhiteSpace c); [exact IH | reflexivity].
Qed.

Lemma trimEnd_toUpperCase (s : string) :
  trimEnd (toUpperCase s) = toUpperCase (trimEnd s).
Proof.
  induction s as [| c s IH]; cbn [toUpperCase trimEnd]; [reflexivity|].
  rewrite IH, isWhiteSpace_toUpperCaseChar.
  destruct (trimEnd s); cbn [toUpperCase]; [|reflexivity].
  destruct (isWhiteSpace c); reflexivity.
Qed.

Lemma splitFrom_toUpperCase (s cur : string) (inRun : bool) :
  splitFrom (toUpperCase cur) inRun (toUpperCase s)
  = map toUpperCase (splitFrom cur inRun s).
Proof.
  revert cur inRun.
  induction s as [| c s IH]; intros cur inRun; cbn [toUpperCase splitFrom map];
    [reflexivity|].
  rewrite isWhiteSpace_toUpperCaseChar.
  destruct (isWhiteSpace c).
  - destruct inRun; [apply IH|]. cbn [map]. f_equal. apply (IH EmptyString true).
  - rewrite <- IH, toUpperCase_append. reflexivity.
Qed.

(** The tokens of a source do not depend on the case of its letters. *)
Lemma tokenize_toUpperCase (s : string) : tokenize (toUpperCase s) = tokenize s.
Proof.
  unfold tokenize, trim, split.
  rewrite trimStart_toUpperCase, trimEnd_toUpperCase.
  rewrite (splitFrom_toUpperCase _ EmptyString false), map_map.
  apply map_ext. intros t. apply toUpperCase_idem.
Qed.

(** X1.  Parsing does not look at the case of letters: two sources that
    differ in case only (their upper-case forms are equal) parse to the same
    query, or fail with the same message. *)
Theorem parseQuery_case_insensitive (tza : Z) (parseOther : string -> option Z)
  (now now' : Z) (source1 source2 : string) :
  toUpperCase source1 = toUpperCase source2 ->
  parseQuery tza parseOther now now' source1
  = parseQuery tza parseOther now now' source2.
Proof.
  intros E. unfold parseQuery.
  rewrite <- (tokenize_toUpperCase source1), <- (tokenize_toUpperCase source2), E.
  reflexivity.
Qed.

Lemma parseQuery_case_insensitive_witness :
  parseQuery 0 noOther noon_2025_01_15 noon_2025_01_15 "list past 7 Days"
  = parseQuery 0 noOther noon_2025_01_15 noon_2025_01_15 "List Past 7 DAYS".
Proof.
  apply (parseQuery_case_insensitive 0 noOther noon_2025_01_15 noon_2025_01_15
           "list past 7 Days" "List Past 7 DAYS").
  reflexivity.
Defined.

Lemma trimStart_allWhite (s : string) : allWhite s = true -> trimStart s = EmptyString.
Proof.
  induction s as [| c s IH]; cbn [allWhite trimStart]; [reflexivity|].
  intros H. apply andb_true_iff in H. destruct H as [Hc Hs].
  rewrite Hc. auto.
Qed.

(** X2.  A source that is empty or holds white space only is rejected as too
    short: after trimming it splits into one empty token. *)
Theorem parseQuery_blank_source (tza : Z) (parseOther : string -> option Z)
  (now now' : Z) (source : string) :
  allWhite source = true ->
  tokenize source = [EmptyString]
  /\ parseQuery tza parseOther now now' source = Throw "Query is too short.".
Proof.
  intros W. assert (T : tokenize source = [EmptyString]).
  { unfold tokenize, trim. now rewrite (trimStart_allWhite _ W). }
  split; [exact T|]. unfold parseQuery. now rewrite T.
Qed.

Lemma parseQuery_blank_source_witness :
  tokenize "   " = [EmptyString]
  /\ parseQuery 0 noOther noon_2025_01_15 noon_2025_01_15 "   "
     = Throw "Query is too short.".
Proof.
  apply (parseQuery_blank_source 0 noOther noon_2025_01_15 noon_2025_01_15 "   ").
  reflexivity.
Defined.


(** ** Months *)

(** X3.  [MONTH] resolves to the first and the last day of the month of
    today, as texts: [from] is the year and the month of today with the day
    [01], [to] is the same year and month with the number of days of that
    month, and the two texts name days that have today between them.  The
    year of today must not lie between 0 and 99, which the [Date]
    constructor reads as 1900 to 1999, and today must be 31 days inside the
    range of [Date]. *)
Theorem month_first_to_last (tza : Z) (parseOther : string -> option Z)
  (now now' : Z) (rest : list string) :
  ~ (0 <= getFullYear tza now <= 99) ->
  Z.abs now + 31 * ES.msPerDay <= maxTime ->
  exists (from to : ISODate) (first last : Z),
    parseTimeRange tza parseOther now now' ("MONTH" :: rest) = Return (from, to)
    /\ from = NumberToString (getFullYear tza now) ++ "-"
              ++ padStart2 (NumberToString (getMonth tza now + 1)) ++ "-" ++ "01"
    /\ to = NumberToString (getFullYear tza now) ++ "-"
            ++ padStart2 (NumberToString (getMonth tza now + 1)) ++ "-"
            ++ padStart2 (NumberToString
                            (ES.DaysInMonth (getFullYear tza now) (getMonth tza now)))
    /\ dayOfText from = Some first
    /\ dayOfText to = Some last
    /\ first = ES.MakeDay (getFullYear tza now) (getMonth tza now) 1
    /\ last = first + ES.DaysInMonth (getFullYear tza now) (getMonth tza now) - 1
    /\ first <= localDay tza now <= last.
Proof.
  intros NY M.
  destruct (month_dates tza parseOther now now' rest NY M) as (f & l & R & F & T & B).
  destruct (parseTimeRange_texts _ _ _ _ _ _ _ R) as (P & Df & Dl).
  rewrite rangeDates_MONTH in R. apply Return_pair_inj in R. destruct R as [Ef El].
  apply newDateYMD_inv in Ef, El. destruct Ef as [Ef _]. destruct El as [El _].
  destruct (month_ends tza (getFullYear tza now) (getMonth tza now)
              (MonthFromTime_range _) NY) as ((A1 & A2 & A3) & (B1 & B2 & B3) & _).
  rewrite <- Ef in A1, A2, A3. rewrite <- El in B1, B2, B3.
  exists (formatDate tza f), (formatDate tza l), (localDay tza f), (localDay tza l).
  split; [exact P|].
  split; [unfold formatDate; rewrite A1, A2, A3; reflexivity|].
  split; [unfold formatDate; rewrite B1, B2, B3; reflexivity|].
  split; [exact Df|]. split; [exact Dl|]. split; [exact F|].
  split; [rewrite T, F; reflexivity | exact B].
Qed.

Lemma month_first_to_last_witness :
  exists (from to : ISODate) (first last : Z),
    parseTimeRange 0 noOther noon_2025_01_15 noon_2025_01_15 ("MONTH" :: [])
    = Return (from, to)
    /\ from = "2025-01-01"
    /\ to = "2025-01-31"
    /\ dayOfText from = Some first
    /\ dayOfText to = Some last
    /\ first = ES.MakeDay 2025 0 1
    /\ last = first + 31 - 1
    /\ first <= localDay 0 noon_2025_01_15 <= last.
Proof.
  refine (month_first_to_last 0 noOther noon_2025_01_15 noon_2025_01_15 [] _ _).
  - vm_compute. intros [_ H]. apply H. reflexivity.
  - vm_compute. discriminate.
Defined.

(** ** Weeks *)

(** X4.  [WEEK] resolves to the same two dates on every day of a week: read
    at any time whose local day lies between the [from] and the [to] of the
    range computed now, and which is six days inside the range of [Date],
    the range is the same text. *)
Theorem week_same_all_week (tza : Z) (parseOther : string -> option Z)
  (now now' later later' from to : Z) (rest rest' : list string) :
  rangeDates tza parseOther now now' ("WEEK" :: rest) = Return (Valid from, Valid to) ->
  localDay tza from <= localDay tza later <= localDay tza to ->
  Z.abs later + 6 * ES.msPerDay <= maxTime ->
  parseTimeRange tza parseOther later later' ("WEEK" :: rest')
  = parseTimeRange tza parseOther now now' ("WEEK" :: rest).
Proof.
  intros R L M.
  destruct (week_dates tza parseOther later later' rest' M) as (f' & l' & R' & F' & L').
  destruct (parseTimeRange_texts _ _ _ _ _ _ _ R) as [P _].
  destruct (parseTimeRange_texts _ _ _ _ _ _ _ R') as [P' _].
  rewrite P, P'.
  rewrite rangeDates_WEEK in R. cbv zeta in R.
  apply Return_pair_inj in R. destruct R as [Ef Et]. rewrite Ef in Et.
  apply setDate_inv in Ef, Et. destruct Ef as [Ef _]. destruct Et as [Et _].
  pose proof (week_start_day tza now) as S1. rewrite <- Ef in S1.
  assert (T1 : localDay tza to = localDay tza from + 6).
  { rewrite Et, localDay_setDate. lia. }
  do 2 f_equal; apply formatDate_localDay.
  - rewrite F', S1. zdiv.
  - rewrite L', F', T1, S1. zdiv.
Qed.

Lemma week_same_all_week_witness :
  parseTimeRange 0 noOther (noon_2025_01_15 + 4 * ES.msPerDay) 0 ("WEEK" :: [])
  = parseTimeRange 0 noOther noon_2025_01_15 noon_2025_01_15 ("WEEK" :: []).
Proof.
  apply (week_same_all_week 0 noOther noon_2025_01_15 noon_2025_01_15
           (noon_2025_01_15 + 4 * ES.msPerDay) 0
           1736769600000 1737288000000 [] []).
  - vm_compute. reflexivity.
  - vm_compute. split; discriminate.
  - vm_compute. discriminate.
Defined.

(** ** Reading a date back *)

(** X5.  The text that [formatDate] writes for a date in a year of four
    digits names the local day of that date: read back as a date-only
    literal, it gives the number of that day. *)
Theorem formatDate_names_local_day (tza date : Z) :
  1000 <= getFullYear tza date <= 9999 ->
  dayOfISO (formatDate tza date) = Some (localDay tza date).
Proof. exact (formatDate_read_back tza date). Qed.

Lemma formatDate_names_local_day_witness :
  dayOfISO (formatDate 0 noon_2025_01_15) = Some (localDay 0 noon_2025_01_15).
Proof.
  apply (formatDate_names_local_day 0 noon_2025_01_15).
  vm_compute. split; discriminate.
Defined.

(** ** Ranges between two dates *)

(** X6.  At or east of UTC, [FROM d1 TO d2] with two date literals of the
    calendar, in years of four digits, resolves to the two literals as they
    were written; tokens after the second date are ignored. *)
Theorem from_to_returns_literals (tza : Z) (parseOther : string -> option Z)
  (now now' : Z) (d1 d2 : string) (y1 m1 day1 y2 m2 day2 : Z) (more : list string) :
  0 <= tza < ES.msPerDay ->
  parseDateOnly d1 = Some (y1, m1, day1) -> 1000 <= y1 ->
  parseDateOnly d2 = Some (y2, m2, day2) -> 1000 <= y2 ->
  parseTimeRange tza parseOther now now' ("FROM" :: d1 :: "TO" :: d2 :: more)
  = Return (d1, d2).
Proof.
  intros Hz P1 Y1 P2 Y2.
  destruct (date_only_round_trip tza parseOther d1 y1 m1 day1 Hz P1 Y1) as (f & Nf & Ff).
  destruct (date_only_round_trip tza parseOther d2 y2 m2 day2 Hz P2 Y2) as (t & Nt & Ft).
  unfold parseTimeRange. rewrite rangeDates_FROM.
  cbn [List.length Nat.ltb Nat.leb nth_error tokenIs tokenText].
  change (String.eqb "TO" "TO") with true. cbn [negb orb].
  rewrite Nf, Nt. cbn [bind]. now rewrite Ff, Ft.
Qed.

Lemma from_to_returns_literals_witness :
  parseTimeRange 32400000 noOther noon_2025_01_15 noon_2025_01_15
    ("FROM" :: "2024-02-29" :: "TO" :: "2025-01-31" :: [])
  = Return ("2024-02-29", "2025-01-31").
Proof.
  apply (from_to_returns_literals 32400000 noOther noon_2025_01_15 noon_2025_01_15
           "2024-02-29" "2025-01-31" 2024 2 29 2025 1 31 []).
  - unfold ES.msPerDay. lia.
  - reflexivity.
  - lia.
  - reflexivity.
  - lia.
Defined.

(** * Further properties of the renderer *)

Lemma barsFrom_legendFrom (total : Q) (o : Totals) (names : list string) :
  forall (colorIndex : nat) (bars : list Bar),
    barsFrom total o colorIndex names = Return bars ->
    exists legend texts,
      legendFrom o colorIndex names = Return legend
      /\ Forall2 (fun k text => toFixed (getProperty o k) = Return text) names texts
      /\ map bar_title bars
         = map (fun kt => fst kt ++ ": " ++ snd kt ++ " hours") (combine names texts)
      /\ map bar_color bars = map swatch_color legend
      /\ map bar_title bars = map legend_text legend
      /\ forall i, (i < List.length names)%nat ->
           nth_error (map bar_color bars) i = Some (colorAt (colorIndex + i)).
Proof.
  induction names as [| k names IH]; intros colorIndex bars H;
    cbn [barsFrom legendFrom] in *.
  - injection H as <-. exists [], []. cbn [map combine List.length].
    repeat split; try constructor. intros i L. inversion L.
  - destruct (toFixed (getProperty o k)) as [text | message] eqn:T;
      cbn [bind] in *; [|discriminate H].
    destruct (barsFrom total o (S colorIndex) names) as [bars' | message] eqn:B;
      cbn [bind] in *; [|discriminate H].
    injection H as <-.
    destruct (IH (S colorIndex) bars' B) as (legend & texts & L & F & I1 & I2 & I3 & I4).
    rewrite L. cbn [bind].
    eexists; exists (text :: texts). split; [reflexivity|].
    cbn [map combine bar_title bar_color legend_text swatch_color fst snd List.length].
    repeat split.
    + constructor; assumption.
    + f_equal. exact I1.
    + f_equal. exact I2.
    + f_equal. exact I3.
    + intros [| i] Hi; cbn [nth_error].
      * now rewrite Nat.add_0_r.
      * rewrite I4 by lia. f_equal. f_equal. lia.
Qed.

(** X8.  When a summary is rendered, its legend repeats its bar chart:
    both list the projects of [sortedProjects] in that order, with the same
    text ([name: hours], the hours as [toFixed] writes the value of the
    totals object) and the same colour, and the colour of the project at
    position [i] is that of the palette at [i mod 7]. *)
Theorem legend_repeats_bars (entries : list HarvestTimeEntry) (report : Report) :
  renderSummary entries = Return report ->
  map bar_color (barsOf report) = map swatch_color (legendOf report)
  /\ map bar_title (barsOf report) = map legend_text (legendOf report)
  /\ (exists texts,
        Forall2 (fun k text => toFixed (getProperty (projectTotals entries) k) = Return text)
                (sortedProjects entries) texts
        /\ map bar_title (barsOf report)
           = map (fun kt => fst kt ++ ": " ++ snd kt ++ " hours")
                 (combine (sortedProjects entries) texts))
  /\ forall i, (i < List.length (sortedProjects entries))%nat ->
       nth_error (map bar_color (barsOf report)) i = Some (nth (i mod 7) colors "").
Proof.
  unfold renderSummary. intros H.
  destruct (barsFrom (totalHours entries) (projectTotals entries) 0 (sortedProjects entries))
    as [bars | message] eqn:B; cbn [bind] in H; [|discriminate H].
  destruct (barsFrom_legendFrom _ _ _ _ _ B) as (legend & texts & L & F & I1 & I2 & I3 & I4).
  rewrite L in H. cbn [bind] in H. injection H as <-. cbn [barsOf legendOf].
  split; [exact I2|]. split; [exact I3|]. split; [exists texts; split; assumption|].
  intros i Hi. rewrite (I4 i Hi). reflexivity.
Qed.

Lemma legend_repeats_bars_witness :
  map bar_color (barsOf exampleSummary) = map swatch_color (legendOf exampleSummary)
  /\ map bar_title (barsOf exampleSummary) = map legend_text (legendOf exampleSummary).
Proof.
  destruct (legend_repeats_bars [entry "Proj A" 1; entry "Proj B" 3] exampleSummary)
    as (C & T & _); [vm_compute; reflexivity|]. split; [exact C | exact T].
Defined.

Lemma Forall2_compose {A B C : Type} (R : A -> B -> Prop) (S : B -> C -> Prop)
  (l : list A) (m : list B) (n : list C) :
  Forall2 R l m -> Forall2 S m n ->
  Forall2 (fun a c => exists b, R a b /\ S b c) l n.
Proof.
  intros F. revert n. induction F as [| a b l m r F IH]; intros n G;
    inversion G; subst; constructor; eauto.
Qed.

(** X26.  The totals of projects whose names are not names of
    [Object.prototype]: the summary lists every project once, the total of
    each is a number, the sum of the hours of its entries, and these totals
    add up to the hours of all the entries, exactly, as does the total that
    heads the summary. *)
Theorem ordinary_totals_add_up (entries : list HarvestTimeEntry) :
  (forall e, In e entries -> ordinary (projectName e) = true) ->
  exists values : list Q,
    Forall2 (fun k v => getProperty (projectTotals entries) k = Number v
                        /\ (v == hoursOf entries k)%Q)
            (sortedProjects entries) values
    /\ (Qsum values == Qsum (map hours entries))%Q
    /\ (totalHours entries == Qsum (map hours entries))%Q
    /\ NoDup (sortedProjects entries)
    /\ (forall k, In k (sortedProjects entries) <-> In k (map projectName entries)).
Proof.
  intros H.
  exists (map (Plain.valueAt (Plain.projectTotals entries)) (sortedProjects entries)).
  destruct (PlainFacts.plain_totals_add_up entries) as (S & _ & N & I & _).
  rewrite <- (plain_sortedProjects entries H) in S, N, I.
  split; [apply (plain_values entries H)|].
  split; [exact S|]. split; [apply totalHours_sum|]. split; assumption.
Qed.

Lemma ordinary_totals_add_up_witness :
  exists values : list Q,
    Forall2 (fun k v =>
               getProperty (projectTotals [entry "Proj A" 1; entry "Proj B" 3; entry "Proj A" 2]) k
               = Number v
               /\ (v == hoursOf [entry "Proj A" 1; entry "Proj B" 3; entry "Proj A" 2] k)%Q)
            (sortedProjects [entry "Proj A" 1; entry "Proj B" 3; entry "Proj A" 2]) values
    /\ (Qsum values == 6)%Q.
Proof.
  destruct (ordinary_totals_add_up [entry "Proj A" 1; entry "Proj B" 3; entry "Proj A" 2])
    as (values & F & S & _).
  - intros e [<- | [<- | [<- | []]]]; reflexivity.
  - exists values. split; [exact F|]. rewrite S. reflexivity.
Defined.

(** X27.  The shares of projects whose names are not names of
    [Object.prototype]: the summary is rendered with one bar for each
    project of the entries, in the order of [sortedProjects].  When the hours of all the
    entries add up to more than zero, the width of the bar of a project is
    the sum of the hours of its entries divided by the sum of all hours,
    times 100; otherwise the width of every bar is 0, and nothing is
    divided. *)
Theorem ordinary_shares (entries : list HarvestTimeEntry) :
  (forall e, In e entries -> ordinary (projectName e) = true) ->
  exists heading total bars legend,
    renderSummary entries = Return (Summary heading total bars legend)
    /\ Permutation (sortedProjects entries) (firstSeen (map projectName entries))
    /\ List.length bars = List.length (sortedProjects entries)
    /\ ((Qsum (map hours entries) <= 0)%Q ->
        Forall (fun bar => bar_width bar = Number 0) bars)
    /\ ((0 < Qsum (map hours entries))%Q ->
        Forall2 (fun k bar =>
                   exists v t, bar_width bar = Number (v / t * 100)
                               /\ (v == hoursOf entries k)%Q
                               /\ (t == Qsum (map hours entries))%Q)
                (sortedProjects entries) bars).
Proof.
  intros H.
  destruct (ordinary_summary entries H) as (bars & legend & values & R & V & W & _).
  pose proof (totalHours_sum entries) as T.
  pose proof (Forall2_compose _ _ _ _ _ V W) as F.
  exists "Time summary", ("Total hours: " ++ toFixed2 (totalHours entries)), bars, legend.
  split; [exact R|].
  split; [apply (ordinary_sortedProjects_Permutation entries H)|]. split; [|split].
  - symmetry. apply (Forall2_length F).
  - intros Z. clear - W T Z. induction W as [| v bar values bars E W IH]; constructor;
      [|exact IH].
    rewrite E. unfold percentage.
    destruct (Qlt_le_dec 0 (totalHours entries)) as [G | _]; [|reflexivity].
    rewrite T in G. exfalso. apply (Qlt_not_le _ _ G Z).
  - intros P. revert F. apply Forall2_impl. intros k bar (v & [_ E] & B).
    exists v, (totalHours entries). split; [|split; assumption].
    rewrite B. unfold percentage.
    destruct (Qlt_le_dec 0 (totalHours entries)) as [_ | L]; [reflexivity|].
    rewrite T in L. exfalso. apply (Qlt_not_le _ _ P L).
Qed.

Lemma ordinary_shares_witness :
  exists heading total bars legend,
    renderSummary [entry "Proj A" 1; entry "Proj B" 3]
    = Return (Summary heading total bars legend)
    /\ List.length bars = 2%nat.
Proof.
  destruct (ordinary_shares [entry "Proj A" 1; entry "Proj B" 3])
    as (heading & total & bars & legend & R & _ & L & _).
  - intros e [<- | [<- | []]]; reflexivity.
  - exists heading, total, bars, legend. split; [exact R | exact L].
Defined.

(** * Further properties of the processor *)

(** ** The fetch *)

(** X9.  With credentials and a user, a query that parses and a service
    that answers the one address of the query with a status below 400 and
    a list of entries, the live block shows the report of exactly these
    entries, or, when the renderer throws, the message of its error; the
    address carries the two dates of the query and the user. *)
Theorem live_block_shows_fetched_entries (tza : Z) (parseOther : string -> option Z)
  (innerHTML : Report -> string) (now now' : Z) (plugin : HarvestPlugin)
  (source : string) (ctx : Context) (query : HarvestQuery) (uid status : Z)
  (entries : list HarvestTimeEntry) :
  includes "--static" source = false ->
  parseQuery tza parseOther now now' (trim source) = Return query ->
  personalAccessToken (settings plugin) <> "" ->
  accountId (settings plugin) <> "" ->
  userId plugin = Some uid -> uid <> 0 ->
  requestUrl plugin (timeEntriesUrl query uid)
  = HttpResponse status {| time_entries := Some entries |} ->
  status < 400 ->
  hqlProcessor tza parseOther innerHTML now now' plugin source ctx
  = {| shown := match renderReport entries query with
                | Return report => Rendered report
                | Throw message => Text ("Error processing Harvest query: " ++ message)
                end;
       written := None |}.
Proof.
  intros NF P T A U U0 R S.
  assert (RM : forall s, includes "--static" s = false -> removeFirst "--static" s = s).
  { induction s as [| c s IH]; intros I.
    - reflexivity.
    - cbn [includes] in I. apply orb_false_iff in I. destruct I as [I1 I2].
      cbn [removeFirst]. cbn [prefix] in I1 |- *.
      change (prefix "--static" (String c s)) with
        (if ascii_dec "-" c then prefix "-static" s else false) in I1 |- *.
      rewrite I1. now rewrite (IH I2). }
  unfold hqlProcessor, processed. rewrite NF, (RM _ NF), P. cbn [bind].
  assert (G : getTimeEntries plugin query = entries).
  { unfold getTimeEntries. rewrite U.
    destruct uid as [| p | p]; [congruence | |];
      unfold request; apply String.eqb_neq in T, A; rewrite T, A; cbn [orb];
      unfold timeEntriesUrl in R; rewrite R;
      apply Z.leb_gt in S; rewrite S; reflexivity. }
  rewrite G. unfold truthy.
  destruct (renderReport entries query); reflexivity.
Qed.

Lemma live_block_shows_fetched_entries_witness :
  hqlProcessor 0 noOther noMarkup noon_2025_01_15 noon_2025_01_15
    (pluginOver (fun _ => HttpResponse 200
                            {| time_entries := Some [entry "Proj A" 1] |}))
    "LIST TODAY" noContext
  = {| shown := Rendered (renderList [entry "Proj A" 1]); written := None |}.
Proof.
  refine (live_block_shows_fetched_entries 0 noOther noMarkup
            noon_2025_01_15 noon_2025_01_15
            (pluginOver (fun _ => HttpResponse 200
                                    {| time_entries := Some [entry "Proj A" 1] |}))
            "LIST TODAY" noContext
            {| type := LIST; from := "2025-01-15"; to := "2025-01-15" |} 42 200
            [entry "Proj A" 1] _ _ _ _ _ _ _ _).
  - reflexivity.
  - vm_compute. reflexivity.
  - discriminate.
  - discriminate.
  - reflexivity.
  - discriminate.
  - reflexivity.
  - lia.
Defined.


(** ** The static flag *)

Lemma removeFirst_absent (pat s : string) :
  includes pat s = false -> removeFirst pat s = s.
Proof.
  induction s as [| c s IH]; intros I.
  - cbn [includes] in I. apply orb_false_iff in I. destruct I as [I _].
    cbn [removeFirst]. now rewrite I.
  - cbn [includes] in I. apply orb_false_iff in I. destruct I as [I1 I2].
    cbn [removeFirst]. rewrite I1. now rewrite (IH I2).
Qed.

Lemma includes_prefix (pat s : string) : prefix pat s = true -> includes pat s = true.
Proof. intros H. destruct s; cbn [includes]; now rewrite H. Qed.

Ltac straddle H :=
  repeat match type of H with
         | (if ascii_dec ?a ?b then _ else false) = true =>
             let E := fresh in
             destruct (ascii_dec a b) as [E | E];
             [try discriminate E; clear E | discriminate H]
         | false = true => discriminate H
         end.

(** The flag does not begin inside a string and end inside a copy of the
    flag that follows the string: no proper end of the flag is a beginning
    of it. *)
Lemma prefix_static_straddle (x b : string) :
  prefix "--static" (x ++ "--static" ++ b) = true ->
  x = EmptyString \/ prefix "--static" x = true.
Proof.
  intros H.
  destruct x as [| c1 [| c2 [| c3 [| c4 [| c5 [| c6 [| c7 [| c8 x]]]]]]]];
    [left; reflexivity | right ..];
    cbn [append prefix] in H |- *;
    try (exfalso; straddle H; fail).
  repeat match goal with
         | |- context [ascii_dec ?a ?b] =>
             destruct (ascii_dec a b) as [_ | _]; [|discriminate H]
         end.
  destruct x; reflexivity.
Qed.

(** Taking the first flag out of a source that has none before it takes
    out that flag. *)
Lemma removeFirst_static (a b : string) :
  includes "--static" a = false ->
  removeFirst "--static" (a ++ "--static" ++ b) = a ++ b
  /\ includes "--static" (a ++ "--static" ++ b) = true.
Proof.
  induction a as [| c a IH]; intros I.
  - assert (P : prefix "--static" ("--static" ++ b) = true).
    { cbn [append prefix].
      repeat match goal with
             | |- context [ascii_dec ?x ?y] =>
                 let E := fresh in
                 destruct (ascii_dec x y) as [E | E]; [clear E | congruence]
             end.
      destruct b; reflexivity. }
    change (EmptyString ++ "--static" ++ b) with ("--static" ++ b).
    split.
    + change (removeFirst "--static" ("--static" ++ b))
        with (if prefix "--static" ("--static" ++ b)
              then dropChars 8 ("--static" ++ b)
              else String "-" (removeFirst "--static" ("-static" ++ b))).
      rewrite P. reflexivity.
    + now apply includes_prefix.
  - assert (I' := I). cbn [includes] in I'. apply orb_false_iff in I'.
    destruct I' as [I1 I2]. destruct (IH I2) as [R Inc].
    change ((String c a ++ "--static" ++ b)) with (String c (a ++ "--static" ++ b)).
    split.
    + cbn [removeFirst].
      destruct (prefix "--static" (String c (a ++ "--static" ++ b))) eqn:P.
      * destruct (prefix_static_straddle (String c a) b P) as [E | E];
          [discriminate | congruence].
      * now rewrite R.
    + cbn [includes]. rewrite Inc. apply orb_true_r.
Qed.

(** X10.  On the static path (the flag is present, the query parses, the
    renderer returns a report of the fetched entries, the note and the lines
    of the block are known, and the block begins inside the note) the note
    is rewritten so that the lines before the block and the lines after it
    are kept, and the lines of the block give way to one line: the static
    markup of that report.  When the renderer throws, the note is not
    written and the block shows the message of the error. *)
Theorem static_rewrite_replaces_block (tza : Z) (parseOther : string -> option Z)
  (innerHTML : Report -> string) (now now' : Z) (plugin : HarvestPlugin)
  (source : string) (ctx : Context) (query : HarvestQuery)
  (lines : list string) (lineStart lineEnd : nat) :
  includes "--static" source = true ->
  parseQuery tza parseOther now now' (trim (removeFirst "--static" source))
  = Return query ->
  sourceFile ctx = Some lines ->
  sectionInfo ctx = Some (lineStart, lineEnd) ->
  (lineStart <= List.length lines)%nat ->
  match renderReport (getTimeEntries plugin query) query with
  | Return report =>
      exists newLines,
        written (hqlProcessor tza parseOther innerHTML now now' plugin source ctx)
        = Some newLines
        /\ firstn lineStart newLines = firstn lineStart lines
        /\ nth_error newLines lineStart = Some (staticBlock innerHTML source report)
        /\ skipn (lineStart + 1) newLines = skipn (lineEnd + 1) lines
  | Throw message =>
      hqlProcessor tza parseOther innerHTML now now' plugin source ctx
      = {| shown := Text ("Error processing Harvest query: " ++ message);
           written := None |}
  end.
Proof.
  intros F P SF SI L. unfold hqlProcessor, processed. rewrite F, P. cbn [bind].
  unfold truthy. cbn [negb].
  destruct (renderReport (getTimeEntries plugin query) query) as [report | message];
    cbn [bind]; [|reflexivity].
  rewrite SF, SI. cbn [written].
  eexists. split; [reflexivity|].
  assert (Len : List.length (firstn lineStart lines) = lineStart).
  { apply firstn_length_le, L. }
  split; [|split].
  - rewrite firstn_app, Len, Nat.sub_diag, firstn_O, app_nil_r.
    rewrite firstn_firstn. f_equal. lia.
  - rewrite nth_error_app2 by lia. rewrite Len, Nat.sub_diag. reflexivity.
  - rewrite skipn_app, Len.
    replace (lineStart + 1 - lineStart)%nat with 1%nat by lia.
    rewrite skipn_all2 by lia. reflexivity.
Qed.

Lemma static_rewrite_replaces_block_witness :
  exists newLines,
    written (hqlProcessor 0 noOther noMarkup noon_2025_01_15 noon_2025_01_15
               (pluginOver answeringNothing) "LIST TODAY --static"
               {| sourceFile := Some ["# Note"; "```harvest"; "LIST TODAY --static";
                                      "```"; "after"];
                  sectionInfo := Some (1%nat, 3%nat) |})
    = Some newLines
    /\ firstn 1 newLines
       = firstn 1 ["# Note"; "```harvest"; "LIST TODAY --static"; "```"; "after"]
    /\ nth_error newLines 1
       = Some (staticBlock noMarkup "LIST TODAY --static"
                 (NoEntries "No time entries found for the selected period."))
    /\ skipn (1 + 1) newLines
       = skipn (3 + 1) ["# Note"; "```harvest"; "LIST TODAY --static"; "```"; "after"].
Proof.
  refine (static_rewrite_replaces_block 0 noOther noMarkup
            noon_2025_01_15 noon_2025_01_15 (pluginOver answeringNothing)
            "LIST TODAY --static"
            {| sourceFile := Some ["# Note"; "```harvest"; "LIST TODAY --static";
                                   "```"; "after"];
               sectionInfo := Some (1%nat, 3%nat) |}
            {| type := LIST; from := "2025-01-15"; to := "2025-01-15" |}
            ["# Note"; "```harvest"; "LIST TODAY --static"; "```"; "after"] 1 3
            _ _ _ _ _).
  - vm_compute. reflexivity.
  - vm_compute. reflexivity.
  - reflexivity.
  - reflexivity.
  - cbn [List.length]. lia.
Defined.

(** X11.  The processor rewrites the note only on the static path: when a
    run ends with new lines for the note, the source held the flag, the
    query parsed, and the note and the lines of the block were known.  A
    live block and a source that does not parse never touch the note. *)
Theorem note_written_only_on_static_path (tza : Z) (parseOther : string -> option Z)
  (innerHTML : Report -> string) (now now' : Z) (plugin : HarvestPlugin)
  (source : string) (ctx : Context) (newLines : list string) :
  written (hqlProcessor tza parseOther innerHTML now now' plugin source ctx)
  = Some newLines ->
  includes "--static" source = true
  /\ (exists query,
        parseQuery tza parseOther now now' (trim (removeFirst "--static" source))
        = Return query)
  /\ sourceFile ctx <> None
  /\ sectionInfo ctx <> None.
Proof.
  unfold hqlProcessor, processed.
  destruct (parseQuery tza parseOther now now' _) as [query | message];
    cbn [bind]; [|discriminate].
  destruct (includes "--static" source); unfold truthy; cbn [negb];
    destruct (renderReport _ query) as [report | message]; cbn [bind written];
    try discriminate.
  destruct (sourceFile ctx); [|discriminate].
  destruct (sectionInfo ctx) as [[lineStart lineEnd] |]; [|discriminate].
  intros _. repeat split; eauto; discriminate.
Qed.

Lemma note_written_only_on_static_path_witness :
  includes "--static" "LIST TODAY --static" = true
  /\ (exists query,
        parseQuery 0 noOther noon_2025_01_15 noon_2025_01_15
          (trim (removeFirst "--static" "LIST TODAY --static")) = Return query)
  /\ Some ["LIST TODAY --static"] <> None
  /\ Some (0%nat, 0%nat) <> None.
Proof.
  apply (note_written_only_on_static_path 0 noOther noMarkup
           noon_2025_01_15 noon_2025_01_15 (pluginOver answeringNothing)
           "LIST TODAY --static"
           {| sourceFile := Some ["LIST TODAY --static"];
              sectionInfo := Some (0%nat, 0%nat) |}
           [staticBlock noMarkup "LIST TODAY --static"
              (NoEntries "No time entries found for the selected period.")]).
  vm_compute. reflexivity.
Defined.

(** X12.  The flag changes the delivery and not the query.  For a source
    with its first flag at any place, what the block freezes into the note
    is the report that a live block shows for the source without the flag;
    and when that source does not parse, both blocks show the same
    message. *)
Theorem static_flag_keeps_query (tza : Z) (parseOther : string -> option Z)
  (innerHTML : Report -> string) (now now' : Z) (plugin : HarvestPlugin)
  (a b : string) (ctx : Context) :
  includes "--static" a = false ->
  includes "--static" (a ++ b) = false ->
  match shown (hqlProcessor tza parseOther innerHTML now now' plugin (a ++ b) ctx) with
  | Rendered report =>
      forall lines lineStart lineEnd,
        sourceFile ctx = Some lines ->
        sectionInfo ctx = Some (lineStart, lineEnd) ->
        written (hqlProcessor tza parseOther innerHTML now now' plugin
                   (a ++ "--static" ++ b) ctx)
        = Some (firstn lineStart lines
                ++ [staticBlock innerHTML (a ++ "--static" ++ b) report]
                ++ skipn (lineEnd + 1) lines)%list
  | Text message =>
      hqlProcessor tza parseOther innerHTML now now' plugin (a ++ "--static" ++ b) ctx
      = {| shown := Text message; written := None |}
  end.
Proof.
  intros Ia Iab. destruct (removeFirst_static a b Ia) as [R Inc].
  unfold hqlProcessor, processed. rewrite Inc, R, Iab, (removeFirst_absent _ _ Iab).
  destruct (parseQuery tza parseOther now now' (trim (a ++ b))) as [query | message];
    cbn [bind]; [|reflexivity].
  unfold truthy. cbn [negb].
  destruct (renderReport (getTimeEntries plugin query) query) as [report | message];
    cbn [bind shown]; [|reflexivity].
  intros lines lineStart lineEnd SF SI. rewrite SF, SI. reflexivity.
Qed.

Lemma static_flag_keeps_query_witness :
  hqlProcessor 0 noOther noMarkup noon_2025_01_15 noon_2025_01_15
    (pluginOver answeringNothing) ("LIST " ++ "--static" ++ " PAST x DAYS") noContext
  = {| shown := Text "Error processing Harvest query: Invalid PAST format. Use 'PAST <number> DAYS'.";
       written := None |}.
Proof.
  exact (static_flag_keeps_query 0 noOther noMarkup noon_2025_01_15 noon_2025_01_15
           (pluginOver answeringNothing) "LIST " " PAST x DAYS" noContext
           eq_refl eq_refl).
Defined.


(** * Properties of the pickers and of the timer *)

(** ** Moving an element to the front *)

Lemma findIndex_Some {A : Type} (p : A -> bool) (l : list A) (i : nat) :
  findIndex p l = Some i ->
  exists pre x post,
    l = (pre ++ x :: post)%list /\ p x = true
    /\ (forall y, In y pre -> p y = false)
    /\ splice1 i l = (Some x, (pre ++ post)%list).
Proof.
  revert i. induction l as [| y l IH]; intros i H; cbn [findIndex] in H;
    [discriminate|].
  destruct (p y) eqn:Py.
  - injection H as <-. exists [], y, l. repeat split; auto. intros z [].
  - destruct (findIndex p l) as [j|]; [|discriminate].
    injection H as <-. destruct (IH j eq_refl) as (pre & x & post & E & Px & N & S).
    exists (y :: pre), x, post. subst l. repeat split; auto.
    + intros z [<- | Hz]; auto.
    + cbn [splice1 app]. now rewrite S.
Qed.

Lemma findIndex_None {A : Type} (p : A -> bool) (l : list A) :
  findIndex p l = None <-> (forall y, In y l -> p y = false).
Proof.
  induction l as [| y l IH]; cbn [findIndex In].
  - split; [intros _ z [] | reflexivity].
  - destruct (p y) eqn:Py.
    + split; [discriminate|]. intros H. rewrite (H y) in Py by auto. discriminate.
    + destruct (findIndex p l) as [j|]; cbn [option_map].
      * split; [discriminate|]. intros H.
        assert (N : Some j = None) by (apply IH; intros z Hz; apply H; auto).
        discriminate.
      * split; [|reflexivity]. intros _ z [<- | Hz]; [exact Py|].
        now apply (proj1 IH).
Qed.

(** The first element of [l] that satisfies [p] is unique as a place. *)
Lemma first_match_unique {A : Type} (p : A -> bool)
  (pre pre' post post' : list A) (x x' : A) :
  (pre ++ x :: post = pre' ++ x' :: post')%list ->
  p x = true -> p x' = true ->
  (forall y, In y pre -> p y = false) ->
  (forall y, In y pre' -> p y = false) ->
  pre = pre' /\ x = x' /\ post = post'.
Proof.
  revert pre'. induction pre as [| a pre IH]; intros [| a' pre'] E Px Px' N N';
    cbn [app] in E.
  - injection E as E1 E2. auto.
  - injection E as E1 _. rewrite (N' x) in Px; [discriminate | left; auto].
  - injection E as E1 _. rewrite (N x') in Px'; [discriminate | left; auto].
  - injection E as E1 E.
    destruct (IH pre' E Px Px') as (E2 & E3 & E4).
    + intros y Hy. apply N. now right.
    + intros y Hy. apply N'. now right.
    + subst. auto.
Qed.

(** Moving the first match to the front, as both pickers do. *)
Lemma move_first_match {A : Type} (p : A -> bool) (l : list A) :
  let moved :=
    match findIndex p l with
    | Some i =>
        match splice1 i l with
        | (Some x, rest) => x :: rest
        | (None, rest) => rest
        end
    | None => l
    end in
  Permutation moved l
  /\ ((forall y, In y l -> p y = false) -> moved = l)
  /\ (forall pre x post,
        l = (pre ++ x :: post)%list -> p x = true ->
        (forall y, In y pre -> p y = false) ->
        moved = x :: (pre ++ post)%list).
Proof.
  cbv zeta. destruct (findIndex p l) as [i|] eqn:F.
  - destruct (findIndex_Some p l i F) as (pre & x & post & E & Px & N & S).
    rewrite S. split; [|split].
    + rewrite E. apply Permutation_middle.
    + intros H. rewrite (H x) in Px; [discriminate|].
      rewrite E. apply in_elt.
    + intros pre' x' post' E' Px' N'. rewrite E in E'.
      destruct (first_match_unique p _ _ _ _ _ _ E' Px Px' N N') as (-> & -> & ->).
      reflexivity.
  - split; [reflexivity|]. split; [reflexivity|].
    intros pre x post E Px _. apply findIndex_None with (y := x) in F.
    + congruence.
    + rewrite E. apply in_elt.
Qed.

(** X13.  The project picker lists the projects of the cache, each once as
    in the cache.  When the folder of the active note has a cached project
    that is in the list, the first project with that id comes first and the
    others keep their order; otherwise (no note, no folder, no entry for the
    folder, or a project that is not in the list) the list is that of the
    cache. *)
Theorem project_picker_items (projectCache : list ProjectFull.t)
  (folderProjectCache : FolderProjectCache) (activeFile : option TFile) :
  Permutation
    (ProjectSuggestModal.getItems projectCache folderProjectCache activeFile)
    projectCache
  /\ (cachedInfoFor folderProjectCache activeFile = None ->
      ProjectSuggestModal.getItems projectCache folderProjectCache activeFile
      = projectCache)
  /\ (forall info,
        cachedInfoFor folderProjectCache activeFile = Some info ->
        ((forall p, In p projectCache -> ProjectFull.id p <> projectId info) ->
         ProjectSuggestModal.getItems projectCache folderProjectCache activeFile
         = projectCache)
        /\ (forall pre x post,
              projectCache = (pre ++ x :: post)%list ->
              ProjectFull.id x = projectId info ->
              (forall q, In q pre -> ProjectFull.id q <> projectId info) ->
              ProjectSuggestModal.getItems projectCache folderProjectCache activeFile
              = x :: (pre ++ post)%list)).
Proof.
  unfold ProjectSuggestModal.getItems, cachedInfoFor.
  destruct activeFile as [file|]; [|repeat split; auto; discriminate].
  destruct (parent file) as [folderPath|]; [|repeat split; auto; discriminate].
  destruct (lookupOwn folderProjectCache folderPath) as [cachedInfo|];
    [|repeat split; auto; discriminate].
  pose proof (move_first_match (fun p => ProjectFull.id p =? projectId cachedInfo)
                projectCache) as M.
  cbv zeta in M. destruct M as (M1 & M2 & M3).
  split; [exact M1|]. split; [discriminate|].
  intros info E. injection E as <-. split.
  - intros H. apply M2. intros y Hy. apply Z.eqb_neq. now apply H.
  - intros pre x post E Ex N. apply (M3 pre x post E).
    + now apply Z.eqb_eq.
    + intros y Hy. apply Z.eqb_neq. now apply N.
Qed.

(** X14.  The task picker lists the tasks it was given.  The cached task of
    the folder of the active note comes first, the others keeping their
    order, only when the cached project of that folder is the project
    chosen; with another project cached the list is left as it was. *)
Theorem task_picker_items (tasks : list TaskAssignment.t) (project : ProjectFull.t)
  (folderProjectCache : FolderProjectCache) (activeFile : option TFile) :
  Permutation
    (TaskSuggestModal.getItems tasks project folderProjectCache activeFile) tasks
  /\ (cachedInfoFor folderProjectCache activeFile = None ->
      TaskSuggestModal.getItems tasks project folderProjectCache activeFile = tasks)
  /\ (forall info,
        cachedInfoFor folderProjectCache activeFile = Some info ->
        (projectId info <> ProjectFull.id project ->
         TaskSuggestModal.getItems tasks project folderProjectCache activeFile = tasks)
        /\ (projectId info = ProjectFull.id project ->
            forall pre x post,
              tasks = (pre ++ x :: post)%list ->
              id (TaskAssignment.task x) = taskId info ->
              (forall q, In q pre -> id (TaskAssignment.task q) <> taskId info) ->
              TaskSuggestModal.getItems tasks project folderProjectCache activeFile
              = x :: (pre ++ post)%list)).
Proof.
  unfold TaskSuggestModal.getItems, cachedInfoFor.
  destruct activeFile as [file|]; [|repeat split; auto; discriminate].
  destruct (parent file) as [folderPath|]; [|repeat split; auto; discriminate].
  destruct (lookupOwn folderProjectCache folderPath) as [cachedInfo|];
    [|repeat split; auto; discriminate].
  pose proof (move_first_match (fun t => id (TaskAssignment.task t) =? taskId cachedInfo)
                tasks) as M.
  cbv zeta in M. destruct M as (M1 & M2 & M3).
  destruct (Z.eqb_spec (projectId cachedInfo) (ProjectFull.id project)) as [Ep | Np].
  - split; [exact M1|]. split; [discriminate|].
    intros info E. injection E as <-. split; [congruence|].
    intros _ pre x post E Ex N. apply (M3 pre x post E).
    + now apply Z.eqb_eq.
    + intros y Hy. apply Z.eqb_neq. now apply N.
  - split; [reflexivity|]. split; [discriminate|].
    intros info E. injection E as <-. split; [reflexivity | congruence].
Qed.

(** ** The folder cache *)

Lemma lookupOwn_assignOwn_same {V : Type} (o : list (string * V)) (k : string) (v : V) :
  lookupOwn (assignOwn o k v) k = Some v.
Proof.
  induction o as [| [k' v'] o IH]; cbn [assignOwn lookupOwn].
  - now rewrite String.eqb_refl.
  - destruct (String.eqb k' k) eqn:E; cbn [lookupOwn]; rewrite E; auto.
Qed.

Lemma lookupOwn_assignOwn_other {V : Type} (o : list (string * V)) (k k0 : string) (v : V) :
  k0 <> k -> lookupOwn (assignOwn o k v) k0 = lookupOwn o k0.
Proof.
  intros N. induction o as [| [k' v'] o IH]; cbn [assignOwn lookupOwn].
  - destruct (String.eqb_spec k k0); [congruence | reflexivity].
  - destruct (String.eqb_spec k' k) as [-> | N']; cbn [lookupOwn].
    + destruct (String.eqb_spec k k0); [congruence | reflexivity].
    + now rewrite IH.
Qed.

Lemma startTimer_cacheAfter (tza now : Z) (plugin : HarvestPlugin)
  (service : string -> string -> Answer) (cache : FolderProjectCache)
  (p t : Z) (activeFile : option TFile) :
  cacheAfter (startTimer tza now plugin service cache p t activeFile)
  = match activeFile with
    | Some file =>
        match parent file with
        | Some folderPath =>
            assignOwn cache folderPath {| projectId := p; taskId := t |}
        | None => cache
        end
    | None => cache
    end.
Proof.
  unfold startTimer.
  destruct activeFile as [file|]; [destruct (parent file)|];
    match goal with
    | |- context [match ?e with Some _ => _ | None => _ end] =>
        destruct e
    end; reflexivity.
Qed.

(** X15.  Starting a timer from a note in a folder records the project and
    the task for that folder and leaves the record of every other folder as
    it was; so the project picker, opened next from any note of that
    folder, lists the project first. *)
Theorem started_project_is_offered_first (tza now : Z) (plugin : HarvestPlugin)
  (service : string -> string -> Answer) (cache : FolderProjectCache)
  (p t : Z) (file : TFile) (folderPath : string) :
  parent file = Some folderPath ->
  let after := cacheAfter (startTimer tza now plugin service cache p t (Some file)) in
  (forall other,
     parent other = Some folderPath ->
     cachedInfoFor after (Some other) = Some {| projectId := p; taskId := t |})
  /\ (forall other,
        parent other <> Some folderPath ->
        cachedInfoFor after (Some other) = cachedInfoFor cache (Some other))
  /\ (forall other projectCache pre x post,
        parent other = Some folderPath ->
        projectCache = (pre ++ x :: post)%list ->
        ProjectFull.id x = p ->
        (forall q, In q pre -> ProjectFull.id q <> p) ->
        ProjectSuggestModal.getItems projectCache after (Some other)
        = x :: (pre ++ post)%list).
Proof.
  intros Pf after.
  assert (A : after = assignOwn cache folderPath {| projectId := p; taskId := t |}).
  { subst after. rewrite startTimer_cacheAfter, Pf. reflexivity. }
  assert (S : forall other, parent other = Some folderPath ->
              cachedInfoFor after (Some other) = Some {| projectId := p; taskId := t |}).
  { intros other Po. unfold cachedInfoFor. rewrite Po, A.
    apply lookupOwn_assignOwn_same. }
  split; [exact S|]. split.
  - intros other Po. unfold cachedInfoFor. rewrite A.
    destruct (parent other) as [g|]; [|reflexivity].
    apply lookupOwn_assignOwn_other. congruence.
  - intros other projectCache pre x post Po E Ex N.
    specialize (S other Po). unfold cachedInfoFor in S. rewrite Po in S.
    unfold ProjectSuggestModal.getItems. rewrite Po, S. cbn [projectId].
    pose proof (move_first_match (fun q => ProjectFull.id q =? p) projectCache) as M.
    cbv zeta in M. destruct M as (_ & _ & M). apply (M pre x post E).
    + now apply Z.eqb_eq.
    + intros y Hy. apply Z.eqb_neq. now apply N.
Qed.

Lemma started_project_is_offered_first_witness :
  ProjectSuggestModal.getItems
    [ {| ProjectFull.id := 1; ProjectFull.name := "Alpha";
         ProjectFull.client := None; ProjectFull.task_assignments := None |};
      {| ProjectFull.id := 2; ProjectFull.name := "Beta";
         ProjectFull.client := None; ProjectFull.task_assignments := None |} ]
    (cacheAfter (startTimer 0 noon_2025_01_15 (pluginOver unreachable)
                   (fun _ _ => NoAnswer) [] 2 7
                   (Some {| parent := Some "Work" |})))
    (Some {| parent := Some "Work" |})
  = [ {| ProjectFull.id := 2; ProjectFull.name := "Beta";
         ProjectFull.client := None; ProjectFull.task_assignments := None |};
      {| ProjectFull.id := 1; ProjectFull.name := "Alpha";
         ProjectFull.client := None; ProjectFull.task_assignments := None |} ].
Proof.
  apply (proj2 (proj2
           (started_project_is_offered_first 0 noon_2025_01_15 (pluginOver unreachable)
              (fun _ _ => NoAnswer) [] 2 7 {| parent := Some "Work" |} "Work" eq_refl))
           {| parent := Some "Work" |} _
           [ {| ProjectFull.id := 1; ProjectFull.name := "Alpha";
                ProjectFull.client := None; ProjectFull.task_assignments := None |} ]
           {| ProjectFull.id := 2; ProjectFull.name := "Beta";
              ProjectFull.client := None; ProjectFull.task_assignments := None |}
           [] eq_refl eq_refl eq_refl).
  intros q [<- | []]. discriminate.
Defined.

(** ** Starting a timer *)

Lemma find_first_match {A : Type} (p : A -> bool) (pre post : list A) (x : A) :
  p x = true -> (forall y, In y pre -> p y = false) ->
  find p (pre ++ x :: post) = Some x.
Proof.
  intros Px N. induction pre as [| a pre IH]; cbn [app find].
  - now rewrite Px.
  - rewrite (N a) by (now left). apply IH. intros y Hy. apply N. now right.
Qed.

(** The request and the notice of [startTimer], from the entry it finds. *)
Lemma startTimer_requested (tza now : Z) (plugin : HarvestPlugin)
  (service : string -> string -> Answer) (cache : FolderProjectCache)
  (p t : Z) (activeFile : option TFile) :
  let existing :=
    match userId plugin with
    | None | Some 0 => None
    | Some uid =>
        match request plugin ("/time_entries?from=" ++ formatDate tza now ++ "&to="
                              ++ formatDate tza now
                              ++ "&user_id=" ++ NumberToString uid) with
        | Some data =>
            match time_entries data with
            | Some entries =>
                find (fun entry => (id (project entry) =? p) && (id (task entry) =? t))
                     entries
            | None => None
            end
        | None => None
        end
    end in
  requested (startTimer tza now plugin service cache p t activeFile)
  = match existing with
    | Some e => Restart (entry_id e)
    | None => Create p t (formatDate tza now)
    end
  /\ notice (startTimer tza now plugin service cache p t activeFile)
     = match existing with
       | Some e =>
           if send plugin service "PATCH"
                ("/time_entries/" ++ NumberToString (entry_id e) ++ "/restart")
           then Some "Timer restarted!" else None
       | None =>
           if send plugin service "POST" "/time_entries"
           then Some "Timer started!" else None
       end.
Proof.
  cbv zeta. unfold startTimer, formatDate.
  destruct (match activeFile with
            | Some file =>
                match parent file with
                | Some folderPath =>
                    (assignOwn cache folderPath {| projectId := p; taskId := t |}, true)
                | None => (cache, false)
                end
            | None => (cache, false)
            end) as [c s].
  cbv zeta.
  match goal with
  | |- context [match ?e with Some _ => _ | None => _ end] =>
      lazymatch e with
      | context [userId plugin] => destruct e
      end
  end; split; reflexivity.
Qed.

(** X16.  When the user's entries of today hold an entry of the project and
    the task, [startTimer] asks to restart the first such entry and does not
    create an entry, whether or not the restart succeeds; the notice tells
    of the restart exactly when it succeeded. *)
Theorem existing_entry_is_restarted (tza now : Z) (plugin : HarvestPlugin)
  (service : string -> string -> Answer) (cache : FolderProjectCache)
  (p t uid : Z) (activeFile : option TFile)
  (pre post : list HarvestTimeEntry) (e : HarvestTimeEntry) :
  userId plugin = Some uid -> uid <> 0 ->
  request plugin ("/time_entries?from=" ++ formatDate tza now ++ "&to="
                  ++ formatDate tza now ++ "&user_id=" ++ NumberToString uid)
  = Some {| time_entries := Some (pre ++ e :: post)%list |} ->
  id (project e) = p -> id (task e) = t ->
  (forall y, In y pre -> id (project y) <> p \/ id (task y) <> t) ->
  requested (startTimer tza now plugin service cache p t activeFile)
  = Restart (entry_id e)
  /\ (notice (startTimer tza now plugin service cache p t activeFile)
      = Some "Timer restarted!"
      <-> send plugin service "PATCH"
            ("/time_entries/" ++ NumberToString (entry_id e) ++ "/restart") = true).
Proof.
  intros U U0 R Ep Et N.
  pose proof (startTimer_requested tza now plugin service cache p t activeFile) as S.
  cbv zeta in S. rewrite U in S.
  assert (F : find (fun entry => (id (project entry) =? p) && (id (task entry) =? t))
                   (pre ++ e :: post) = Some e).
  { apply find_first_match.
    - apply andb_true_iff. split; now apply Z.eqb_eq.
    - intros y Hy. apply andb_false_iff.
      destruct (N y Hy) as [H | H]; [left | right]; now apply Z.eqb_neq. }
  destruct uid as [| u | u]; [congruence | |];
    rewrite R in S; cbn [time_entries] in S; rewrite F in S;
    destruct S as [S1 S2]; (split; [exact S1|]); rewrite S2;
    destruct (send plugin service "PATCH" _); split; congruence.
Qed.

Lemma existing_entry_is_restarted_witness :
  requested (startTimer 0 noon_2025_01_15
               (pluginOver (fun _ => HttpResponse 200
                                       {| time_entries := Some [entry "Proj A" 1] |}))
               (fun _ _ => NoAnswer) [] 0 0 None)
  = Restart (entry_id (entry "Proj A" 1))
  /\ (notice (startTimer 0 noon_2025_01_15
                (pluginOver (fun _ => HttpResponse 200
                                        {| time_entries := Some [entry "Proj A" 1] |}))
                (fun _ _ => NoAnswer) [] 0 0 None)
      = Some "Timer restarted!"
      <-> send (pluginOver (fun _ => HttpResponse 200
                                       {| time_entries := Some [entry "Proj A" 1] |}))
            (fun _ _ => NoAnswer) "PATCH"
            ("/time_entries/" ++ NumberToString (entry_id (entry "Proj A" 1)) ++ "/restart")
          = true).
Proof.
  apply (existing_entry_is_restarted 0 noon_2025_01_15
           (pluginOver (fun _ => HttpResponse 200
                                   {| time_entries := Some [entry "Proj A" 1] |}))
           (fun _ _ => NoAnswer) [] 0 0 42 None [] [] (entry "Proj A" 1)).
  - reflexivity.
  - discriminate.
  - reflexivity.
  - reflexivity.
  - reflexivity.
  - intros y [].
Defined.

(** X17.  An entry that [startTimer] creates is for the project and the
    task asked for, and is dated with the local day of the clock: the very
    date that the query [LIST TODAY], parsed at that time, asks for. *)
Theorem created_entry_is_dated_today (tza : Z) (parseOther : string -> option Z)
  (now now' : Z) (plugin : HarvestPlugin) (service : string -> string -> Answer)
  (cache : FolderProjectCache) (p t : Z) (activeFile : option TFile)
  (project_id task_id : Z) (spent_date : string) :
  requested (startTimer tza now plugin service cache p t activeFile)
  = Create project_id task_id spent_date ->
  project_id = p /\ task_id = t
  /\ spent_date = formatDate tza now
  /\ parseQuery tza parseOther now now' "LIST TODAY"
     = Return {| type := LIST; from := spent_date; to := spent_date |}.
Proof.
  intros H.
  pose proof (startTimer_requested tza now plugin service cache p t activeFile) as S.
  cbv zeta in S. destruct S as [S _]. rewrite S in H.
  match type of H with
  | match ?e with Some _ => _ | None => _ end = _ => destruct e; [discriminate|]
  end.
  injection H as <- <- <-. repeat split.
Qed.

Lemma created_entry_is_dated_today_witness :
  0 = 0 /\ 0 = 0
  /\ "2025-01-15" = formatDate 0 noon_2025_01_15
  /\ parseQuery 0 noOther noon_2025_01_15 noon_2025_01_15 "LIST TODAY"
     = Return {| type := LIST; from := "2025-01-15"; to := "2025-01-15" |}.
Proof.
  apply (created_entry_is_dated_today 0 noOther noon_2025_01_15 noon_2025_01_15
           (pluginOver unreachable) (fun _ _ => NoAnswer) [] 0 0 None).
  vm_compute. reflexivity.
Defined.

(** ** The polling interval *)




(** * Properties of the list of projects *)

(** ** Pages of managed projects *)

Lemma pagesFrom_succ (pagesOf : Z -> list ProjectFull.t) (first : Z) (count : nat) :
  pagesFrom pagesOf first (S count)
  = (pagesOf first ++ pagesFrom pagesOf (first + 1) count)%list.
Proof.
  unfold pagesFrom. cbn [seq List.map List.concat]. rewrite Z.add_0_r. f_equal.
  rewrite <- seq_shift, map_map. f_equal. apply map_ext. intros i. f_equal. lia.
Qed.

Lemma pagesFrom_last (pagesOf : Z -> list ProjectFull.t) (first : Z) (count : nat) :
  pagesFrom pagesOf first (S count)
  = (pagesFrom pagesOf first count ++ pagesOf (first + Z.of_nat count))%list.
Proof.
  unfold pagesFrom. rewrite seq_S, map_app, concat_app. cbn [List.map List.concat].
  now rewrite app_nil_r.
Qed.

(** [count] pages that answer, each telling of a page after it, are read one
    after the other. *)
Lemma managedPages_run (request : string -> option HarvestProjectsResponse)
  (pagesOf : Z -> list ProjectFull.t) (totals : Z -> Z) (count : nat) :
  forall (fuel : nat) (allProjects : list ProjectFull.t) (page : Z),
    (forall i, (i < count)%nat ->
       request (projectsEndpoint (page + Z.of_nat i))
       = Some {| projects := Some (pagesOf (page + Z.of_nat i));
                 total_pages := totals (page + Z.of_nat i) |}
       /\ page + Z.of_nat i + 1 <= totals (page + Z.of_nat i)) ->
    managedPages (count + fuel) request allProjects page
    = managedPages fuel request (allProjects ++ pagesFrom pagesOf page count)%list
        (page + Z.of_nat count).
Proof.
  induction count as [| count IH]; intros fuel allProjects page H.
  - unfold pagesFrom. cbn [seq List.map List.concat Nat.add Z.of_nat].
    now rewrite app_nil_r, Z.add_0_r.
  - cbn [Nat.add managedPages].
    destruct (H O ltac:(lia)) as [R T]. cbn [Z.of_nat] in R, T.
    rewrite Z.add_0_r in R, T. rewrite R. cbn [projects total_pages].
    apply Z.leb_le in T. rewrite T.
    rewrite IH.
    + rewrite pagesFrom_succ, app_assoc. f_equal. lia.
    + intros i Hi. specialize (H (S i) ltac:(lia)).
      replace (page + 1 + Z.of_nat i) with (page + Z.of_nat (S i)) by lia.
      exact H.
Qed.

(** The pages that all answer with the same number of pages. *)
Lemma getManagedProjects_pages (request : string -> option HarvestProjectsResponse)
  (pagesOf : Z -> list ProjectFull.t) (totalPages : Z) (fuel : nat) :
  (forall page, 1 <= page <= Z.max 1 totalPages ->
     request (projectsEndpoint page)
     = Some {| projects := Some (pagesOf page); total_pages := totalPages |}) ->
  (Z.to_nat (Z.max 1 totalPages) <= fuel)%nat ->
  getManagedProjects fuel request
  = Some (pagesFrom pagesOf 1 (Z.to_nat (Z.max 1 totalPages))).
Proof.
  intros H F. unfold getManagedProjects.
  set (n := Z.to_nat (Z.max 1 totalPages)) in *.
  assert (Hn : Z.of_nat n = Z.max 1 totalPages) by (subst n; lia).
  destruct n as [| k]; [lia|].
  replace fuel with (k + S (fuel - S k))%nat by lia.
  rewrite (managedPages_run request pagesOf (fun _ => totalPages) k).
  - cbn [managedPages app].
    rewrite H by lia. cbn [projects total_pages].
    destruct (Z.leb_spec (1 + Z.of_nat k + 1) totalPages) as [L | L]; [lia|].
    now rewrite pagesFrom_last.
  - intros i Hi. split; [apply H; lia | lia].
Qed.

(** X19.  When every page from 1 to the number of pages answers with its
    projects and that number, [getManagedProjects] ends, within as many
    turns as there are pages, with the projects of these pages in order.
    The first page is read whatever the number: a service that tells of no
    page at all is asked for page 1 and no other. *)
Theorem managed_projects_are_all_pages (request : string -> option HarvestProjectsResponse)
  (pagesOf : Z -> list ProjectFull.t) (totalPages : Z) (fuel : nat) :
  (forall page, 1 <= page <= Z.max 1 totalPages ->
     request (projectsEndpoint page)
     = Some {| projects := Some (pagesOf page); total_pages := totalPages |}) ->
  (Z.to_nat (Z.max 1 totalPages) <= fuel)%nat ->
  getManagedProjects fuel request
  = Some (pagesFrom pagesOf 1 (Z.to_nat (Z.max 1 totalPages))).
Proof. exact (getManagedProjects_pages request pagesOf totalPages fuel). Qed.

Lemma managed_projects_are_all_pages_witness :
  getManagedProjects 2
    (fun endpoint =>
       if String.eqb endpoint (projectsEndpoint 1)
       then Some {| projects := Some [asProjectFull {| id := 1; name := "Alpha" |}];
                    total_pages := 2 |}
       else Some {| projects := Some [asProjectFull {| id := 2; name := "Beta" |}];
                    total_pages := 2 |})
  = Some (pagesFrom
            (fun page => if page =? 1
                         then [asProjectFull {| id := 1; name := "Alpha" |}]
                         else [asProjectFull {| id := 2; name := "Beta" |}])
            1 (Z.to_nat (Z.max 1 2))).
Proof.
  apply (managed_projects_are_all_pages _
           (fun page => if page =? 1
                        then [asProjectFull {| id := 1; name := "Alpha" |}]
                        else [asProjectFull {| id := 2; name := "Beta" |}])
           2 2).
  - intros page Hp. assert (C : page = 1 \/ page = 2) by lia.
    destruct C as [-> | ->]; reflexivity.
  - vm_compute. lia.
Defined.

(** X20.  A page that does not answer ends the listing without an error:
    when the pages before it answered, each telling of a page after it,
    [getManagedProjects] returns the projects of the pages before it. *)
Theorem managed_projects_stop_at_failure
  (request : string -> option HarvestProjectsResponse)
  (pagesOf : Z -> list ProjectFull.t) (totals : Z -> Z) (read fuel : nat) :
  (forall page, 1 <= page <= Z.of_nat read ->
     request (projectsEndpoint page)
     = Some {| projects := Some (pagesOf page); total_pages := totals page |}
     /\ page + 1 <= totals page) ->
  (request (projectsEndpoint (Z.of_nat read + 1)) = None
   \/ exists n, request (projectsEndpoint (Z.of_nat read + 1))
                = Some {| projects := None; total_pages := n |}) ->
  (read < fuel)%nat ->
  getManagedProjects fuel request = Some (pagesFrom pagesOf 1 read).
Proof.
  intros H Fail F. unfold getManagedProjects.
  replace fuel with (read + S (fuel - S read))%nat by lia.
  rewrite (managedPages_run request pagesOf totals read).
  - cbn [managedPages app].
    replace (1 + Z.of_nat read) with (Z.of_nat read + 1) by lia.
    destruct Fail as [-> | [n ->]]; reflexivity.
  - intros i Hi. apply H. lia.
Qed.

Lemma managed_projects_stop_at_failure_witness :
  getManagedProjects 5
    (fun endpoint =>
       if String.eqb endpoint (projectsEndpoint 1)
       then Some {| projects := Some [asProjectFull {| id := 1; name := "Alpha" |}];
                    total_pages := 3 |}
       else None)
  = Some (pagesFrom (fun _ => [asProjectFull {| id := 1; name := "Alpha" |}]) 1 1).
Proof.
  apply (managed_projects_stop_at_failure _
           (fun _ => [asProjectFull {| id := 1; name := "Alpha" |}])
           (fun _ => 3) 1 5).
  - intros page Hp. assert (page = 1) as -> by lia. split; [reflexivity | lia].
  - left. reflexivity.
  - lia.
Defined.

(** ** Maps keyed by the number of a project *)

Lemma mapHas_In {V : Type} (m : NumberMap V) (k : Z) :
  mapHas m k = true <-> In k (List.map fst m).
Proof.
  induction m as [| [k' v'] m IH]; cbn [mapHas List.map fst In].
  - split; [discriminate | tauto].
  - rewrite Bool.orb_true_iff, Z.eqb_eq, IH. tauto.
Qed.

Lemma mapSet_keys {V : Type} (m : NumberMap V) (k : Z) (v : V) :
  List.map fst (mapSet m k v)
  = if mapHas m k then List.map fst m else (List.map fst m ++ [k])%list.
Proof.
  induction m as [| [k' v'] m IH]; cbn [mapHas mapSet List.map fst app]; [reflexivity|].
  destruct (k' =? k) eqn:E; cbn [orb List.map fst]; [reflexivity|].
  rewrite IH. now destruct (mapHas m k).
Qed.

Lemma mapSet_In {V : Type} (m : NumberMap V) (k : Z) (v : V) (k' : Z) (v' : V) :
  In (k', v') (mapSet m k v) -> (k', v') = (k, v) \/ In (k', v') m.
Proof.
  induction m as [| [k0 v0] m IH]; cbn [mapSet In].
  - intros [H | []]. left. now symmetry.
  - destruct (k0 =? k) eqn:E; cbn [In].
    + apply Z.eqb_eq in E. subst k0. intros [H | H]; [left; now symmetry | tauto].
    + intros [H | H]; [tauto|]. destruct (IH H); tauto.
Qed.

Lemma mapSet_NoDup {V : Type} (m : NumberMap V) (k : Z) (v : V) :
  NoDup (List.map fst m) -> NoDup (List.map fst (mapSet m k v)).
Proof.
  intros N. rewrite mapSet_keys. destruct (mapHas m k) eqn:H; [exact N|].
  apply NoDup_app; [exact N | repeat constructor; intros [] |].
  intros x Hx [<- | []]. apply mapHas_In in Hx. congruence.
Qed.

(** The values of a map whose keys are the numbers of its projects. *)
Lemma mapValues_ids (m : NumberMap ProjectFull.t) :
  (forall k v, In (k, v) m -> ProjectFull.id v = k) ->
  List.map ProjectFull.id (mapValues m) = List.map fst m.
Proof.
  intros H. unfold mapValues. rewrite map_map. apply map_ext_in.
  intros [k v] I. cbn [fst snd]. now apply H.
Qed.

(** ** Projects of the recent entries *)

(** What [getRecentProjectsFromTimeEntries] keeps of the entries [entries]:
    one project for each number, the one of the first entry that has it. *)
Lemma recent_map (entries : list HarvestTimeEntry) :
  let m := fold_left addRecent entries [] in
  NoDup (List.map fst m)
  /\ (forall e, In e entries -> In (id (project e)) (List.map fst m))
  /\ (forall k v, In (k, v) m ->
        ProjectFull.id v = k
        /\ exists pre e post,
             entries = (pre ++ e :: post)%list
             /\ v = asProjectFull (project e)
             /\ forall e', In e' pre -> id (project e') <> id (project e)).
Proof.
  induction entries as [| e entries IH] using rev_ind.
  - cbn. split; [constructor|]. split; [intros e [] | intros k v []].
  - rewrite fold_left_app. cbn [fold_left].
    set (m := fold_left addRecent entries []) in *. cbn zeta in IH.
    destruct IH as (N & C & F). unfold addRecent.
    destruct (mapHas m (id (project e))) eqn:H; cbn [negb].
    + split; [exact N|]. split.
      * intros e' I. apply in_app_or in I. destruct I as [I | [<- | []]]; [auto|].
        now apply mapHas_In.
      * intros k v I. destruct (F k v I) as (Ik & pre & e0 & post & -> & -> & Fi).
        split; [exact Ik|]. exists pre, e0, (post ++ [e])%list.
        rewrite <- app_assoc. cbn [app]. auto.
    + split; [now apply mapSet_NoDup|]. split.
      * intros e' I. rewrite mapSet_keys, H. apply in_or_app.
        apply in_app_or in I. destruct I as [I | [<- | []]]; [auto|].
        right. now left.
      * intros k v I. apply mapSet_In in I. destruct I as [I | I].
        -- injection I as -> ->. split; [reflexivity|].
           exists entries, e, []. split; [reflexivity|]. split; [reflexivity|].
           intros e' I' Q. apply C in I'. apply mapHas_In in I'. congruence.
        -- destruct (F k v I) as (Ik & pre & e0 & post & -> & -> & Fi).
           split; [exact Ik|]. exists pre, e0, (post ++ [e])%list.
           rewrite <- app_assoc. cbn [app]. auto.
Qed.

(** X21.  When the address of the recent entries is built and the recent
    entries are answered, [getRecentProjectsFromTimeEntries] returns each
    project of these entries once: no two projects of the list have the
    same number, every entry finds its project's number in the list, and a
    project of the list is the one of the first entry with its number. *)
Theorem recent_projects_once_each (tza now : Z) (plugin : HarvestPlugin) (uid : Z)
  (endpoint : string) (entries : list HarvestTimeEntry) :
  userId plugin = Some uid ->
  uid <> 0 ->
  recentEndpoint tza now uid = Return endpoint ->
  request plugin endpoint = Some {| time_entries := Some entries |} ->
  exists recent,
    getRecentProjectsFromTimeEntries tza now plugin = Return recent
    /\ NoDup (List.map ProjectFull.id recent)
    /\ (forall e, In e entries -> In (id (project e)) (List.map ProjectFull.id recent))
    /\ (forall p, In p recent ->
          exists pre e post,
            entries = (pre ++ e :: post)%list
            /\ p = asProjectFull (project e)
            /\ forall e', In e' pre -> id (project e') <> id (project e)).
Proof.
  intros U N P R.
  set (recent := mapValues (fold_left addRecent entries [])).
  assert (E : recent = mapValues (fold_left addRecent entries [])) by reflexivity.
  exists recent. split.
  { unfold getRecentProjectsFromTimeEntries. rewrite U.
    destruct uid as [| u | u]; [congruence | |]; rewrite P; cbn [bind];
      now rewrite R. }
  destruct (recent_map entries) as (Nd & C & F).
  assert (K : List.map ProjectFull.id recent
              = List.map fst (fold_left addRecent entries [])).
  { rewrite E. apply mapValues_ids. intros k v I. now apply F. }
  rewrite K. split; [exact Nd|]. split; [exact C|].
  intros p I. rewrite E in I. unfold mapValues in I. apply in_map_iff in I.
  destruct I as ([k v] & <- & I). cbn [snd]. now apply F in I.
Qed.

Lemma recent_projects_once_each_witness :
  exists recent,
    getRecentProjectsFromTimeEntries 0 noon_2025_01_15
      (pluginOver (fun _ => HttpResponse 200
         {| time_entries := Some [entry "Alpha" 1; entry "Beta" 2] |}))
    = Return recent
    /\ NoDup (List.map ProjectFull.id recent).
Proof.
  destruct (recent_projects_once_each 0 noon_2025_01_15
              (pluginOver (fun _ => HttpResponse 200
                 {| time_entries := Some [entry "Alpha" 1; entry "Beta" 2] |}))
              42 "/time_entries?from=2024-12-16&user_id=42"
              [entry "Alpha" 1; entry "Beta" 2])
    as (recent & R & N & _).
  - reflexivity.
  - lia.
  - vm_compute. reflexivity.
  - reflexivity.
  - exists recent. split; [exact R | exact N].
Defined.

(** ** The merged list of projects *)

Section Merge.

Variable localeCompare : string -> string -> Z.

(** The map of [fetchAllTrackableProjects] after the managed projects. *)
Lemma managed_map (managedProjects : list ProjectFull.t) :
  let m := fold_left (fun m proj => mapSet m (ProjectFull.id proj) proj)
             managedProjects [] in
  NoDup (List.map fst m)
  /\ (forall p, In p managedProjects -> In (ProjectFull.id p) (List.map fst m))
  /\ (forall k v, In (k, v) m -> ProjectFull.id v = k /\ In v managedProjects).
Proof.
  induction managedProjects as [| p l IH] using rev_ind.
  - cbn. split; [constructor|]. split; [intros p [] | intros k v []].
  - rewrite fold_left_app. cbn [fold_left].
    cbn zeta in IH.
    match goal with |- context [fold_left ?f l ?a] => set (m := fold_left f l a) in * end.
    destruct IH as (N & C & F).
    split; [now apply mapSet_NoDup|]. split.
    + intros q I. rewrite mapSet_keys. apply in_app_or in I.
      destruct (mapHas m (ProjectFull.id p)) eqn:H.
      * destruct I as [I | [<- | []]]; [auto | now apply mapHas_In].
      * apply in_or_app. destruct I as [I | [<- | []]]; [auto | right; now left].
    + intros k v I. apply mapSet_In in I. destruct I as [I | I].
      * injection I as -> ->. split; [reflexivity|]. apply in_or_app. right. now left.
      * destruct (F k v I) as [Ik Iv]. split; [exact Ik|]. apply in_or_app. now left.
Qed.

(** The map after the recent projects: a recent project enters it only
    when no project of the map has its number. *)
Lemma merged_map (managedProjects recentProjects : list ProjectFull.t) :
  let m := fold_left (fun m proj =>
                        if negb (mapHas m (ProjectFull.id proj))
                        then mapSet m (ProjectFull.id proj) proj else m)
             recentProjects
             (fold_left (fun m proj => mapSet m (ProjectFull.id proj) proj)
                managedProjects []) in
  NoDup (List.map fst m)
  /\ (forall p, In p (managedProjects ++ recentProjects)%list ->
        In (ProjectFull.id p) (List.map fst m))
  /\ (forall k v, In (k, v) m ->
        ProjectFull.id v = k
        /\ (In v managedProjects
            \/ In v recentProjects
               /\ forall p, In p managedProjects -> ProjectFull.id p <> k)).
Proof.
  induction recentProjects as [| r l IH] using rev_ind.
  - cbn [fold_left]. destruct (managed_map managedProjects) as (N & C & F).
    rewrite app_nil_r. split; [exact N|]. split; [exact C|].
    intros k v I. destruct (F k v I). tauto.
  - rewrite fold_left_app. cbn [fold_left].
    cbn zeta in IH.
    match goal with |- context [fold_left ?f l ?a] => set (m := fold_left f l a) in * end.
    destruct IH as (N & C & F).
    destruct (mapHas m (ProjectFull.id r)) eqn:H; cbn [negb].
    + split; [exact N|]. split.
      * intros p I. rewrite app_assoc in I. apply in_app_or in I.
        destruct I as [I | [<- | []]]; [auto | now apply mapHas_In].
      * intros k v I. destruct (F k v I) as [Ik [Iv | [Iv D]]];
          (split; [exact Ik|]); [now left | right].
        split; [apply in_or_app; now left | exact D].
    + split; [now apply mapSet_NoDup|]. split.
      * intros p I. rewrite mapSet_keys, H. apply in_or_app.
        rewrite app_assoc in I. apply in_app_or in I.
        destruct I as [I | [<- | []]]; [auto | right; now left].
      * intros k v I. apply mapSet_In in I. destruct I as [I | I].
        -- injection I as -> ->. split; [reflexivity|]. right.
           split; [apply in_or_app; right; now left|].
           intros p Ip Q. assert (Im : In p (managedProjects ++ l)%list)
             by (apply in_or_app; now left).
           apply C in Im. rewrite Q in Im. apply mapHas_In in Im. congruence.
        -- destruct (F k v I) as [Ik [Iv | [Iv D]]];
             (split; [exact Ik|]); [now left | right].
           split; [apply in_or_app; now left | exact D].
Qed.

(** What the merged list holds. *)
Lemma combineProjects_holds (managedProjects recentProjects : list ProjectFull.t) :
  let merged := combineProjects localeCompare managedProjects recentProjects in
  NoDup (List.map ProjectFull.id merged)
  /\ (forall p, In p (managedProjects ++ recentProjects)%list ->
        In (ProjectFull.id p) (List.map ProjectFull.id merged))
  /\ (forall q, In q merged ->
        In q managedProjects
        \/ In q recentProjects
           /\ forall p, In p managedProjects -> ProjectFull.id p <> ProjectFull.id q).
Proof.
  intros merged. unfold combineProjects in merged.
  destruct (merged_map managedProjects recentProjects) as (N & C & F).
  cbn zeta in N, C, F.
  match type of N with context [fold_left ?f recentProjects ?a] =>
    set (m := fold_left f recentProjects a) in * end.
  assert (P : Permutation merged (mapValues m)) by apply sort_Permutation.
  assert (K : List.map ProjectFull.id (mapValues m) = List.map fst m).
  { apply mapValues_ids. intros k v I. now apply F. }
  split; [|split].
  - apply (Permutation_NoDup (l := List.map ProjectFull.id (mapValues m))).
    + apply Permutation_map. now symmetry.
    + now rewrite K.
  - intros p I. apply (Permutation_in (l := List.map ProjectFull.id (mapValues m))).
    + apply Permutation_map. now symmetry.
    + rewrite K. now apply C.
  - intros q I. apply (Permutation_in _ P) in I. unfold mapValues in I.
    apply in_map_iff in I. destruct I as ([k v] & <- & I). cbn [snd].
    destruct (F k v I) as [-> R]. exact R.
Qed.

(** X22.  The list that [fetchAllTrackableProjects] builds from the managed
    and the recent projects holds every number of either list once, and a
    recent project only when no managed project has its number: the
    managed project wins. *)
Theorem merged_projects_managed_first (managedProjects recentProjects : list ProjectFull.t) :
  let merged := combineProjects localeCompare managedProjects recentProjects in
  NoDup (List.map ProjectFull.id merged)
  /\ (forall p, In p (managedProjects ++ recentProjects)%list ->
        In (ProjectFull.id p) (List.map ProjectFull.id merged))
  /\ (forall q, In q merged ->
        In q managedProjects
        \/ In q recentProjects
           /\ forall p, In p managedProjects -> ProjectFull.id p <> ProjectFull.id q).
Proof. exact (combineProjects_holds managedProjects recentProjects). Qed.

(** X23.  With a comparison of names that never puts each of two names
    after the other, the list that [fetchAllTrackableProjects] builds is in
    the order of the names: no project stands right before one whose name
    compares lower. *)
Theorem merged_projects_sorted_by_name (managedProjects recentProjects : list ProjectFull.t) :
  (forall a b, 0 < localeCompare a b -> localeCompare b a <= 0) ->
  Sorted (fun p q => localeCompare (ProjectFull.name p) (ProjectFull.name q) <= 0)
         (combineProjects localeCompare managedProjects recentProjects).
Proof.
  intros A. unfold combineProjects.
  set (cmp := fun a b : ProjectFull.t =>
                inject_Z (localeCompare (ProjectFull.name a) (ProjectFull.name b))).
  assert (S : forall l, Sorted (inOrder cmp) l ->
              Sorted (fun p q => localeCompare (ProjectFull.name p) (ProjectFull.name q) <= 0) l).
  { induction 1 as [| x l S IH H]; constructor; [exact IH|].
    destruct H as [| y l H]; constructor. unfold inOrder, cmp in H.
    change 0%Q with (inject_Z 0) in H. now rewrite <- Zle_Qle in H. }
  apply S, sort_Sorted. intros a b H. unfold cmp in *.
  change 0%Q with (inject_Z 0) in *. rewrite <- Zlt_Qlt in H. rewrite <- Zle_Qle.
  now apply A.
Qed.

End Merge.

Lemma merged_projects_sorted_by_name_witness :
  Sorted (fun p q => Z.of_nat (String.length (ProjectFull.name p))
                     - Z.of_nat (String.length (ProjectFull.name q)) <= 0)
         (combineProjects
            (fun a b => Z.of_nat (String.length a) - Z.of_nat (String.length b))
            [asProjectFull {| id := 1; name := "Garden" |}]
            [asProjectFull {| id := 2; name := "Shed" |}]).
Proof.
  apply (merged_projects_sorted_by_name
           (fun a b => Z.of_nat (String.length a) - Z.of_nat (String.length b))).
  intros a b H. lia.
Defined.

(** ** The window of the recent entries *)

Lemma padZeros_2 (s : string) : padZeros 2 s = padStart2 s.
Proof. destruct s as [| c [| c' s]]; reflexivity. Qed.

(** For a year of four digits, [toISOString] writes the date that
    [formatDate] writes in a zone without offset. *)
Lemma isoDate_formatDate (date : Z) :
  1000 <= ES.YearFromTime date <= 9999 ->
  isoDate date = formatDate 0 date.
Proof.
  intros Hy. unfold isoDate, formatDate, getFullYear, getMonth, getDate, LocalTime.
  rewrite Z.add_0_r, !padZeros_2. cbv zeta.
  set (y := ES.YearFromTime date) in *.
  assert (B : (0 <=? y) && (y <=? 9999) = true)
    by (apply andb_true_intro; split; apply Z.leb_le; lia).
  rewrite B. f_equal.
  assert (Ey : y = 1000 * (y / 1000) + 100 * (y / 100 mod 10)
                   + 10 * (y / 10 mod 10) + y mod 10) by zdiv.
  rewrite Ey, year_text by zdiv. reflexivity.
Qed.

(** A time in a year of four digits is within the range of [Date]. *)
Lemma four_digit_year_valid (t : Z) :
  1000 <= ES.YearFromTime t <= 9999 -> Z.abs t <= maxTime.
Proof.
  intros Hy. unfold ES.YearFromTime in Hy.
  pose proof (YearFromDay_bounds (ES.Day t)) as B.
  pose proof (DayFromYear_mono 1000 _ (proj1 Hy)) as L.
  assert (U : ES.DayFromYear (ES.YearFromDay (ES.Day t) + 1) <= ES.DayFromYear 10000)
    by (apply DayFromYear_mono; lia).
  change (ES.DayFromYear 1000) with (-354285) in L.
  change (ES.DayFromYear 10000) with 2932897 in U.
  assert (D : -354285 <= ES.Day t < 2932897) by lia.
  clear - D. unfold ES.Day, ES.msPerDay, maxTime in *. zdiv.
Qed.

(** X24.  The entries that [getRecentProjectsFromTimeEntries] asks for start
    at the date, in UTC, of the instant thirty local days before now: in a
    year of four digits the [from] of the address names that day, which is
    29 to 31 days before the local day of now in a zone less than a day
    from UTC, and 30 days before it in a zone without offset. *)
Theorem recent_window_start (tza now uid : Z) :
  let thirtyDaysAgo := setDateValue tza now (getDate tza now - 30) in
  1000 <= ES.YearFromTime thirtyDaysAgo <= 9999 ->
  - ES.msPerDay <= tza <= ES.msPerDay ->
  exists fromDate,
    recentEndpoint tza now uid
    = Return ("/time_entries?from=" ++ fromDate ++ "&user_id=" ++ NumberToString uid)
    /\ dayOfISO fromDate = Some (ES.Day thirtyDaysAgo)
    /\ localDay tza thirtyDaysAgo = localDay tza now - 30
    /\ localDay tza now - 31 <= ES.Day thirtyDaysAgo <= localDay tza now - 29
    /\ (tza = 0 -> ES.Day thirtyDaysAgo = localDay tza now - 30).
Proof.
  intros t Hy Hz. exists (isoDate t). split.
  { unfold recentEndpoint. cbv zeta. fold t.
    rewrite (setDate_Valid tza now _ (four_digit_year_valid _ Hy)). reflexivity. }
  assert (L : localDay tza t = localDay tza now - 30).
  { unfold t. rewrite localDay_setDate. lia. }
  split.
  - rewrite isoDate_formatDate by exact Hy.
    rewrite formatDate_read_back.
    + rewrite localDay_unfold. unfold LocalTime. now rewrite Z.add_0_r.
    + unfold getFullYear, LocalTime. now rewrite Z.add_0_r.
  - split; [exact L|].
    assert (B : localDay tza t - 1 <= ES.Day t <= localDay tza t + 1).
    { rewrite localDay_unfold. clear L Hy. clearbody t.
      unfold LocalTime, ES.Day, ES.msPerDay in *. zdiv. }
    split; [lia|]. intros Z0. rewrite <- L, localDay_unfold. unfold LocalTime.
    now rewrite Z0, Z.add_0_r.
Qed.

Lemma recent_window_start_witness :
  exists fromDate,
    recentEndpoint 0 noon_2025_01_15 42
    = Return ("/time_entries?from=" ++ fromDate ++ "&user_id=" ++ NumberToString 42)
    /\ dayOfISO fromDate
       = Some (ES.Day (setDateValue 0 noon_2025_01_15 (getDate 0 noon_2025_01_15 - 30)))
    /\ localDay 0 (setDateValue 0 noon_2025_01_15 (getDate 0 noon_2025_01_15 - 30))
       = localDay 0 noon_2025_01_15 - 30
    /\ localDay 0 noon_2025_01_15 - 31
       <= ES.Day (setDateValue 0 noon_2025_01_15 (getDate 0 noon_2025_01_15 - 30))
       <= localDay 0 noon_2025_01_15 - 29
    /\ (0 = 0 -> ES.Day (setDateValue 0 noon_2025_01_15 (getDate 0 noon_2025_01_15 - 30))
                 = localDay 0 noon_2025_01_15 - 30).
Proof.
  apply (recent_window_start 0 noon_2025_01_15 42).
  - vm_compute. split; discriminate.
  - vm_compute. split; discriminate.
Defined.

(** ** A refresh of the list *)

Lemma in_pagesFrom (pagesOf : Z -> list ProjectFull.t) (first : Z) (count : nat)
  (p : ProjectFull.t) (i : nat) :
  (i < count)%nat -> In p (pagesOf (first + Z.of_nat i)) ->
  In p (pagesFrom pagesOf first count).
Proof.
  intros Hi I. unfold pagesFrom. apply in_concat.
  exists (pagesOf (first + Z.of_nat i)). split; [|exact I].
  apply in_map_iff. exists i. split; [reflexivity|]. apply in_seq. lia.
Qed.

(** The recent projects are returned when now is thirty days inside the
    range of [Date]. *)
Lemma recent_projects_returned (tza now : Z) (plugin : HarvestPlugin) :
  Z.abs now + 30 * ES.msPerDay <= maxTime ->
  exists recent, getRecentProjectsFromTimeEntries tza now plugin = Return recent.
Proof.
  intros M. unfold getRecentProjectsFromTimeEntries, recentEndpoint. cbv zeta.
  rewrite setDate_Valid.
  - cbn [toISODate bind].
    destruct (userId plugin) as [[| u | u] |]; eauto;
      destruct (request plugin _) as [data |]; eauto;
      destruct (time_entries data); eauto.
  - rewrite setDateValue_shift. unfold ES.msPerDay, maxTime in *. lia.
Qed.

(** X25.  A refresh, or a first call with nothing kept, reads the service:
    when every page of the managed projects answers and now is thirty days
    inside the range of [Date], [fetchAllTrackableProjects] returns a list
    without two projects of the same number, in which every project of
    every page has its number; the list kept from before is not looked
    at. *)
Theorem refresh_lists_every_page (localeCompare : string -> string -> Z)
  (tza now : Z) (plugin : HarvestPlugin)
  (requestProjects : string -> option HarvestProjectsResponse)
  (pagesOf : Z -> list ProjectFull.t) (totalPages : Z) (fuel : nat)
  (projectCache : list ProjectFull.t) (forceRefresh : bool) :
  (forall page, 1 <= page <= Z.max 1 totalPages ->
     requestProjects (projectsEndpoint page)
     = Some {| projects := Some (pagesOf page); total_pages := totalPages |}) ->
  (Z.to_nat (Z.max 1 totalPages) <= fuel)%nat ->
  projectCache = [] \/ forceRefresh = true ->
  Z.abs now + 30 * ES.msPerDay <= maxTime ->
  exists listed,
    fetchAllTrackableProjects localeCompare tza now fuel plugin requestProjects
      projectCache forceRefresh = Some (Return listed)
    /\ NoDup (List.map ProjectFull.id listed)
    /\ forall page p, 1 <= page <= Z.max 1 totalPages -> In p (pagesOf page) ->
         In (ProjectFull.id p) (List.map ProjectFull.id listed).
Proof.
  intros H F R M. unfold fetchAllTrackableProjects.
  assert (G : Nat.ltb 0 (List.length projectCache) && negb forceRefresh = false).
  { destruct R as [-> | ->]; [reflexivity | apply Bool.andb_false_r]. }
  rewrite G, (getManagedProjects_pages requestProjects pagesOf totalPages fuel H F).
  destruct (recent_projects_returned tza now plugin M) as [recent ->]. cbn [bind].
  eexists. split; [reflexivity|].
  match goal with |- context [combineProjects _ ?m ?r] =>
    destruct (combineProjects_holds localeCompare m r) as (N & C & _) end.
  split; [exact N|]. intros page p Hp I. apply C, in_or_app. left.
  apply (in_pagesFrom pagesOf 1 _ p (Z.to_nat (page - 1))); [lia|].
  now replace (1 + Z.of_nat (Z.to_nat (page - 1))) with page by lia.
Qed.

Lemma refresh_lists_every_page_witness :
  exists listed,
    fetchAllTrackableProjects
      (fun a b => Z.of_nat (String.length a) - Z.of_nat (String.length b))
      0 noon_2025_01_15 1 (pluginOver answeringNothing)
      (fun _ => Some {| projects := Some [asProjectFull {| id := 1; name := "Garden" |}];
                        total_pages := 1 |})
      [asProjectFull {| id := 7; name := "Kept" |}] true = Some (Return listed)
    /\ NoDup (List.map ProjectFull.id listed)
    /\ forall page p, 1 <= page <= Z.max 1 1 ->
         In p [asProjectFull {| id := 1; name := "Garden" |}] ->
         In (ProjectFull.id p) (List.map ProjectFull.id listed).
Proof.
  apply (refresh_lists_every_page _ 0 noon_2025_01_15 (pluginOver answeringNothing) _
           (fun _ => [asProjectFull {| id := 1; name := "Garden" |}]) 1 1
           [asProjectFull {| id := 7; name := "Kept" |}] true).
  - intros page Hp. reflexivity.
  - vm_compute. lia.
  - right. reflexivity.
  - vm_compute. discriminate.
Defined.

